(** * sns_classes: discovery and validation of [sns] pipeline output

    A shallow embedding of [classes.py] (the classes [SnsWESAnalysisOutput]
    and [SnsAnalysisSample]) together with the properties that the
    specification states about them.

    Python dictionaries are finite maps ([gmap]), Python sets are finite
    sets ([gset]), exceptions are an inductive type carried by a result
    type, and the methods that write to the object ([validations], the
    logger) are functions in a state-and-exception monad over the object. *)

From Stdlib Require Import String Ascii List Bool.
From stdpp Require Import base option list strings gmap fin_maps fin_sets sorting.

Local Open Scope string_scope.

(** ** Python values used by the module *)

(** The exceptions that the code of the module can raise.  The two
    classes declared by [classes.py] carry their message; the built-in
    ones carry the offending key, attribute or path. *)
Inductive exn : Type :=
  | AnalysisItemMissing (message : string)
  | AnalysisInvalid (message : string)
  | KeyError (key : string)
  | IndexError
  | AttributeError (attr : string)
  | IOError (path : string).

Inductive result (A : Type) : Type :=
  | Return (a : A)
  | Raise (e : exn).
Arguments Return {A} a.
Arguments Raise {A} e.

Definition result_bind {A B} (r : result A) (k : A → result B) : result B :=
  match r with
  | Return a => k a
  | Raise e => Raise e
  end.

Definition result_map {A B} (f : A → B) (r : result A) : result B :=
  result_bind r (λ a, Return (f a)).

(** [mapR f l] runs [f] on the elements of [l] from left to right and stops
    at the first exception, as a [for] loop that appends to a list does. *)
Fixpoint mapR {A B} (f : A → result B) (l : list A) : result (list B) :=
  match l with
  | [] => Return []
  | x :: l' =>
      result_bind (f x) (λ y, result_bind (mapR f l') (λ ys, Return (y :: ys)))
  end.

(** Truth value of a Python string: the empty string is false. *)
Definition truthy (s : string) : bool := negb (String.eqb s EmptyString).

(** Truth value of a [str]-or-[None] value. *)
Definition truthy_opt (o : option string) : bool :=
  match o with
  | Some s => truthy s
  | None => false
  end.

(** The idiom [if not x: x = fallback] on a [str]-or-[None] argument. *)
Definition or_default (x fallback : option string) : option string :=
  if truthy_opt x then x else fallback.

(** [pat in line] on strings. *)
Fixpoint str_in (pat s : string) : bool :=
  String.prefix pat s ||
  match s with
  | EmptyString => false
  | String _ s' => str_in pat s'
  end.

Definition nl : string := String (ascii_of_nat 10) EmptyString.

(** ['sep'.join(l)]. *)
Fixpoint str_join (sep : string) (l : list string) : string :=
  match l with
  | [] => EmptyString
  | [x] => x
  | x :: l' => x ++ sep ++ str_join sep l'
  end.

(** [str] of a string inside a tuple (escapes are not rendered) and of a
    boolean. *)
Definition py_repr (s : string) : string := "'" ++ s ++ "'".
Definition py_bool (b : bool) : string := if b then "True" else "False".

(** ** The file system and the other collaborators *)

(** An entry of the file system: a directory, or a regular file with its
    lines as [readlines] returns them. *)
Inductive node : Type :=
  | Dir
  | File (lines : list string).

(** A row that [csv.DictReader] yields: header name to cell. *)
Abbreviation row := (gmap string string) (only parsing).

(** Values of [sns_config['analysis_output_index']]: the file-name patterns
    listed for an output step.  The module never reads them. *)
Abbreviation attributes := (list string) (only parsing).

(** The [sns_config] dictionary; the module reads two of its keys, each of
    which may be missing. *)
Record SnsConfig : Type := {
  cfg_email_recipients : option string;
  cfg_analysis_output_index : option (gmap string attributes)
}.

(** [not sns_config] for a dictionary-or-[None]: [None] and the dictionary
    without keys are false. *)
Definition cfg_truthy (c : option SnsConfig) : bool :=
  match c with
  | Some c => bool_decide (is_Some (cfg_email_recipients c)) ||
              bool_decide (is_Some (cfg_analysis_output_index c))
  | None => false
  end.

(** Everything outside the module that its methods observe: the file
    system (absolute path to entry), [os.path.abspath], the default
    configuration [config.sns] loaded from [sns.yml], and the two readers
    of Python's [csv] module applied to the lines of a file. *)
Record World : Type := {
  fs : gmap string node;
  abspath : string → string;
  config_sns : SnsConfig;
  csv_reader : list string → list (list string);
  csv_DictReader : list string → list row
}.

(** [os.path.exists]. *)
Definition path_exists (w : World) (p : string) : bool :=
  bool_decide (is_Some (fs w !! p)).

(** [os.path.isdir]. *)
Definition path_isdir (w : World) (p : string) : bool :=
  match fs w !! p with
  | Some Dir => true
  | _ => false
  end.

(** [open(p, 'rb')] followed by [readlines]: the lines of a regular file,
    [IOError] for anything else. *)
Definition open_lines (w : World) (p : string) : result (list string) :=
  match fs w !! p with
  | Some (File lines) => Return lines
  | _ => Raise (IOError p)
  end.

(** [os.path.join a b] for POSIX paths. *)
Definition path_join (a b : string) : string :=
  if String.prefix "/" b then b
  else if String.eqb a EmptyString then b
  else match String.get (String.length a - 1) a with
       | Some "/"%char => a ++ b
       | _ => a ++ "/" ++ b
       end.

(** ** The pattern matcher ([util.find]) *)

Inductive search_type : Type := SearchAll | SearchFile | SearchDir.
Inductive match_mode : Type := MatchAny | MatchAll.

(** Glob matching of a whole name against a pattern: [*] stands for any
    run of characters and [?] for one character; every other character
    stands for itself. *)
Fixpoint fnmatch (pat : string) : string → bool :=
  match pat with
  | EmptyString => λ name, String.eqb name EmptyString
  | String c pat' =>
      if Ascii.eqb c "*" then
        fix star (name : string) : bool :=
          fnmatch pat' name ||
          match name with
          | EmptyString => false
          | String _ name' => star name'
          end
      else if Ascii.eqb c "?" then
        λ name,
          match name with
          | EmptyString => false
          | String _ name' => fnmatch pat' name'
          end
      else
        λ name,
          match name with
          | EmptyString => false
          | String d name' => Ascii.eqb c d && fnmatch pat' name'
          end
  end.

Fixpoint has_slash (s : string) : bool :=
  match s with
  | EmptyString => false
  | String c s' => Ascii.eqb c "/" || has_slash s'
  end.

(** Number of directory levels between a search directory and an entry
    given by its path relative to that directory. *)
Fixpoint depth (rel : string) : nat :=
  match rel with
  | EmptyString => 0
  | String c rel' => (if Ascii.eqb c "/" then 1 else 0) + depth rel'
  end.

(** [os.path.basename]. *)
Fixpoint basename (p : string) : string :=
  match p with
  | EmptyString => EmptyString
  | String c p' =>
      if has_slash p' then basename p'
      else if Ascii.eqb c "/" then p' else p
  end.

(** Path of [p] relative to the directory [d], when [p] lies below [d]. *)
Definition relative_to (d p : string) : option string :=
  let pre := path_join d EmptyString in
  if String.prefix pre p && negb (String.eqb pre p)
  then Some (String.substring (String.length pre)
               (String.length p - String.length pre) p)
  else None.

Definition kind_matches (t : search_type) (n : node) : bool :=
  match t, n with
  | SearchAll, _ => true
  | SearchFile, File _ => true
  | SearchDir, Dir => true
  | _, _ => false
  end.

Definition name_matches (inclusion exclusion : list string)
    (mode : match_mode) (name : string) : bool :=
  (match mode with
   | MatchAny => existsb (λ pat, fnmatch pat name) inclusion
   | MatchAll => forallb (λ pat, fnmatch pat name) inclusion
   end) &&
  negb (existsb (λ pat, fnmatch pat name) exclusion).

Definition within_level (level_limit : option nat) (rel : string) : bool :=
  match level_limit with
  | Some n => Nat.leb (depth rel) n
  | None => true
  end.

Definition entry_matches (search_dir : string)
    (inclusion exclusion : list string) (t : search_type)
    (level_limit : option nat) (mode : match_mode)
    (e : string * node) : bool :=
  match relative_to search_dir e.1 with
  | Some rel =>
      within_level level_limit rel && kind_matches t e.2 &&
      name_matches inclusion exclusion mode (basename rel)
  | None => false
  end.

Definition limit {A} (num_limit : option nat) (l : list A) : list A :=
  match num_limit with
  | Some n => take n l
  | None => l
  end.

(** Modelled from the spec: [find.find] of the [util] package, which is not
    among the sources.  The entries below [search_dir] (no deeper than
    [level_limit] levels, [Some 0] being the immediate children) of the
    requested kind whose name matches the inclusion patterns (one of them
    or all of them, by [mode]) and none of the exclusion patterns, in the
    iteration order of the file system, cut to [num_limit] results.  A
    search directory that is not an existing directory has no entries
    below it; the result may be empty and the search never raises. *)
Definition find (w : World) (search_dir : string)
    (inclusion_patterns exclusion_patterns : list string)
    (t : search_type) (num_limit level_limit : option nat)
    (mode : match_mode) : list string :=
  if path_isdir w search_dir then
    limit num_limit
      (List.filter
         (entry_matches search_dir inclusion_patterns exclusion_patterns
            t level_limit mode)
         (map_to_list (fs w))).*1
  else [].

(** ** The path registry ([util.classes.AnalysisItem]) *)

(** Modelled from the spec: the registry of [AnalysisItem] of the [util]
    package, which is not among the sources.  [dirs] and [files] map a
    name to a list of paths; a name that was never set reads as the empty
    list; [set_dir] and [set_file] store the given list of paths under the
    name. *)
Module AnalysisItem.

Definition get (registry : gmap string (list string)) (name : string)
    : list string :=
  default [] (registry !! name).

Definition set (registry : gmap string (list string)) (name : string)
    (path : list string) : gmap string (list string) :=
  <[name := path]> registry.

(** Modelled from the spec: the reducer of a list of paths, which gives
    the path when the list holds exactly one and [None] otherwise. *)
Definition list_none (l : list string) : option string :=
  match l with
  | [x] => Some x
  | _ => None
  end.

End AnalysisItem.

(** ** Logging *)

Inductive level : Type := DEBUG | INFO | WARNING | ERROR.

(** A record emitted on the logger of the object: the level, the format
    string of the message and the values formatted into it. *)
Record log_record : Type := {
  levelname : level;
  message : string;
  payload : list string
}.

(** ** Methods: logging, state and exceptions *)

(** A method that reads [self], writes to its logger and may raise: the
    records it emits, in order, and its outcome.  The records emitted
    before an exception are kept. *)
Definition Logged (A : Type) : Type := list log_record * result A.

Definition lret {A} (a : A) : Logged A := ([], Return a).
Definition lraise {A} (e : exn) : Logged A := ([], Raise e).
Definition llift {A} (r : result A) : Logged A := ([], r).
Definition emit (lv : level) (msg : string) (args : list string)
    : Logged unit :=
  ([{| levelname := lv; message := msg; payload := args |}], Return tt).
Definition lbind {A B} (m : Logged A) (k : A → Logged B) : Logged B :=
  match m with
  | (l, Return a) => ((l ++ (k a).1)%list, (k a).2)
  | (l, Raise e) => (l, Raise e)
  end.

Declare Scope logged_scope.
Delimit Scope logged_scope with logged.
Notation "x <- m ;; k" := (lbind m (λ x, k))
  (at level 100, m at next level, right associativity) : logged_scope.
Notation "m ;;; k" := (lbind m (λ _, k))
  (at level 100, right associativity) : logged_scope.

(** A method that also assigns attributes of [self]: the object before the
    call to the object after it and the outcome.  After an exception the
    object keeps what had been written to it. *)
Definition M (S A : Type) : Type := S → S * result A.

Definition ret {S A} (a : A) : M S A := λ s, (s, Return a).
Definition bind {S A B} (m : M S A) (k : A → M S B) : M S B :=
  λ s, match m s with
       | (s', Return a) => k a s'
       | (s', Raise e) => (s', Raise e)
       end.
Definition get_self {S} : M S S := λ s, (s, Return s).
Definition modify {S} (f : S → S) : M S unit := λ s, (f s, Return tt).

Declare Scope method_scope.
Delimit Scope method_scope with method.
Notation "x <- m ;; k" := (bind m (λ x, k))
  (at level 100, m at next level, right associativity) : method_scope.
Notation "m ;;; k" := (bind m (λ _, k))
  (at level 100, right associativity) : method_scope.

(** [all] and [any] over a list of booleans. *)
Definition py_all (l : list bool) : bool := forallb (λ b, b) l.
Definition py_any (l : list bool) : bool := existsb (λ b, b) l.

Declare Scope result_scope.
Delimit Scope result_scope with result.
Notation "x <- r ;; k" := (result_bind r (λ x, k))
  (at level 100, r at next level, right associativity) : result_scope.

(** A [for] loop that updates an accumulator and stops at the first
    exception. *)
Fixpoint foldR {A B} (f : B → A → result B) (l : list A) (acc : B)
    : result B :=
  match l with
  | [] => Return acc
  | x :: l' => result_bind (f acc x) (foldR f l')
  end.

(** [str] of a [str]-or-[None] value. *)
Definition py_str_opt (o : option string) : string :=
  match o with
  | Some s => s
  | None => "None"
  end.

Definition dq : string := String (ascii_of_nat 34) EmptyString.

(** ** The configuration handed from an analysis to its samples *)

(** The dictionary that [get_analysis_config] builds, one field per key. *)
Module AnalysisConfig.

Record t : Type := {
  analysis_id : string;
  analysis_dir : string;
  results_id : string;
  dirs : gmap string (list string);
  files : gmap string (list string);
  static_files : gmap string string;
  analysis_is_valid : bool
}.

End AnalysisConfig.

(** ** [SnsAnalysisSample] *)

Module SnsAnalysisSample.

Record t : Type := {
  id : string;
  analysis_config : AnalysisConfig.t;
  sns_config : SnsConfig;
  search_pattern : string;
  analysis_id : string;
  analysis_dir : string;
  results_id : string;
  static_files : gmap string string;
  analysis_is_valid : bool;
  dirs : gmap string (list string);
  files : gmap string (list string)
}.

Definition set_dir (name : string) (path : list string) (self : t) : t :=
  {| id := id self; analysis_config := analysis_config self;
     sns_config := sns_config self;
     search_pattern := search_pattern self;
     analysis_id := analysis_id self; analysis_dir := analysis_dir self;
     results_id := results_id self; static_files := static_files self;
     analysis_is_valid := analysis_is_valid self;
     dirs := AnalysisItem.set (dirs self) name path;
     files := files self |}.

Definition set_file (name : string) (path : list string) (self : t) : t :=
  {| id := id self; analysis_config := analysis_config self;
     sns_config := sns_config self;
     search_pattern := search_pattern self;
     analysis_id := analysis_id self; analysis_dir := analysis_dir self;
     results_id := results_id self; static_files := static_files self;
     analysis_is_valid := analysis_is_valid self;
     dirs := dirs self;
     files := AnalysisItem.set (files self) name path |}.

(** The loop over [analysis_config['dirs'].items()]. *)
Definition _init_dirs (self : t) : t :=
  foldl (λ self '(name, paths),
           if bool_decide (name ∉ ["_parent"])
           then set_dir name paths self else self)
    self (map_to_list (AnalysisConfig.dirs (analysis_config self))).

(** The loop over [analysis_config['files'].items()]. *)
Definition _init_files (self : t) : t :=
  foldl (λ self '(name, paths), set_file name paths self)
    self (map_to_list (AnalysisConfig.files (analysis_config self))).

(** The constructor: the registries start empty, [_init_analysis_attrs]
    copies the scalars of the configuration, then [_init_dirs] and
    [_init_files] fill the registries. *)
Definition __init__ (id : string) (analysis_config : AnalysisConfig.t)
    (sns_config : SnsConfig) : t :=
  _init_files (_init_dirs
    {| id := id; analysis_config := analysis_config;
       sns_config := sns_config;
       search_pattern := id ++ "*";
       analysis_id := AnalysisConfig.analysis_id analysis_config;
       analysis_dir := AnalysisConfig.analysis_dir analysis_config;
       results_id := AnalysisConfig.results_id analysis_config;
       static_files := AnalysisConfig.static_files analysis_config;
       analysis_is_valid :=
         AnalysisConfig.analysis_is_valid analysis_config;
       dirs := ∅; files := ∅ |}).

Definition get_output_files (w : World) (self : t)
    (analysis_step pattern : string) : result (list string) :=
  let search_dir :=
    AnalysisItem.list_none
      (AnalysisItem.get (AnalysisConfig.dirs (analysis_config self))
         analysis_step) in
  let patterns := [pattern; search_pattern self] in
  match search_dir with
  | Some d =>
      if truthy d
      then Return (find w d patterns [] SearchFile None None MatchAll)
      else Raise (AnalysisItemMissing
                    ("search_dir not found for " ++ analysis_step ++
                     ", dir: " ++ py_str_opt search_dir))
  | None =>
      Raise (AnalysisItemMissing
               ("search_dir not found for " ++ analysis_step ++
                ", dir: " ++ py_str_opt search_dir))
  end.

End SnsAnalysisSample.

(** ** [SnsWESAnalysisOutput] *)

(** An entry of the [validations] dictionary. *)
Record validation : Type := {
  status : bool;
  note : string
}.

Module SnsWESAnalysisOutput.

(** The attributes of the object.  [is_valid] is [None] as long as the
    attribute has not been assigned; every other attribute is assigned
    before it is read ([validations] by [validate] itself). *)
Record t : Type := {
  id : string;
  dir : string;
  sns_config : SnsConfig;
  results_id : string;
  email_recipients : string;
  analysis_output_index : gmap string attributes;
  dirs : gmap string (list string);
  files : gmap string (list string);
  static_files : gmap string string;
  is_valid : option bool;
  validations : gmap string validation;
  logger : list log_record
}.

Definition with_dirs (d : gmap string (list string)) (self : t) : t :=
  {| id := id self; dir := dir self; sns_config := sns_config self;
     results_id := results_id self;
     email_recipients := email_recipients self;
     analysis_output_index := analysis_output_index self;
     dirs := d; files := files self;
     static_files := static_files self; is_valid := is_valid self;
     validations := validations self; logger := logger self |}.

Definition with_files (f : gmap string (list string)) (self : t) : t :=
  {| id := id self; dir := dir self; sns_config := sns_config self;
     results_id := results_id self;
     email_recipients := email_recipients self;
     analysis_output_index := analysis_output_index self;
     dirs := dirs self; files := f;
     static_files := static_files self; is_valid := is_valid self;
     validations := validations self; logger := logger self |}.

Definition with_static_files (f : gmap string string) (self : t) : t :=
  {| id := id self; dir := dir self; sns_config := sns_config self;
     results_id := results_id self;
     email_recipients := email_recipients self;
     analysis_output_index := analysis_output_index self;
     dirs := dirs self; files := files self;
     static_files := f; is_valid := is_valid self;
     validations := validations self; logger := logger self |}.

Definition with_is_valid (b : option bool) (self : t) : t :=
  {| id := id self; dir := dir self; sns_config := sns_config self;
     results_id := results_id self;
     email_recipients := email_recipients self;
     analysis_output_index := analysis_output_index self;
     dirs := dirs self; files := files self;
     static_files := static_files self; is_valid := b;
     validations := validations self; logger := logger self |}.

Definition with_validations (v : gmap string validation) (self : t) : t :=
  {| id := id self; dir := dir self; sns_config := sns_config self;
     results_id := results_id self;
     email_recipients := email_recipients self;
     analysis_output_index := analysis_output_index self;
     dirs := dirs self; files := files self;
     static_files := static_files self; is_valid := is_valid self;
     validations := v; logger := logger self |}.

Definition with_logger (l : list log_record) (self : t) : t :=
  {| id := id self; dir := dir self; sns_config := sns_config self;
     results_id := results_id self;
     email_recipients := email_recipients self;
     analysis_output_index := analysis_output_index self;
     dirs := dirs self; files := files self;
     static_files := static_files self; is_valid := is_valid self;
     validations := validations self; logger := l |}.

(** A call, inside a method that assigns attributes, of a method that
    only logs: the records are appended to what the logger of the object
    has emitted. *)
Definition call {A} (m : t → Logged A) : M t A :=
  λ self, (with_logger (logger self ++ (m self).1) self, (m self).2).

Definition set_dir (name : string) (path : list string) (self : t) : t :=
  with_dirs (AnalysisItem.set (dirs self) name path) self.

Definition set_file (name : string) (path : list string) (self : t) : t :=
  with_files (AnalysisItem.set (files self) name path) self.

Definition get_dirs (self : t) (name : string) : list string :=
  AnalysisItem.get (dirs self) name.

Definition get_files (self : t) (name : string) : list string :=
  AnalysisItem.get (files self) name.

(** The search that [_init_dirs] runs for a key of the index: a
    directory named by the key among the immediate children of the
    analysis directory, at most one result. *)
Definition dir_search (w : World) (root name : string) : list string :=
  find w root [name] [] SearchDir (Some 1) (Some 0) MatchAny.

(** The body of the loop of [_init_dirs]. *)
Definition init_dir (w : World) (self : t) (item : string * attributes)
    : t :=
  if bool_decide (item.1 ∉ ["_parent"])
  then set_dir item.1 (dir_search w (dir self) item.1) self
  else self.

(** The loop over [analysis_output_index.items()]. *)
Definition _init_dirs (w : World) (self : t) : t :=
  foldl (init_dir w) self (map_to_list (analysis_output_index self)).

Definition expected_static_files (self : t) : gmap string string :=
  <["summary_combined_wes" :=
      path_join (dir self) "summary-combined.wes.csv"]>
  (<["settings" := path_join (dir self) "settings.txt"]>
  (<["samples_fastq_raw" := path_join (dir self) "samples.fastq-raw.csv"]>
  (<["paired_samples" := path_join (dir self) "samples.pairs.csv"]> ∅))).

Definition _init_static_files (self : t) : t :=
  with_static_files (expected_static_files self) self.

Definition _init_files (w : World) (self : t) : t :=
  set_file "targets_bed"
    (find w (dir self) ["*.bed"] ["*.pad10.bed"] SearchFile (Some 1)
       (Some 0) MatchAny)
    self.

Definition get_analysis_config (self : t) : result AnalysisConfig.t :=
  match is_valid self with
  | Some b =>
      Return
        {| AnalysisConfig.analysis_id := id self;
           AnalysisConfig.analysis_dir := dir self;
           AnalysisConfig.results_id := results_id self;
           AnalysisConfig.dirs := dirs self;
           AnalysisConfig.files := files self;
           AnalysisConfig.static_files := static_files self;
           AnalysisConfig.analysis_is_valid := b |}
  | None => Raise (AttributeError "is_valid")
  end.

Definition qsub_logdir_missing : string :=
  "Qsub log dir not found for the analysis".

Definition qsub_logfiles_missing : string :=
  "Qsub log files not found for the analysis.".

(** [find.find(logdir, search_type = 'file')]: the inclusion patterns are
    left to their default, read here as the pattern that every name
    matches. *)
Definition get_qsub_logfiles (w : World) (self : t)
    (logdir : option string) : result (list string) :=
  match or_default logdir
          (AnalysisItem.list_none (get_dirs self "logs-qsub")) with
  | Some d =>
      if truthy d
      then Return (find w d ["*"] [] SearchFile None None MatchAny)
      else Raise (AnalysisItemMissing qsub_logdir_missing)
  | None => Raise (AnalysisItemMissing qsub_logdir_missing)
  end.

(** The two inner loops of [check_qsub_log_errors_present] over the lines
    of one log file. *)
Definition scan_log (err_patterns : list string) (log_file : string)
    (contains_errors : gmap string bool) (lines : list string)
    : gmap string bool :=
  foldl (λ acc line,
           foldl (λ acc err_pattern,
                    if str_in err_pattern line
                    then <[log_file := true]> acc else acc)
             acc err_patterns)
    contains_errors lines.

Definition truthy_list {A} (l : option (list A)) : bool :=
  match l with
  | Some (_ :: _) => true
  | _ => false
  end.

Definition check_qsub_log_errors_present (w : World) (self : t)
    (log_files : option (list string)) (err_patterns : list string)
    : Logged bool :=
  (log_files <- (if truthy_list log_files
                 then lret (default [] log_files)
                 else llift (get_qsub_logfiles w self None)) ;;
   if negb (truthy_list (Some log_files))
   then lraise (AnalysisItemMissing qsub_logfiles_missing)
   else
     contains_errors <-
       llift (foldR (λ acc log_file,
                       result_map (scan_log err_patterns log_file acc)
                         (open_lines w log_file))
                log_files (∅ : gmap string bool)) ;;
     if Nat.ltb (size contains_errors) 1 then lret false
     else
       let values := (map_to_list contains_errors).*2 in
       (if py_any values
        then
          emit ERROR "Error messages were found in some qsub logs" [] ;;;
          emit DEBUG "qsub log files containing errors: {0}"
            (List.filter (λ kv, Bool.eqb kv.2 true)
               (map_to_list contains_errors)).*1
        else lret tt) ;;;
       lret (py_any values))%logged.

Definition summary_file_missing : string :=
  "Could not find the summary_combined_wes_file (" ++ dq ++
  "summary-combined.wes.csv" ++ dq ++ ") for the analysis.".

Definition get_summary_combined_contents (w : World) (self : t)
    (summary_combined_wes_file : option string) : result (list row) :=
  match or_default summary_combined_wes_file
          (static_files self !! "summary_combined_wes") with
  | Some f =>
      if truthy f
      then result_map (csv_DictReader w) (open_lines w f)
      else Raise (AnalysisItemMissing summary_file_missing)
  | None => Raise (AnalysisItemMissing summary_file_missing)
  end.

(** The values of a row under the keys other than ['#SAMPLE']. *)
Definition other_cells (r : row) : list string :=
  (List.filter (λ kv, negb (String.eqb kv.1 "#SAMPLE")) (map_to_list r)).*2.

(** The body of the loop over the rows of the summary table. *)
Definition scan_row (err_pattern : string)
    (contains_errors : gmap string bool) (r : row)
    : result (gmap string bool) :=
  match r !! "#SAMPLE" with
  | Some sampleID =>
      Return
        (foldl (λ acc item,
                  if String.eqb item err_pattern
                  then <[sampleID := true]> acc else acc)
           contains_errors (other_cells r))
  | None => Raise (KeyError "#SAMPLE")
  end.

Definition summary_errors_found : string :=
  "Error messages were found in " ++ dq ++ "summary-combined.wes.csv" ++
  dq ++ " file for samples: {0}".

Definition summary_combined_contains_errors (w : World) (self : t)
    (summary_combined_wes_rows : option (list row))
    (err_pattern : string) : Logged bool :=
  (rows <- (if truthy_list summary_combined_wes_rows
            then lret (default [] summary_combined_wes_rows)
            else llift (get_summary_combined_contents w self None)) ;;
   (if negb (truthy_list (Some rows))
    then emit ERROR
           "Could not find the summary_combined_wes_file contents" []
    else lret tt) ;;;
   contains_errors <-
     llift (foldR (scan_row err_pattern) rows (∅ : gmap string bool)) ;;
   if Nat.ltb (size contains_errors) 1 then lret false
   else
     let values := (map_to_list contains_errors).*2 in
     (if py_any values
      then emit WARNING summary_errors_found
             (List.filter (λ kv, Bool.eqb kv.2 true)
                (map_to_list contains_errors)).*1
      else lret tt) ;;;
     lret (py_any values))%logged.

(** [self.validations.update(validation)]. *)
Definition update_validations (v : gmap string validation) : M t unit :=
  modify (λ self, with_validations (v ∪ validations self) self).

(** The four entries that [validate] records. *)
Definition dir_exists_validation (w : World) (self : t) : validation :=
  {| status := path_exists w (dir self);
     note := "Whether or not the analysis directory (" ++ dir self ++
             ") exists" |}.

(** [str] of a triple [(key, value, exists)]. *)
Definition existence_str (e : string * string * bool) : string :=
  "(" ++ py_repr e.1.1 ++ ", " ++ py_repr e.1.2 ++ ", " ++
  py_bool e.2 ++ ")".

Definition expected_static_files_existences (w : World) (self : t)
    : list (string * string * bool) :=
  (λ kv, (kv.1, kv.2, path_exists w kv.2)) <$>
    map_to_list (expected_static_files self).

Definition expected_static_files_validation (w : World) (self : t)
    : validation :=
  {| status := py_all (snd <$> expected_static_files_existences w self);
     note := "Whether or not all of the expected files in the " ++
             "analysis exist;" ++ nl ++
             str_join nl
               (existence_str <$> expected_static_files_existences w self)
  |}.

Definition qsub_validation (errors_present : bool) : validation :=
  {| status := negb errors_present;
     note := "Whether or not errors are present in the qsub logs" |}.

Definition summary_note : string :=
  "Whether or not entries are present in the summary combined file".

Definition summary_validation (contains_errors : bool) : validation :=
  {| status := negb contains_errors; note := summary_note |}.

Definition validate (w : World) : M t bool :=
  (modify (with_validations ∅) ;;;
   self <- get_self ;;
   update_validations
     {[ "dir_exists" := dir_exists_validation w self ]} ;;;
   update_validations
     {[ "expected_static_files_exist" :=
          expected_static_files_validation w self ]} ;;;
   qsub_errors <-
     call (λ self, check_qsub_log_errors_present w self None ["ERROR:"]) ;;
   update_validations
     {[ "no_qsub_log_errors_present" := qsub_validation qsub_errors ]} ;;;
   summary_errors <-
     call (λ self, summary_combined_contains_errors w self None "X") ;;
   update_validations
     {[ "no_summary_combined_errors" :=
          summary_validation summary_errors ]} ;;;
   self <- get_self ;;
   let all_valid := status <$> (map_to_list (validations self)).*2 in
   call (λ _, emit DEBUG ("analysis validations:" ++ nl ++ "{0}")
                (map_to_list (validations self)).*1) ;;;
   let is_valid := py_all all_valid in
   call (λ _, emit INFO "Analysis output passed validation: {0}"
                [py_bool is_valid]) ;;;
   ret is_valid)%method.

Definition samples_fastq_raw_missing : string :=
  "The " ++ dq ++ "samples_fastq_raw" ++ dq ++
  " file could not be found for the analysis.".

(** [row[0]]. *)
Definition first_column (r : list string) : result string :=
  match r with
  | x :: _ => Return x
  | [] => Raise IndexError
  end.

Definition get_samplesIDs_from_samples_fastq_raw (w : World) (self : t)
    (samples_fastq_raw_file : option string) : result (list string) :=
  match or_default samples_fastq_raw_file
          (static_files self !! "samples_fastq_raw") with
  | Some f =>
      if truthy f
      then
        (lines <- open_lines w f ;;
         samplesIDs <- mapR first_column (csv_reader w lines) ;;
         Return (elements (list_to_set samplesIDs : gset string)))%result
      else Raise (AnalysisItemMissing samples_fastq_raw_missing)
  | None => Raise (AnalysisItemMissing samples_fastq_raw_missing)
  end.

Definition get_samples (w : World) (self : t)
    (samplesIDs : option (list string))
    : result (list SnsAnalysisSample.t) :=
  (samplesIDs <- (if truthy_list samplesIDs
                  then Return (default [] samplesIDs)
                  else get_samplesIDs_from_samples_fastq_raw w self None) ;;
   mapR (λ samplesID,
           analysis_config <- get_analysis_config self ;;
           Return (SnsAnalysisSample.__init__ samplesID analysis_config
                     (sns_config self)))
     samplesIDs)%result.

(** [not self.sns_config.get('analysis_output_index', None)]. *)
Definition index_truthy (c : SnsConfig) : bool :=
  match cfg_analysis_output_index c with
  | Some index => negb (bool_decide (index = ∅))
  | None => false
  end.

(** [self.sns_config[key]]. *)
Definition getitem {A} (key : string) (o : option A) : result A :=
  match o with
  | Some a => Return a
  | None => Raise (KeyError key)
  end.

(** The configuration that the constructor keeps: the one passed, or
    [config.sns] when none is passed or the one passed has no
    ['analysis_output_index']. *)
Definition select_config (w : World) (sns_config : option SnsConfig)
    : SnsConfig :=
  let config :=
    match sns_config with
    | Some c => if cfg_truthy sns_config then c else config_sns w
    | None => config_sns w
    end in
  if index_truthy config then config else config_sns w.

(** What the logger has emitted when the configuration is chosen. *)
Definition init_log (w : World) (id : string)
    (sns_config : option SnsConfig) : list log_record :=
  let config :=
    match sns_config with
    | Some c => if cfg_truthy sns_config then c else config_sns w
    | None => config_sns w
    end in
  {| levelname := DEBUG;
     message := "Initialized logging for analysis: {0}";
     payload := [id] |} ::
  (if index_truthy config then []
   else [{| levelname := DEBUG;
            message := dq ++ "analysis_output_index" ++ dq ++
                       " key not found in passed " ++ dq ++
                       "sns_config" ++ dq ++
                       " dict, loading default sns_config instead";
            payload := [] |}]).

(** The object after [_init_attrs]: the registries are empty (as
    [AnalysisItem.__init__] leaves them) and [is_valid] is not
    assigned. *)
Definition init_attrs (w : World) (dir id : string)
    (sns_config : option SnsConfig) (results_id : option string)
    (email : string) (index : gmap string attributes) : t :=
  {| id := id; dir := abspath w dir;
     sns_config := select_config w sns_config;
     results_id := py_str_opt results_id;
     email_recipients := email; analysis_output_index := index;
     dirs := ∅; files := ∅; static_files := ∅; is_valid := None;
     validations := ∅; logger := init_log w id sns_config |}.

(** The constructor.  [results_id] is [None] when it is not passed and
    is stored through [str]; an exception leaves no object. *)
Definition __init__ (w : World) (dir id : string)
    (sns_config : option SnsConfig) (results_id : option string)
    (debug : bool) : result t :=
  let config := select_config w sns_config in
  (email <- getitem "email_recipients" (cfg_email_recipients config) ;;
   index <- getitem "analysis_output_index"
              (cfg_analysis_output_index config) ;;
   let self := init_attrs w dir id sns_config results_id email index in
   let self := _init_dirs w self in
   let self := _init_files w self in
   let self := _init_static_files self in
   if negb debug
   then match validate w self with
        | (self, Return b) => Return (with_is_valid (Some b) self)
        | (_, Raise e) => Raise e
        end
   else Return self)%result.

End SnsWESAnalysisOutput.

Import SnsWESAnalysisOutput.

(** ** Notions used to state the properties *)

(** A row of the summary table is offending when one of its cells outside
    the identifier column equals the error token. *)
Definition offending (err_pattern : string) (r : gmap string string) : Prop :=
  ∃ key, key ≠ "#SAMPLE" ∧ r !! key = Some err_pattern.

Definition row_error (err_pattern : string) (r : gmap string string)
    : bool :=
  existsb (λ item, String.eqb item err_pattern) (other_cells r).

(** The identifiers of the offending rows. *)
Definition offending_ids (err_pattern : string)
    (rows : list (gmap string string)) : list string :=
  omap (λ r, if row_error err_pattern r then r !! "#SAMPLE" else None) rows.

(** The first-column values of the rows of a manifest. *)
Definition first_columns (rows : list (list string)) : list string :=
  omap head rows.

(** The contents of [validations] after two, three and four checks. *)
Definition recorded2 (w : World) (self : t) : gmap string validation :=
  <["expected_static_files_exist" :=
      expected_static_files_validation w self]>
    (<["dir_exists" := dir_exists_validation w self]> ∅).

Definition recorded3 (w : World) (self : t) (qsub_errors : bool)
    : gmap string validation :=
  <["no_qsub_log_errors_present" := qsub_validation qsub_errors]>
    (recorded2 w self).

Definition recorded4 (w : World) (self : t)
    (qsub_errors summary_errors : bool) : gmap string validation :=
  <["no_summary_combined_errors" := summary_validation summary_errors]>
    (recorded3 w self qsub_errors).

(** The two records that [validate] emits before it returns. *)
Definition closing_records (v : gmap string validation)
    : list log_record :=
  [{| levelname := DEBUG;
      message := "analysis validations:" ++ nl ++ "{0}";
      payload := (map_to_list v).*1 |};
   {| levelname := INFO;
      message := "Analysis output passed validation: {0}";
      payload := [py_bool (py_all (status <$> (map_to_list v).*2))] |}].

(** The queue logs of an analysis (none when the directory of the queue
    logs is not resolved) and the rows of its summary table (none when
    the table cannot be read). *)
Definition queue_logs (w : World) (self : t) : list string :=
  match get_qsub_logfiles w self None with
  | Return logs => logs
  | Raise _ => []
  end.

Definition summary_rows (w : World) (self : t)
    : list (gmap string string) :=
  match get_summary_combined_contents w self None with
  | Return rows => rows
  | Raise _ => []
  end.

(** The conditions of a valid analysis: the root directory exists, the
    four static files exist, no line of a queue log holds the error
    marker, and no row of the summary table is offending. *)
Record valid_output (w : World) (self : t) : Prop := {
  root_exists : path_isdir w (dir self) = true;
  static_files_exist :
    ∀ name p, expected_static_files self !! name = Some p →
              path_exists w p = true;
  queue_logs_clean :
    ∀ f lines line, f ∈ queue_logs w self →
      fs w !! f = Some (File lines) → line ∈ lines →
      str_in "ERROR:" line = false;
  summary_clean :
    ∀ r, r ∈ summary_rows w self → ¬ offending "X" r
}.

(** A row of the summary table has its identifier; a row of the manifest
    has a first column. *)
Definition has_id (r : gmap string string) : bool :=
  match r !! "#SAMPLE" with
  | Some _ => true
  | None => false
  end.

Definition has_first_column (r : list string) : bool :=
  match r with
  | [] => false
  | _ :: _ => true
  end.

(** The same conditions as a test that can be run. *)
Definition clean_log (w : World) (f : string) : bool :=
  match fs w !! f with
  | Some (File lines) => forallb (λ line, negb (str_in "ERROR:" line)) lines
  | _ => true
  end.

Definition valid_outputb (w : World) (self : t) : bool :=
  path_isdir w (dir self) &&
  forallb (λ kv, path_exists w kv.2)
    (map_to_list (expected_static_files self)) &&
  forallb (clean_log w) (queue_logs w self) &&
  forallb (λ r, negb (row_error "X" r)) (summary_rows w self).

(** ** Concrete analysis directories *)

(** Readers for unquoted comma-separated lines. *)
Fixpoint split_commas (cur s : string) : list string :=
  match s with
  | EmptyString => [cur]
  | String c s' =>
      if Ascii.eqb c ","
      then cur :: split_commas EmptyString s'
      else split_commas (cur ++ String c EmptyString) s'
  end.

Definition plain_reader (lines : list string) : list (list string) :=
  split_commas EmptyString <$> lines.

Definition plain_DictReader (lines : list string)
    : list (gmap string string) :=
  match plain_reader lines with
  | header :: rows => (λ r, list_to_map (zip header r)) <$> rows
  | [] => []
  end.

Definition demo_config : SnsConfig :=
  {| cfg_email_recipients := Some "lab@example.org";
     cfg_analysis_output_index :=
       Some (<["_parent" := []]>
             (<["BAM-DD" := [".dd.bam"]]>
             (<["logs-qsub" := []]> ∅))) |}.

Definition demo_world (entries : gmap string node) : World :=
  {| fs := entries;
     abspath := λ p, p;
     config_sns := demo_config;
     csv_reader := plain_reader;
     csv_DictReader := plain_DictReader |}.

Definition clean_summary : node :=
  File ["#SAMPLE,READS,DEPTH"; "S1,1000,80"; "S2,900,75"].

Definition manifest : node :=
  File ["S1,/fq/S1_R1.fastq.gz"; "S1,/fq/S1_R2.fastq.gz";
        "S2,/fq/S2_R1.fastq.gz"].

(** The entries of an analysis directory [/run] with two samples, for a
    given manifest and summary table; the directory of the queue logs is
    there and holds no file. *)
Definition run_entries (manifest summary : node) : gmap string node :=
  list_to_map
    [("/run", Dir);
     ("/run/samples.pairs.csv", File ["#SAMPLE-T,#SAMPLE-N"; "S1,S2"]);
     ("/run/samples.fastq-raw.csv", manifest);
     ("/run/settings.txt", File ["genome hg19"]);
     ("/run/summary-combined.wes.csv", summary);
     ("/run/targets.bed", File []);
     ("/run/targets.pad10.bed", File []);
     ("/run/logs-qsub", Dir);
     ("/run/BAM-DD", Dir);
     ("/run/BAM-DD/S1.bam", File []);
     ("/run/BAM-DD/S2.bam", File [])].

(** A valid analysis: one clean queue log, a summary table without the
    error token. *)
Definition valid_world : World :=
  demo_world
    (<["/run/logs-qsub/align.o1" := File ["started"; "finished"]]>
       (run_entries manifest clean_summary)).

(** The same analysis without any queue log in [logs-qsub]. *)
Definition empty_logs_world : World :=
  demo_world (run_entries manifest clean_summary).

(** The same analysis without the directory [logs-qsub]. *)
Definition no_logdir_world : World :=
  demo_world (delete "/run/logs-qsub" (run_entries manifest clean_summary)).

(** An analysis whose summary table has the error token in a cell of
    sample [S1]. *)
Definition summaryX_world : World :=
  demo_world
    (<["/run/logs-qsub/align.o1" := File ["started"; "finished"]]>
       (run_entries manifest
          (File ["#SAMPLE,READS,DEPTH"; "S1,1000,X"; "S2,900,75"]))).

(** A file system where [/run] is a regular file, and one where nothing
    exists. *)
Definition file_root_world : World :=
  demo_world {["/run" := File ["not a directory"]]}.

Definition missing_root_world : World := demo_world ∅.

(** The analysis without its manifest, and with a manifest of no row. *)
Definition no_manifest_world : World :=
  demo_world
    (delete "/run/samples.fastq-raw.csv"
       (run_entries manifest clean_summary)).

Definition empty_manifest_world : World :=
  demo_world (run_entries (File []) clean_summary).

(** The object that the constructor builds for [/run] in debug mode. *)
Definition demo_analysis (w : World) : t :=
  _init_static_files
    (_init_files w
       (_init_dirs w
          (init_attrs w "/run" "run1" None None "lab@example.org"
             (<["_parent" := []]>
              (<["BAM-DD" := [".dd.bam"]]>
              (<["logs-qsub" := []]> ∅)))))).

(** A configuration handed to samples in which the step [BAM-DD] is
    resolved and no other step is. *)
Definition demo_analysis_config : AnalysisConfig.t :=
  {| AnalysisConfig.analysis_id := "run1";
     AnalysisConfig.analysis_dir := "/run";
     AnalysisConfig.results_id := "None";
     AnalysisConfig.dirs := {["BAM-DD" := ["/run/BAM-DD"]]};
     AnalysisConfig.files := ∅;
     AnalysisConfig.static_files := ∅;
     AnalysisConfig.analysis_is_valid := true |}.


(** ** Further notions *)

(** A queue log has an error when one of its lines holds one of the error
    patterns; a path that is not a regular file has none. *)
Definition log_has_error (w : World) (err_patterns : list string)
    (log_file : string) : bool :=
  match fs w !! log_file with
  | Some (File lines) =>
      existsb (λ line, existsb (λ pat, str_in pat line) err_patterns) lines
  | _ => false
  end.

(** The queue logs that have an error. *)
Definition error_logs (w : World) (err_patterns log_files : list string)
    : list string :=
  List.filter (log_has_error w err_patterns) log_files.

(** An analysis with an error line in one of its two queue logs. *)
Definition qsub_errors_world : World :=
  demo_world
    (<["/run/logs-qsub/align.o1" := File ["started"; "finished"]]>
     (<["/run/logs-qsub/call.o2" :=
          File ["started"; "ERROR: out of memory"]]>
        (run_entries manifest clean_summary))).

(** An analysis without its settings file, and one without its summary
    table. *)
Definition no_settings_world : World :=
  demo_world
    (delete "/run/settings.txt"
       (<["/run/logs-qsub/align.o1" := File ["started"; "finished"]]>
          (run_entries manifest clean_summary))).

Definition no_summary_world : World :=
  demo_world
    (delete "/run/summary-combined.wes.csv"
       (<["/run/logs-qsub/align.o1" := File ["started"; "finished"]]>
          (run_entries manifest clean_summary))).

(** Two samples agree on everything but their registries. *)
Definition same_scalars (s s' : SnsAnalysisSample.t) : Prop :=
  SnsAnalysisSample.id s' = SnsAnalysisSample.id s ∧
  SnsAnalysisSample.analysis_config s' =
    SnsAnalysisSample.analysis_config s ∧
  SnsAnalysisSample.sns_config s' = SnsAnalysisSample.sns_config s ∧
  SnsAnalysisSample.search_pattern s' =
    SnsAnalysisSample.search_pattern s ∧
  SnsAnalysisSample.analysis_id s' = SnsAnalysisSample.analysis_id s ∧
  SnsAnalysisSample.analysis_dir s' = SnsAnalysisSample.analysis_dir s ∧
  SnsAnalysisSample.results_id s' = SnsAnalysisSample.results_id s ∧
  SnsAnalysisSample.static_files s' = SnsAnalysisSample.static_files s ∧
  SnsAnalysisSample.analysis_is_valid s' =
    SnsAnalysisSample.analysis_is_valid s.

(** The bodies of the two loops of the constructor of a sample. *)
Definition sample_dir_step (self : SnsAnalysisSample.t)
    (item : string * list string) : SnsAnalysisSample.t :=
  let '(name, paths) := item in
  if bool_decide (name ∉ ["_parent"])
  then SnsAnalysisSample.set_dir name paths self else self.

Definition sample_file_step (self : SnsAnalysisSample.t)
    (item : string * list string) : SnsAnalysisSample.t :=
  let '(name, paths) := item in SnsAnalysisSample.set_file name paths self.

(** What a sample built for an analysis inherits from it. *)
Definition inherits (self : t) (b : bool) (sample : SnsAnalysisSample.t)
    : Prop :=
  SnsAnalysisSample.search_pattern sample =
    SnsAnalysisSample.id sample ++ "*" ∧
  SnsAnalysisSample.dirs sample = delete "_parent" (dirs self) ∧
  SnsAnalysisSample.files sample = files self ∧
  SnsAnalysisSample.static_files sample = static_files self ∧
  SnsAnalysisSample.analysis_id sample = id self ∧
  SnsAnalysisSample.analysis_dir sample = dir self ∧
  SnsAnalysisSample.results_id sample = results_id self ∧
  SnsAnalysisSample.analysis_is_valid sample = b.
#[local] Set Warnings "-clear-no-such-hyp".

(** ** Outcomes *)

Lemma Return_inj {A} (a b : A) : Return a = Return b → a = b.
Proof. intros H. by injection H. Qed.

(** ** The pattern matcher *)

Section PatternMatcher.

Context (w : World).

Lemma find_not_dir d inc exc t n l m :
  path_isdir w d = false → find w d inc exc t n l m = [].
Proof. intros H. unfold find. by rewrite H. Qed.

Lemma not_exists_not_dir p :
  path_exists w p = false → path_isdir w p = false.
Proof.
  unfold path_exists, path_isdir. intros H.
  destruct (fs w !! p) as [n|] eqn:E; [|done].
  rewrite bool_decide_eq_false in H. destruct H. by eexists.
Qed.

Lemma isdir_exists p : path_isdir w p = true → path_exists w p = true.
Proof.
  intros H. destruct (path_exists w p) eqn:E; [done|].
  apply not_exists_not_dir in E. congruence.
Qed.

Lemma limit_subseteq {A} n (l : list A) x : x ∈ limit n l → x ∈ l.
Proof.
  destruct n as [n|]; simpl; [|done].
  intros H. eapply subseteq_take; eauto.
Qed.

(** What a search returns was matched: it is an entry of the file system
    below the search directory that passes the filters. *)
Lemma find_matches d inc exc t n l m p :
  p ∈ find w d inc exc t n l m →
  ∃ nd, fs w !! p = Some nd ∧ entry_matches d inc exc t l m (p, nd) = true.
Proof.
  unfold find. destruct (path_isdir w d); [|by intros ?%elem_of_nil].
  intros H%limit_subseteq.
  apply list_elem_of_fmap in H as [[q nd] [-> H]].
  apply list_elem_of_In, filter_In in H as [H1 H2].
  apply list_elem_of_In, elem_of_map_to_list in H1. eauto.
Qed.

(** A search for files returns regular files. *)
Lemma find_file d inc exc n l m p :
  p ∈ find w d inc exc SearchFile n l m →
  ∃ lines, fs w !! p = Some (File lines).
Proof.
  intros (nd & Hnd & Hm)%find_matches.
  unfold entry_matches in Hm. cbn [fst snd] in Hm.
  destruct (relative_to d p); [|done].
  destruct nd; simpl in Hm.
  - by rewrite andb_false_r in Hm.
  - eauto.
Qed.

(** With [MatchAll], the name of a result matches every inclusion
    pattern. *)
Lemma find_all_patterns d inc exc t n l p :
  p ∈ find w d inc exc t n l MatchAll →
  ∃ rel, relative_to d p = Some rel ∧
         ∀ pat, pat ∈ inc → fnmatch pat (basename rel) = true.
Proof.
  intros (nd & Hnd & Hm)%find_matches.
  unfold entry_matches in Hm. cbn [fst snd] in Hm.
  destruct (relative_to d p) as [rel|]; [|done].
  exists rel. split; [done|].
  apply andb_prop in Hm as [_ Hm]. unfold name_matches in Hm.
  apply andb_prop in Hm as [Hm _].
  rewrite forallb_forall in Hm. intros pat Hpat.
  by apply Hm, list_elem_of_In.
Qed.

End PatternMatcher.

(** ** Construction of the registries *)

Section Construction.

Context (w : World).

Lemma init_dir_parent s a : init_dir w s ("_parent", a) = s.
Proof. done. Qed.

Lemma init_dir_other s k a :
  k ≠ "_parent" →
  init_dir w s (k, a) = set_dir k (dir_search w (dir s) k) s.
Proof.
  intros Hk. unfold init_dir. cbn [fst].
  rewrite bool_decide_eq_true_2; [done|]. set_solver.
Qed.

Lemma with_dirs_twice d d' (s : t) :
  with_dirs d (with_dirs d' s) = with_dirs d s.
Proof. reflexivity. Qed.

Lemma with_dirs_same (s : t) : with_dirs (dirs s) s = s.
Proof. by destruct s. Qed.

(** The loop of [_init_dirs] assigns [dirs] and nothing else. *)
Lemma init_dirs_fold_frame l s :
  with_dirs (dirs s) (foldl (init_dir w) s l) = s.
Proof.
  revert s. induction l as [|[k a] l IH]; intros s.
  - apply with_dirs_same.
  - cbn [foldl]. destruct (decide (k = "_parent")) as [->|Hk].
    + rewrite init_dir_parent. apply IH.
    + rewrite init_dir_other by done.
      specialize (IH (set_dir k (dir_search w (dir s) k) s)).
      apply (f_equal (with_dirs (dirs s))) in IH.
      rewrite with_dirs_twice in IH. rewrite IH.
      unfold set_dir. rewrite with_dirs_twice. apply with_dirs_same.
Qed.

Lemma init_dirs_fold_lookup l s name :
  dirs (foldl (init_dir w) s l) !! name =
    if bool_decide (name ∈ l.*1 ∧ name ≠ "_parent")
    then Some (dir_search w (dir s) name)
    else dirs s !! name.
Proof.
  revert s. induction l as [|[k a] l IH]; intros s.
  - cbn [foldl]. case_bool_decide as H; [|done].
    destruct H as [H _]. by apply elem_of_nil in H.
  - cbn [foldl fmap list_fmap fst]. rewrite IH.
    destruct (decide (k = "_parent")) as [->|Hk].
    + rewrite init_dir_parent.
      apply (f_equal (λ b : bool, if b then _ else _)).
      apply bool_decide_ext. set_solver.
    + rewrite init_dir_other by done.
      cbn [set_dir dir dirs with_dirs]. unfold AnalysisItem.set.
      destruct (decide (k = name)) as [->|Hne].
      * rewrite lookup_insert_eq.
        rewrite (bool_decide_eq_true_2 (name ∈ name :: l.*1 ∧ _));
          [|split; [set_solver|done]].
        by case_bool_decide.
      * rewrite lookup_insert_ne by done.
        apply (f_equal (λ b : bool, if b then _ else _)).
        apply bool_decide_ext. set_solver.
Qed.

(** After [_init_dirs], every key of the index other than ['_parent']
    has the result of its search as its entry. *)
Lemma init_dirs_lookup s name :
  name ∈ dom (analysis_output_index s) → name ≠ "_parent" →
  dirs (_init_dirs w s) !! name = Some (dir_search w (dir s) name).
Proof.
  intros Hdom Hne. unfold _init_dirs. rewrite init_dirs_fold_lookup.
  rewrite bool_decide_eq_true_2; [done|]. split; [|done].
  apply elem_of_dom in Hdom as [a Ha].
  apply list_elem_of_fmap. exists (name, a). split; [done|].
  by apply elem_of_map_to_list.
Qed.

(** When no search finds anything, every name reads as unresolved. *)
Lemma init_dirs_unresolved s name :
  dirs s = ∅ → (∀ k, dir_search w (dir s) k = []) →
  get_dirs (_init_dirs w s) name = [].
Proof.
  intros Hd Hs. unfold get_dirs, AnalysisItem.get, _init_dirs.
  rewrite init_dirs_fold_lookup. case_bool_decide.
  - by rewrite Hs.
  - by rewrite Hd, lookup_empty.
Qed.

End Construction.

(** ** The two content checks *)

Section SummaryCheck.

Lemma other_cells_elem r item :
  item ∈ other_cells r ↔ ∃ key, key ≠ "#SAMPLE" ∧ r !! key = Some item.
Proof.
  unfold other_cells. rewrite list_elem_of_fmap. split.
  - intros [[k v] [-> H]]. apply list_elem_of_In, filter_In in H as [H1 H2].
    apply list_elem_of_In, elem_of_map_to_list in H1. simpl in *.
    exists k. split; [|done]. intros ->. by rewrite String.eqb_refl in H2.
  - intros (k & Hk & Hl). exists (k, item). split; [done|].
    apply list_elem_of_In, filter_In. split.
    + by apply list_elem_of_In, elem_of_map_to_list.
    + simpl. apply negb_true_iff, String.eqb_neq. done.
Qed.

Lemma row_error_offending pat r : row_error pat r = true ↔ offending pat r.
Proof.
  unfold row_error, offending. rewrite existsb_exists. split.
  - intros (item & Hin & Heq). apply String.eqb_eq in Heq as ->.
    by apply other_cells_elem, list_elem_of_In.
  - intros H. exists pat. split; [|apply String.eqb_refl].
    by apply list_elem_of_In, other_cells_elem.
Qed.

Lemma scan_cells pat sid cells (acc : gmap string bool) :
  foldl (λ acc item, if String.eqb item pat then <[sid := true]> acc else acc) acc cells
  = if existsb (λ item, String.eqb item pat) cells then <[sid := true]> acc else acc.
Proof.
  revert acc. induction cells as [|c cells IH]; intros acc; [done|].
  simpl. rewrite IH. destruct (String.eqb c pat); simpl; [|done].
  destruct (existsb _ cells); [|done]. by rewrite insert_insert_eq.
Qed.

Lemma scan_rows_spec pat rows (acc : gmap string bool) :
  (∀ r, r ∈ rows → is_Some (r !! "#SAMPLE")) →
  ∃ ce, foldR (scan_row pat) rows acc = Return ce ∧
        ∀ sid, ce !! sid = if bool_decide (sid ∈ offending_ids pat rows)
                           then Some true else acc !! sid.
Proof.
  revert acc. induction rows as [|r rows IH]; intros acc Hkeys.
  - exists acc. split; [done|]. intros sid.
    rewrite bool_decide_eq_false_2; [done|]. apply not_elem_of_nil.
  - destruct (Hkeys r) as [sid0 Hsid0]; [set_solver|].
    cbn [foldR]. unfold scan_row at 1. rewrite Hsid0. cbn [result_bind].
    rewrite scan_cells. fold (row_error pat r).
    destruct (IH (if row_error pat r then <[sid0:=true]> acc else acc))
      as (ce & Hce & Hlook); [set_solver|].
    exists ce. split; [done|]. intros sid. rewrite Hlook.
    unfold offending_ids. cbn [omap list_omap]. 
    destruct (row_error pat r) eqn:Herr; rewrite ?Hsid0.
    + fold (offending_ids pat rows).
      destruct (decide (sid = sid0)) as [->|Hne].
      * rewrite lookup_insert_eq.
        rewrite (bool_decide_eq_true_2 (sid0 ∈ sid0 :: _)); [|set_solver].
        by case_bool_decide.
      * rewrite lookup_insert_ne by done.
        apply (f_equal (λ b : bool, if b then _ else _)).
        apply bool_decide_ext. set_solver.
    + done.
Qed.

Lemma offending_ids_elem pat rows sid :
  sid ∈ offending_ids pat rows ↔
  ∃ r, r ∈ rows ∧ r !! "#SAMPLE" = Some sid ∧ offending pat r.
Proof.
  unfold offending_ids. rewrite list_elem_of_omap. split.
  - intros (r & Hr & H). exists r. destruct (row_error pat r) eqn:E; [|done].
    by apply row_error_offending in E.
  - intros (r & Hr & Hs & Ho). exists r. split; [done|].
    apply row_error_offending in Ho. by rewrite Ho.
Qed.

(** An error dictionary holds [True] values only, so there are errors
    exactly when it is not empty. *)
Lemma contains_errors_decision (ce : gmap string bool) :
  (∀ k b, ce !! k = Some b → b = true) →
  (if Nat.ltb (size ce) 1 then false else py_any (map_to_list ce).*2)
  = negb (bool_decide (ce = ∅)).
Proof.
  intros Htrue. destruct (decide (ce = ∅)) as [->|Hne].
  - by rewrite map_size_empty.
  - rewrite (bool_decide_eq_false_2 _ Hne). simpl.
    assert (size ce ≠ 0) as Hs by (by intros ?%map_size_empty_inv).
    destruct (Nat.ltb_spec (size ce) 1) as [?|_]; [lia|].
    destruct (map_to_list ce) as [|[k b] l] eqn:E.
    + by apply map_to_list_empty_iff in E.
    + assert (ce !! k = Some b) as Hb.
      { apply elem_of_map_to_list. rewrite E. left. }
      apply Htrue in Hb as ->. done.
Qed.

Lemma true_keys (ce : gmap string bool) k :
  ce !! k = Some true →
  k ∈ (List.filter (λ kv, Bool.eqb kv.2 true) (map_to_list ce)).*1.
Proof.
  intros H. apply list_elem_of_fmap. exists (k, true). split; [done|].
  apply list_elem_of_In, filter_In. split; [|done].
  by apply list_elem_of_In, elem_of_map_to_list.
Qed.

Lemma summary_run w s pat rows :
  get_summary_combined_contents w s None = Return rows →
  (∀ r, r ∈ rows → is_Some (r !! "#SAMPLE")) →
  ∃ l, summary_combined_contains_errors w s None pat =
         (l, Return (negb (bool_decide (offending_ids pat rows = [])))) ∧
       (offending_ids pat rows ≠ [] →
        ∃ rec, rec ∈ l ∧ levelname rec = WARNING ∧
               message rec = summary_errors_found ∧
               ∀ sid, sid ∈ offending_ids pat rows → sid ∈ payload rec).
Proof.
  intros Hrows Hkeys.
  destruct (scan_rows_spec pat rows ∅ Hkeys) as (ce & Hce & Hlook).
  assert (∀ k b, ce !! k = Some b → b = true) as Htrue.
  { intros k b. rewrite Hlook. case_bool_decide; [congruence|by rewrite lookup_empty]. }
  assert (ce = ∅ ↔ offending_ids pat rows = []) as Hempty.
  { split.
    - intros -> . destruct (offending_ids pat rows) as [|sid l] eqn:E; [done|].
      specialize (Hlook sid). rewrite lookup_empty in Hlook.
      rewrite bool_decide_eq_true_2 in Hlook; [done|left].
    - intros E. apply map_eq. intros k. rewrite Hlook, E, lookup_empty.
      rewrite bool_decide_eq_false_2; [done|apply not_elem_of_nil]. }
  unfold summary_combined_contains_errors.
  change (truthy_list (@None (list (gmap string string)))) with false.
  cbv beta iota. rewrite Hrows.
  cbv [lbind llift lret emit fst snd].
  pose proof (contains_errors_decision ce Htrue) as Hdec.
  destruct (decide (ce = ∅)) as [He|He].
  - assert (Nat.ltb (size ce) 1 = true) as Hsz.
    { rewrite He, map_size_empty. done. }
    destruct (negb (truthy_list (Some rows))); cbn beta iota; rewrite Hce;
      cbn beta iota; rewrite Hsz; cbn.
    all: eexists; split;
      [ do 2 f_equal; symmetry; apply negb_false_iff, bool_decide_eq_true_2;
        by apply Hempty
      | intros Hne; exfalso; by apply Hne, Hempty ].
  - rewrite (bool_decide_eq_false_2 _ He) in Hdec.
    assert (Nat.ltb (size ce) 1 = false) as Hsz.
    { apply Nat.ltb_ge. apply map_size_non_empty_iff in He. lia. }
    rewrite Hsz in Hdec.
    destruct (negb (truthy_list (Some rows))); cbn beta iota; rewrite Hce;
      cbn beta iota; rewrite Hsz; cbv [fst snd] in Hdec; rewrite Hdec; cbn.
    all: eexists; split;
       [ do 2 f_equal; symmetry; apply negb_true_iff, bool_decide_eq_false_2;
         by rewrite <- Hempty | ].
    all: intros _;
       exists {| levelname := WARNING; message := summary_errors_found;
                 payload := (List.filter (λ kv, Bool.eqb kv.2 true)
                               (map_to_list ce)).*1 |};
       split; [apply list_elem_of_In; simpl; auto|].
    all: split; [done|]; split; [done|]; intros sid Hsid; cbn;
       apply true_keys; rewrite Hlook; by rewrite bool_decide_eq_true_2.
Qed.

End SummaryCheck.

Section QueueLogCheck.

Lemma scan_logs_readable w pats logs acc :
  (∀ f, f ∈ logs → ∃ lines, fs w !! f = Some (File lines)) →
  ∃ ce, foldR (λ acc f, result_map (scan_log pats f acc) (open_lines w f)) logs acc
        = Return ce.
Proof.
  revert acc. induction logs as [|f logs IH]; intros acc Hread; [by eexists|].
  destruct (Hread f) as [lines Hf]; [left|].
  cbn [foldR]. unfold open_lines at 1. rewrite Hf. cbn.
  apply IH. intros g Hg. apply Hread. by right.
Qed.

Lemma scan_log_clean pats f acc lines :
  (∀ line pat, line ∈ lines → pat ∈ pats → str_in pat line = false) →
  scan_log pats f acc lines = acc.
Proof.
  unfold scan_log. induction lines as [|line lines IH]; intros Hclean; [done|].
  cbn [foldl].
  assert (foldl (λ acc0 pat, if str_in pat line then <[f:=true]> acc0 else acc0)
            acc pats = acc) as ->.
  { assert (∀ pat, pat ∈ pats → str_in pat line = false) as Hl.
    { intros pat Hp. apply Hclean; [left|done]. }
    clear -Hl. induction pats as [|pat pats IHp]; [done|].
    cbn [foldl]. rewrite (Hl pat) by left. apply IHp.
    intros p Hp. apply Hl. by right. }
  apply IH. intros l p Hl Hp. apply Hclean; [by right|done].
Qed.

Lemma scan_logs_clean w pats logs acc :
  (∀ f, f ∈ logs → ∃ lines, fs w !! f = Some (File lines) ∧
      ∀ line pat, line ∈ lines → pat ∈ pats → str_in pat line = false) →
  foldR (λ acc f, result_map (scan_log pats f acc) (open_lines w f)) logs acc
  = Return acc.
Proof.
  induction logs as [|f logs IH]; intros Hclean; [done|].
  destruct (Hclean f) as (lines & Hf & Hl); [left|].
  cbn [foldR]. unfold open_lines at 1. rewrite Hf. cbn.
  rewrite scan_log_clean by done.
  apply IH. intros g Hg. apply Hclean. by right.
Qed.

Lemma get_qsub_logfiles_files w s logs f :
  get_qsub_logfiles w s None = Return logs → f ∈ logs →
  ∃ lines, fs w !! f = Some (File lines).
Proof.
  unfold get_qsub_logfiles, or_default. cbn [truthy_opt].
  destruct (AnalysisItem.list_none _) as [d|]; [|done].
  destruct (truthy d); [|done].
  intros [= <-]. apply find_file.
Qed.

Lemma get_qsub_logfiles_unresolved w s :
  get_dirs s "logs-qsub" = [] →
  get_qsub_logfiles w s None = Raise (AnalysisItemMissing qsub_logdir_missing).
Proof. unfold get_qsub_logfiles. intros ->. done. Qed.

Lemma check_qsub_raises w s pats e :
  get_qsub_logfiles w s None = Raise e →
  check_qsub_log_errors_present w s None pats = ([], Raise e).
Proof.
  intros H. unfold check_qsub_log_errors_present.
  change (truthy_list (@None (list string))) with false. cbv beta iota.
  by rewrite H.
Qed.

Lemma check_qsub_no_logs w s pats :
  get_qsub_logfiles w s None = Return [] →
  check_qsub_log_errors_present w s None pats =
    ([], Raise (AnalysisItemMissing qsub_logfiles_missing)).
Proof.
  intros H. unfold check_qsub_log_errors_present.
  change (truthy_list (@None (list string))) with false. cbv beta iota.
  by rewrite H.
Qed.

Lemma check_qsub_returns w s pats logs :
  get_qsub_logfiles w s None = Return logs → logs ≠ [] →
  ∃ l b, check_qsub_log_errors_present w s None pats = (l, Return b).
Proof.
  intros H Hne.
  destruct (scan_logs_readable w pats logs ∅) as [ce Hce].
  { intros f Hf. by eapply get_qsub_logfiles_files. }
  unfold check_qsub_log_errors_present.
  change (truthy_list (@None (list string))) with false. cbv beta iota.
  rewrite H. destruct logs as [|f logs]; [done|].
  cbv [lbind llift lret emit fst snd truthy_list negb].
  rewrite Hce. destruct (Nat.ltb _ _); [by eexists _, _|].
  destruct (py_any _); by eexists _, _.
Qed.

Lemma check_qsub_clean w s pats logs :
  get_qsub_logfiles w s None = Return logs → logs ≠ [] →
  (∀ f lines line pat, f ∈ logs → fs w !! f = Some (File lines) →
     line ∈ lines → pat ∈ pats → str_in pat line = false) →
  check_qsub_log_errors_present w s None pats = ([], Return false).
Proof.
  intros H Hne Hclean.
  assert (foldR (λ acc f, result_map (scan_log pats f acc) (open_lines w f))
            logs ∅ = Return ∅) as Hce.
  { apply scan_logs_clean. intros f Hf.
    destruct (get_qsub_logfiles_files w s logs f H Hf) as [lines Hl].
    exists lines. split; [done|]. intros line pat. by apply (Hclean f lines). }
  unfold check_qsub_log_errors_present.
  change (truthy_list (@None (list string))) with false. cbv beta iota.
  rewrite H. destruct logs as [|f logs]; [done|].
  cbv [lbind llift lret emit fst snd truthy_list negb].
  rewrite Hce. done.
Qed.

End QueueLogCheck.

(** ** The battery of checks *)

Section Validate.

Lemma py_all_perm l l' : l ≡ₚ l' → py_all l = py_all l'.
Proof.
  induction 1 as [|b l l' _ IH|b c l|l1 l2 l3 _ IH1 _ IH2]; simpl.
  - done.
  - by rewrite IH.
  - by destruct b, c.
  - by rewrite IH1.
Qed.

Lemma all_status_insert (m : gmap string validation) k v :
  m !! k = None →
  py_all (status <$> (map_to_list (<[k := v]> m)).*2) =
  status v && py_all (status <$> (map_to_list m).*2).
Proof.
  intros Hk.
  rewrite (py_all_perm _ (status <$> ((k, v) :: map_to_list m).*2)); [done|].
  do 2 apply fmap_Permutation. by apply map_to_list_insert.
Qed.

Lemma union_singleton_empty (k : string) (v : validation) :
  ({[k := v]} ∪ ∅ : gmap string validation) = <[k := v]> ∅.
Proof. by rewrite <- insert_union_singleton_l. Qed.

Ltac same_object s :=
  destruct s;
  cbv [with_logger with_validations logger validations id dir sns_config
       results_id email_recipients analysis_output_index dirs files
       static_files is_valid dir_exists_validation
       expected_static_files_validation expected_static_files_existences
       expected_static_files];
  unfold recorded4, recorded3, recorded2,
    dir_exists_validation, expected_static_files_validation,
    expected_static_files_existences, expected_static_files;
  cbv [dir];
  rewrite <- ?insert_union_singleton_l, ?(right_id_L ∅ (∪)), <- ?app_assoc;
  try reflexivity.

Lemma validate_spec w s :
  validate w s =
    match check_qsub_log_errors_present w s None ["ERROR:"] with
    | (l3, Raise e) =>
        (with_logger (logger s ++ l3) (with_validations (recorded2 w s) s), Raise e)
    | (l3, Return q) =>
        match summary_combined_contains_errors w s None "X" with
        | (l4, Raise e) =>
            (with_logger (logger s ++ l3 ++ l4)
               (with_validations (recorded3 w s q) s), Raise e)
        | (l4, Return x) =>
            (with_logger (logger s ++ l3 ++ l4 ++ closing_records (recorded4 w s q x))
               (with_validations (recorded4 w s q x) s),
             Return (py_all (status <$> (map_to_list (recorded4 w s q x)).*2)))
        end
    end.
Proof.
  cbv [validate bind call modify get_self update_validations ret emit fst snd].
  change (check_qsub_log_errors_present w (with_validations _ _) None ["ERROR:"])
    with (check_qsub_log_errors_present w s None ["ERROR:"]).
  destruct (check_qsub_log_errors_present w s None ["ERROR:"]) as [l3 [q|e]].
  - change (summary_combined_contains_errors w (with_validations _ _) None "X")
      with (summary_combined_contains_errors w s None "X").
    destruct (summary_combined_contains_errors w s None "X") as [l4 [x|e]].
    + unfold closing_records. same_object s. 
    + same_object s.
  - same_object s.
Qed.

End Validate.

Section Recorded.

Context (w : World) (s : t).

Lemma recorded2_lookup_qsub :
  recorded2 w s !! "no_qsub_log_errors_present" = None.
Proof. unfold recorded2. by rewrite !lookup_insert_ne, lookup_empty. Qed.

Lemma recorded2_lookup_summary :
  recorded2 w s !! "no_summary_combined_errors" = None.
Proof. unfold recorded2. by rewrite !lookup_insert_ne, lookup_empty. Qed.

Lemma recorded3_lookup_summary q :
  recorded3 w s q !! "no_summary_combined_errors" = None.
Proof.
  unfold recorded3. rewrite lookup_insert_ne by done.
  apply recorded2_lookup_summary.
Qed.

Lemma recorded4_lookup_summary q x :
  recorded4 w s q x !! "no_summary_combined_errors" =
    Some (summary_validation x).
Proof. unfold recorded4. by rewrite lookup_insert_eq. Qed.

(** [all] over the statuses of the four entries is their conjunction. *)
Lemma recorded4_all q x :
  py_all (status <$> (map_to_list (recorded4 w s q x)).*2) =
    status (dir_exists_validation w s) &&
    status (expected_static_files_validation w s) &&
    status (qsub_validation q) && status (summary_validation x).
Proof.
  unfold recorded4. rewrite all_status_insert by apply recorded3_lookup_summary.
  unfold recorded3. rewrite all_status_insert by apply recorded2_lookup_qsub.
  unfold recorded2.
  rewrite all_status_insert by (by rewrite lookup_insert_ne, lookup_empty).
  rewrite all_status_insert by apply lookup_empty.
  rewrite map_to_list_empty. cbn [fmap list_fmap py_all forallb].
  repeat match goal with |- context [status ?v] => destruct (status v) end;
    reflexivity.
Qed.

Lemma static_files_status :
  (∀ name p, expected_static_files s !! name = Some p →
             path_exists w p = true) →
  status (expected_static_files_validation w s) = true.
Proof.
  intros Hex. cbn [status expected_static_files_validation].
  unfold py_all. apply forallb_forall. intros b Hb.
  apply list_elem_of_In, list_elem_of_fmap in Hb as ([[k p] e] & -> & Hb).
  unfold expected_static_files_existences in Hb.
  apply list_elem_of_fmap in Hb as ([k' p'] & [= -> -> ->] & Hb).
  apply elem_of_map_to_list in Hb. cbn. by apply (Hex k').
Qed.

End Recorded.

(** ** Outcomes of [validate] *)

Section ValidateOutcomes.

Context (w : World) (s : t).

(** Without a resolved directory of queue logs, [validate] raises after
    two checks. *)
Lemma validate_without_logdir :
  get_dirs s "logs-qsub" = [] →
  validate w s =
    (with_logger (logger s ++ []) (with_validations (recorded2 w s) s),
     Raise (AnalysisItemMissing qsub_logdir_missing)).
Proof.
  intros H. rewrite validate_spec.
  by rewrite (check_qsub_raises w s _ _ (get_qsub_logfiles_unresolved w s H)).
Qed.

(** When queue logs are found and the rows of the summary table have
    their identifier, [validate] returns, with four entries recorded. *)
Lemma validate_returns logs rows :
  get_qsub_logfiles w s None = Return logs → logs ≠ [] →
  get_summary_combined_contents w s None = Return rows →
  (∀ r, r ∈ rows → is_Some (r !! "#SAMPLE")) →
  ∃ l3 l4 q,
    check_qsub_log_errors_present w s None ["ERROR:"] = (l3, Return q) ∧
    summary_combined_contains_errors w s None "X" =
      (l4, Return (negb (bool_decide (offending_ids "X" rows = [])))) ∧
    (offending_ids "X" rows ≠ [] →
      ∃ rec, rec ∈ l4 ∧ levelname rec = WARNING ∧
             message rec = summary_errors_found ∧
             ∀ sid, sid ∈ offending_ids "X" rows → sid ∈ payload rec) ∧
    let x := negb (bool_decide (offending_ids "X" rows = [])) in
    validate w s =
      (with_logger
         (logger s ++ l3 ++ l4 ++ closing_records (recorded4 w s q x))
         (with_validations (recorded4 w s q x) s),
       Return (py_all (status <$> (map_to_list (recorded4 w s q x)).*2))).
Proof.
  intros Hlogs Hne Hrows Hkeys.
  destruct (check_qsub_returns w s ["ERROR:"] logs Hlogs Hne) as (l3 & q & Hq).
  destruct (summary_run w s "X" rows Hrows Hkeys) as (l4 & Hx & Hwarn).
  exists l3, l4, q. split; [done|]. split; [done|]. split; [done|].
  cbn zeta. rewrite validate_spec, Hq, Hx. done.
Qed.

End ValidateOutcomes.


(** ** Validity of an analysis *)

Lemma valid_outputb_sound w s : valid_outputb w s = true → valid_output w s.
Proof.
  unfold valid_outputb. intros H.
  apply andb_prop in H as [H Hsum]. apply andb_prop in H as [H Hlogs].
  apply andb_prop in H as [Hroot Hstatic].
  rewrite forallb_forall in Hstatic, Hlogs, Hsum.
  split.
  - done.
  - intros name p Hp.
    apply (Hstatic (name, p)). apply (proj1 (list_elem_of_In _ _)).
    apply (proj2 (elem_of_map_to_list _ _ _)). exact Hp.
  - intros f lines line Hf Hl Hline.
    specialize (Hlogs f (proj1 (list_elem_of_In _ _) Hf)).
    unfold clean_log in Hlogs. rewrite Hl in Hlogs.
    rewrite forallb_forall in Hlogs.
    by apply negb_true_iff, Hlogs, list_elem_of_In.
  - intros r Hr Hoff. apply row_error_offending in Hoff.
    specialize (Hsum r (proj1 (list_elem_of_In _ _) Hr)).
    by rewrite Hoff in Hsum.
Qed.

Lemma validate_conjunction w s s' b :
  validate w s = (s', Return b) →
  ∃ q x, validations s' = recorded4 w s q x ∧
         b = status (dir_exists_validation w s) &&
             status (expected_static_files_validation w s) &&
             status (qsub_validation q) && status (summary_validation x).
Proof.
  rewrite validate_spec.
  destruct (check_qsub_log_errors_present w s None ["ERROR:"]) as [l3 [q|e]];
    [|intros H; apply pair_equal_spec in H as [_ H]; discriminate H].
  destruct (summary_combined_contains_errors w s None "X") as [l4 [x|e]];
    [|intros H; apply pair_equal_spec in H as [_ H]; discriminate H].
  intros H. apply pair_equal_spec in H as [H1 H2].
  apply Return_inj in H2. subst s' b.
  exists q, x. split; [reflexivity|]. apply recorded4_all.
Qed.

Lemma validate_passes w s logs rows :
    valid_output w s →
    get_qsub_logfiles w s None = Return logs → logs ≠ [] →
    get_summary_combined_contents w s None = Return rows →
    (∀ r, r ∈ rows → is_Some (r !! "#SAMPLE")) →
    ∃ s', validate w s = (s', Return true) ∧
          validations s' = recorded4 w s false false ∧
          map_Forall (λ _ v, status v = true) (validations s').
Proof.
  intros [Hroot Hstatic Hclean Hsum] Hlogs Hne Hrows Hkeys.
  assert (check_qsub_log_errors_present w s None ["ERROR:"] = ([], Return false)) as Hq.
  { apply (check_qsub_clean w s _ logs Hlogs Hne).
    intros f lines line pat Hf Hl Hline ->%list_elem_of_singleton.
    apply (Hclean f lines line); [|done..].
    unfold queue_logs. by rewrite Hlogs. }
  assert (offending_ids "X" rows = []) as Hno.
  { destruct (offending_ids "X" rows) as [|sid l] eqn:E; [done|].
    assert (sid ∈ offending_ids "X" rows) as Hin by (rewrite E; left).
    apply offending_ids_elem in Hin as (r & Hr & _ & Hoff).
    exfalso. apply (Hsum r); [|done]. unfold summary_rows. by rewrite Hrows. }
  destruct (validate_returns w s logs rows Hlogs Hne Hrows Hkeys)
    as (l3 & l4 & q & Hq' & Hx & _ & Hv).
  rewrite Hq in Hq'. injection Hq' as <- <-.
  cbn zeta in Hv. rewrite Hno in Hv. 
  rewrite (bool_decide_eq_true_2 _ eq_refl) in Hv. cbn [negb] in Hv.
  assert (status (dir_exists_validation w s) = true) as H1.
  { cbn. by apply isdir_exists. }
  pose proof (static_files_status w s Hstatic) as H2.
  eexists. split; [|split].
  - rewrite Hv. f_equal. f_equal. rewrite recorded4_all, H1, H2. done.
  - done.
  - cbn [validations with_logger with_validations].
    unfold recorded4, recorded3, recorded2.
    repeat (apply map_Forall_insert_2; [done|]). apply map_Forall_empty.
Qed.


(** ** Offending rows *)

Lemma offending_ids_nonempty rows :
  (∀ r, r ∈ rows → is_Some (r !! "#SAMPLE")) →
  offending_ids "X" rows ≠ [] ↔ ∃ r, r ∈ rows ∧ offending "X" r.
Proof.
  intros Hkeys. split.
  - destruct (offending_ids "X" rows) as [|sid l] eqn:E; [done|]. intros _.
    assert (sid ∈ offending_ids "X" rows) as Hin by (rewrite E; left).
    apply offending_ids_elem in Hin as (r & Hr & _ & Hoff). eauto.
  - intros (r & Hr & Hoff) E. destruct (Hkeys r Hr) as [sid Hsid].
    assert (sid ∈ offending_ids "X" rows) as Hin.
    { apply offending_ids_elem. eauto. }
    rewrite E in Hin. by apply elem_of_nil in Hin.
Qed.

(** [validate] records the first check in every outcome. *)
Lemma validate_records_dir_exists w s :
  validations (validate w s).1 !! "dir_exists" =
    Some (dir_exists_validation w s).
Proof.
  rewrite validate_spec.
  destruct (check_qsub_log_errors_present w s None ["ERROR:"]) as [l3 [q|e]].
  - destruct (summary_combined_contains_errors w s None "X") as [l4 [x|e]];
      cbn [fst validations with_logger with_validations];
      unfold recorded4, recorded3, recorded2;
      repeat (rewrite lookup_insert_ne by discriminate);
      apply lookup_insert_eq.
  - cbn [fst validations with_logger with_validations]. unfold recorded2.
    repeat (rewrite lookup_insert_ne by discriminate).
    apply lookup_insert_eq.
Qed.

(** ** The constructor *)

Section Constructor.

Context (w : World).

(** [_init_dirs] assigns no attribute other than [dirs]. *)
Lemma init_dirs_fields s :
  dir (_init_dirs w s) = dir s ∧
  analysis_output_index (_init_dirs w s) = analysis_output_index s ∧
  is_valid (_init_dirs w s) = is_valid s ∧
  sns_config (_init_dirs w s) = sns_config s.
Proof.
  unfold _init_dirs.
  pose proof (init_dirs_fold_frame w
                (map_to_list (analysis_output_index s)) s) as H.
  repeat split.
  - by apply (f_equal dir) in H.
  - by apply (f_equal analysis_output_index) in H.
  - by apply (f_equal is_valid) in H.
  - by apply (f_equal sns_config) in H.
Qed.

(** [validate] assigns no attribute other than [validations] and the
    logger. *)
Lemma validate_frame s :
  ∃ l v, (validate w s).1 = with_logger l (with_validations v s).
Proof.
  rewrite validate_spec.
  destruct (check_qsub_log_errors_present w s None ["ERROR:"])
    as [l3 [q|e]]; [|by eexists _, _].
  destruct (summary_combined_contains_errors w s None "X")
    as [l4 [x|e]]; by eexists _, _.
Qed.

(** The object that the constructor returns, when it returns one. *)
Lemma init_returns d i cfg rid debug self :
  __init__ w d i cfg rid debug = Return self →
  ∃ email index l v,
    cfg_email_recipients (select_config w cfg) = Some email ∧
    cfg_analysis_output_index (select_config w cfg) = Some index ∧
    let built :=
      _init_static_files
        (_init_files w (_init_dirs w (init_attrs w d i cfg rid email index)))
    in
    (debug = true ∧ self = built) ∨
    (debug = false ∧ ∃ b, self = with_is_valid (Some b)
                                   (with_logger l (with_validations v built))).
Proof.
  unfold __init__.
  destruct (cfg_email_recipients (select_config w cfg)) as [email|];
    [|done].
  destruct (cfg_analysis_output_index (select_config w cfg)) as [index|];
    [|done].
  cbn [getitem result_bind]. destruct debug; cbn [negb].
  - intros [= <-]. exists email, index, [], ∅. split; [done|].
    split; [done|]. by left.
  - set (built := _init_static_files _).
    destruct (validate_frame built) as (l & v & Hf).
    destruct (validate w built) as [s' [b|e]]; [|done].
    intros [= <-]. cbn [fst] in Hf. subst s'.
    exists email, index, l, v. split; [done|]. split; [done|].
    right. split; [done|]. by exists b.
Qed.

(** In debug mode the constructor returns an object as soon as the
    configuration has its two keys. *)
Lemma init_debug_returns d i cfg rid email index :
  cfg_email_recipients (select_config w cfg) = Some email →
  cfg_analysis_output_index (select_config w cfg) = Some index →
  __init__ w d i cfg rid true =
    Return (_init_static_files
              (_init_files w
                 (_init_dirs w (init_attrs w d i cfg rid email index)))).
Proof. intros He Hi. unfold __init__. by rewrite He, Hi. Qed.

(** On a root path that does not exist, no directory is resolved. *)
Lemma init_missing_root d i cfg rid email index name :
  path_exists w (abspath w d) = false →
  get_dirs
    (_init_static_files
       (_init_files w (_init_dirs w (init_attrs w d i cfg rid email index))))
    name = [].
Proof.
  intros Hroot.
  change (get_dirs (_init_dirs w (init_attrs w d i cfg rid email index))
            name = []).
  apply init_dirs_unresolved; [done|].
  intros k. apply find_not_dir, not_exists_not_dir. exact Hroot.
Qed.

End Constructor.

(** ** Sample identifiers *)

Section SampleIdentifiers.

Lemma mapR_first_column rows :
  (∀ r, r ∈ rows → r ≠ []) →
  mapR first_column rows = Return (first_columns rows).
Proof.
  induction rows as [|r rows IH]; intros Hne; [done|].
  cbn [mapR]. destruct r as [|x r]; [by destruct (Hne []); [left|]|].
  cbn [first_column result_bind]. rewrite IH.
  - done.
  - intros r' Hr'. apply Hne. by right.
Qed.

Lemma first_columns_perm rows rows' :
  rows ≡ₚ rows' → first_columns rows ≡ₚ first_columns rows'.
Proof.
  unfold first_columns.
  induction 1 as [|r l l' _ IH|r1 r2 l|l1 l2 l3 _ IH1 _ IH2].
  - done.
  - cbn [omap list_omap]. destruct (head r); [by constructor|done].
  - cbn [omap list_omap]. destruct (head r1), (head r2);
      try done. apply perm_swap.
  - by etrans.
Qed.

(** [list(set(l))]: no duplicates, the elements of [l]. *)
Lemma unique_entries (l : list string) :
  NoDup (elements (list_to_set l : gset string)) ∧
  ∀ x, x ∈ elements (list_to_set l : gset string) ↔ x ∈ l.
Proof.
  split; [apply NoDup_elements|].
  intros x. by rewrite elem_of_elements, elem_of_list_to_set.
Qed.

Lemma unique_entries_perm (l l' : list string) :
  l ≡ₚ l' →
  elements (list_to_set l : gset string) =
  elements (list_to_set l' : gset string).
Proof. intros H. f_equal. by apply list_to_set_perm_L. Qed.

(** The manifest is read when its path is set and names a regular
    file. *)
Lemma get_samplesIDs_reads w s arg p lines :
  or_default arg (static_files s !! "samples_fastq_raw") = Some p →
  truthy p = true →
  fs w !! p = Some (File lines) →
  get_samplesIDs_from_samples_fastq_raw w s arg =
    result_bind (mapR first_column (csv_reader w lines))
      (λ samplesIDs,
         Return (elements (list_to_set samplesIDs : gset string))).
Proof.
  intros Hp Ht Hf. unfold get_samplesIDs_from_samples_fastq_raw.
  rewrite Hp, Ht. unfold open_lines. by rewrite Hf.
Qed.

Lemma get_samplesIDs_unset w s arg :
  truthy_opt (or_default arg (static_files s !! "samples_fastq_raw"))
    = false →
  get_samplesIDs_from_samples_fastq_raw w s arg =
    Raise (AnalysisItemMissing samples_fastq_raw_missing).
Proof.
  intros H. unfold get_samplesIDs_from_samples_fastq_raw.
  destruct (or_default _ _) as [p|]; [|done].
  cbn [truthy_opt] in H. by rewrite H.
Qed.

Lemma get_samplesIDs_unreadable w s arg p :
  or_default arg (static_files s !! "samples_fastq_raw") = Some p →
  truthy p = true →
  (∀ lines, fs w !! p ≠ Some (File lines)) →
  get_samplesIDs_from_samples_fastq_raw w s arg = Raise (IOError p).
Proof.
  intros Hp Ht Hf. unfold get_samplesIDs_from_samples_fastq_raw.
  rewrite Hp, Ht. unfold open_lines.
  destruct (fs w !! p) as [[|lines]|] eqn:E; try done.
  by destruct (Hf lines).
Qed.

End SampleIdentifiers.

(** ** Tests on concrete rows *)

Lemma has_id_sound (rows : list (gmap string string)) :
  forallb has_id rows = true →
  ∀ r, r ∈ rows → is_Some (r !! "#SAMPLE").
Proof.
  intros H r Hr. rewrite forallb_forall in H.
  specialize (H r (proj1 (list_elem_of_In _ _) Hr)).
  unfold has_id in H. destruct (r !! "#SAMPLE"); [by eexists|discriminate].
Qed.

Lemma has_first_column_sound (rows : list (list string)) :
  forallb has_first_column rows = true →
  ∀ r, r ∈ rows → r ≠ [].
Proof.
  intros H r Hr. rewrite forallb_forall in H.
  specialize (H r (proj1 (list_elem_of_In _ _) Hr)).
  by destruct r.
Qed.

(** ** Samples *)

Section Samples.

(** The loops of the constructor of a sample assign the registries and
    nothing else. *)
Lemma sample_init_dirs_fold l (s : SnsAnalysisSample.t) :
  SnsAnalysisSample.analysis_config
    (foldl (λ self '(name, paths),
              if bool_decide (name ∉ ["_parent"])
              then SnsAnalysisSample.set_dir name paths self else self)
       s l) = SnsAnalysisSample.analysis_config s ∧
  SnsAnalysisSample.search_pattern
    (foldl (λ self '(name, paths),
              if bool_decide (name ∉ ["_parent"])
              then SnsAnalysisSample.set_dir name paths self else self)
       s l) = SnsAnalysisSample.search_pattern s.
Proof.
  revert s. induction l as [|[k v] l IH]; intros s; [done|].
  cbn [foldl]. destruct (bool_decide (k ∉ ["_parent"])).
  - destruct (IH (SnsAnalysisSample.set_dir k v s)) as [-> ->]. done.
  - apply IH.
Qed.

Lemma sample_init_files_fold l (s : SnsAnalysisSample.t) :
  SnsAnalysisSample.analysis_config
    (foldl (λ self '(name, paths),
              SnsAnalysisSample.set_file name paths self) s l)
    = SnsAnalysisSample.analysis_config s ∧
  SnsAnalysisSample.search_pattern
    (foldl (λ self '(name, paths),
              SnsAnalysisSample.set_file name paths self) s l)
    = SnsAnalysisSample.search_pattern s.
Proof.
  revert s. induction l as [|[k v] l IH]; intros s; [done|].
  cbn [foldl].
  destruct (IH (SnsAnalysisSample.set_file k v s)) as [-> ->]. done.
Qed.

Lemma sample_init_fields i cfg sns :
  SnsAnalysisSample.analysis_config (SnsAnalysisSample.__init__ i cfg sns)
    = cfg ∧
  SnsAnalysisSample.search_pattern (SnsAnalysisSample.__init__ i cfg sns)
    = i ++ "*".
Proof.
  unfold SnsAnalysisSample.__init__, SnsAnalysisSample._init_files,
    SnsAnalysisSample._init_dirs.
  split.
  - rewrite (proj1 (sample_init_files_fold _ _)).
    by rewrite (proj1 (sample_init_dirs_fold _ _)).
  - rewrite (proj2 (sample_init_files_fold _ _)).
    by rewrite (proj2 (sample_init_dirs_fold _ _)).
Qed.

(** The two outcomes of [get_output_files]. *)
Lemma get_output_files_resolved w (s : SnsAnalysisSample.t) step pat d :
  AnalysisItem.get
    (AnalysisConfig.dirs (SnsAnalysisSample.analysis_config s)) step
    = [d] →
  truthy d = true →
  SnsAnalysisSample.get_output_files w s step pat =
    Return (find w d [pat; SnsAnalysisSample.search_pattern s] []
              SearchFile None None MatchAll).
Proof.
  intros Hd Ht. unfold SnsAnalysisSample.get_output_files.
  rewrite Hd. cbn [AnalysisItem.list_none]. by rewrite Ht.
Qed.

Lemma get_output_files_unresolved w (s : SnsAnalysisSample.t) step pat :
  AnalysisItem.get
    (AnalysisConfig.dirs (SnsAnalysisSample.analysis_config s)) step
    = [] →
  SnsAnalysisSample.get_output_files w s step pat =
    Raise (AnalysisItemMissing
             ("search_dir not found for " ++ step ++ ", dir: None")).
Proof.
  intros Hd. unfold SnsAnalysisSample.get_output_files. by rewrite Hd.
Qed.

(** Without [is_valid], no configuration is handed out and no sample is
    built. *)
Lemma get_analysis_config_unset s :
  is_valid s = None →
  get_analysis_config s = Raise (AttributeError "is_valid").
Proof. intros H. unfold get_analysis_config. by rewrite H. Qed.

Lemma build_samples_unset s (ids : list string) :
  is_valid s = None → ids ≠ [] →
  mapR (λ samplesID,
          result_bind (get_analysis_config s)
            (λ analysis_config,
               Return (SnsAnalysisSample.__init__ samplesID analysis_config
                         (sns_config s))))
    ids = Raise (AttributeError "is_valid").
Proof.
  intros H Hne. destruct ids as [|i ids]; [done|].
  cbn [mapR]. by rewrite (get_analysis_config_unset s H).
Qed.

End Samples.

(** ** [is_valid] after construction *)

Section IsValid.

Context (w : World).

Lemma init_debug_is_valid d i cfg rid self :
  __init__ w d i cfg rid true = Return self → is_valid self = None.
Proof.
  intros H. apply init_returns in H
    as (email & index & l & v & _ & _ & [[_ ->]|[Hd _]]); [|discriminate].
  change (is_valid (_init_dirs w (init_attrs w d i cfg rid email index))
          = None).
  by destruct (init_dirs_fields w (init_attrs w d i cfg rid email index))
    as (_ & _ & -> & _).
Qed.

Lemma init_validated_is_valid d i cfg rid self :
  __init__ w d i cfg rid false = Return self →
  ∃ b, is_valid self = Some b.
Proof.
  intros H. apply init_returns in H
    as (email & index & l & v & _ & _ & [[Hd _]|[_ [b ->]]]);
    [discriminate|].
  by exists b.
Qed.

Lemma get_analysis_config_set s b :
  is_valid s = Some b →
  ∃ c, get_analysis_config s = Return c ∧
       AnalysisConfig.analysis_is_valid c = b ∧
       AnalysisConfig.dirs c = dirs s ∧
       AnalysisConfig.files c = files s.
Proof.
  intros H. unfold get_analysis_config. rewrite H. by eexists.
Qed.

(** [get_samples] on an object without [is_valid]. *)
Lemma get_samples_unset_given s ids :
  is_valid s = None → ids ≠ [] →
  get_samples w s (Some ids) = Raise (AttributeError "is_valid").
Proof.
  intros H Hne. unfold get_samples.
  destruct ids as [|i ids]; [done|].
  cbn [truthy_list default result_bind].
  by apply build_samples_unset.
Qed.

Lemma get_samples_unset_derived s ids :
  is_valid s = None →
  get_samplesIDs_from_samples_fastq_raw w s None = Return ids →
  get_samples w s None =
    match ids with
    | [] => Return []
    | _ :: _ => Raise (AttributeError "is_valid")
    end.
Proof.
  intros H Hids. unfold get_samples. cbn [truthy_list].
  rewrite Hids. cbn [result_bind].
  destruct ids as [|i ids]; [done|].
  by apply build_samples_unset.
Qed.

Lemma get_samples_derivation_fails s e :
  get_samplesIDs_from_samples_fastq_raw w s None = Raise e →
  get_samples w s None = Raise e.
Proof.
  intros Hids. unfold get_samples. cbn [truthy_list]. by rewrite Hids.
Qed.

End IsValid.

(** ** Queue logs with errors *)

Lemma scan_patterns_spec (pats : list string) f line
    (acc : gmap string bool) :
  foldl (λ acc pat, if str_in pat line then <[f := true]> acc else acc)
    acc pats =
  if existsb (λ pat, str_in pat line) pats then <[f := true]> acc else acc.
Proof.
  revert acc. induction pats as [|pat pats IH]; intros acc; [done|].
  cbn [foldl existsb]. rewrite IH. destruct (str_in pat line); [|done].
  cbn [orb]. destruct (existsb _ pats); [|done]. by rewrite insert_insert_eq.
Qed.

Lemma scan_log_spec pats f (acc : gmap string bool) lines :
  scan_log pats f acc lines =
  if existsb (λ line, existsb (λ pat, str_in pat line) pats) lines
  then <[f := true]> acc else acc.
Proof.
  unfold scan_log. revert acc.
  induction lines as [|line lines IH]; intros acc; [done|].
  cbn [foldl existsb]. rewrite scan_patterns_spec, IH.
  destruct (existsb (λ pat, str_in pat line) pats); [|done].
  cbn [orb]. destruct (existsb _ lines); [|done]. by rewrite insert_insert_eq.
Qed.

Lemma scan_logs_spec w pats logs (acc : gmap string bool) :
  (∀ f, f ∈ logs → ∃ lines, fs w !! f = Some (File lines)) →
  ∃ ce,
    foldR (λ acc f, result_map (scan_log pats f acc) (open_lines w f))
      logs acc = Return ce ∧
    ∀ g, ce !! g = if bool_decide (g ∈ error_logs w pats logs)
                   then Some true else acc !! g.
Proof.
  revert acc. induction logs as [|f logs IH]; intros acc Hread.
  - exists acc. split; [done|]. intros g.
    rewrite bool_decide_eq_false_2; [done|]. apply not_elem_of_nil.
  - destruct (Hread f) as [lines Hf]; [left|].
    cbn [foldR]. unfold open_lines at 1. rewrite Hf.
    cbn [result_map result_bind]. rewrite scan_log_spec.
    assert (log_has_error w pats f =
            existsb (λ line, existsb (λ pat, str_in pat line) pats) lines)
      as Herr by (unfold log_has_error; by rewrite Hf).
    rewrite <- Herr.
    destruct (IH (if log_has_error w pats f then <[f:=true]> acc else acc))
      as (ce & Hce & Hlook).
    { intros g Hg. apply Hread. by right. }
    exists ce. split; [done|]. intros g. rewrite Hlook.
    unfold error_logs. cbn [List.filter].
    destruct (log_has_error w pats f) eqn:E.
    + fold (error_logs w pats logs).
      destruct (decide (g = f)) as [->|Hne].
      * rewrite lookup_insert_eq.
        rewrite (bool_decide_eq_true_2 (f ∈ f :: _)); [|left].
        by case_bool_decide.
      * rewrite lookup_insert_ne by done.
        apply (f_equal (λ b : bool, if b then _ else _)).
        apply bool_decide_ext. set_solver.
    + done.
Qed.

Lemma error_logs_elem w pats logs f :
  f ∈ error_logs w pats logs ↔
  f ∈ logs ∧ ∃ lines line pat,
    fs w !! f = Some (File lines) ∧ line ∈ lines ∧ pat ∈ pats ∧
    str_in pat line = true.
Proof.
  unfold error_logs. rewrite list_elem_of_In, filter_In, <- list_elem_of_In.
  apply and_iff_compat_l. unfold log_has_error.
  destruct (fs w !! f) as [[|lines]|].
  - split; [done|]. by intros (? & ? & ? & ? & _).
  - rewrite existsb_exists. split.
    + intros (line & Hl & Hp). apply existsb_exists in Hp as (pat & Hp & Hs).
      exists lines, line, pat. by rewrite !list_elem_of_In.
    + intros (lines' & line & pat & [= <-] & Hl & Hp & Hs).
      exists line. split; [by apply list_elem_of_In|].
      apply existsb_exists. exists pat. by rewrite <- list_elem_of_In.
  - split; [done|]. by intros (? & ? & ? & ? & _).
Qed.

(** The outcome of the check of the queue logs on readable logs. *)
Lemma check_qsub_scanned w s arg pats logs :
  (if truthy_list arg then Return (default [] arg)
   else get_qsub_logfiles w s None) = Return logs →
  logs ≠ [] →
  (∀ f, f ∈ logs → ∃ lines, fs w !! f = Some (File lines)) →
  ∃ l,
    check_qsub_log_errors_present w s arg pats =
      (l, Return (negb (bool_decide (error_logs w pats logs = [])))) ∧
    (error_logs w pats logs = [] → l = []) ∧
    (error_logs w pats logs ≠ [] →
     ∃ paths,
       l = [{| levelname := ERROR;
               message := "Error messages were found in some qsub logs";
               payload := [] |};
            {| levelname := DEBUG;
               message := "qsub log files containing errors: {0}";
               payload := paths |}] ∧
       ∀ f, f ∈ paths ↔ f ∈ error_logs w pats logs).
Proof.
  intros Harg Hne Hread.
  destruct (scan_logs_spec w pats logs ∅ Hread) as (ce & Hce & Hlook).
  assert (∀ k b, ce !! k = Some b → b = true) as Htrue.
  { intros k b. rewrite Hlook.
    case_bool_decide; [congruence|by rewrite lookup_empty]. }
  assert (ce = ∅ ↔ error_logs w pats logs = []) as Hempty.
  { split.
    - intros ->. destruct (error_logs w pats logs) as [|f l] eqn:E; [done|].
      specialize (Hlook f). rewrite lookup_empty in Hlook.
      rewrite bool_decide_eq_true_2 in Hlook; [done|left].
    - intros E. apply map_eq. intros k. rewrite Hlook, E, lookup_empty.
      rewrite bool_decide_eq_false_2; [done|apply not_elem_of_nil]. }
  assert (check_qsub_log_errors_present w s arg pats =
          lbind (llift (Return logs))
            (λ log_files,
               if negb (truthy_list (Some log_files))
               then lraise (AnalysisItemMissing qsub_logfiles_missing)
               else
                 lbind
                   (llift (foldR (λ acc log_file,
                                    result_map
                                      (scan_log pats log_file acc)
                                      (open_lines w log_file))
                             log_files (∅ : gmap string bool)))
                   (λ contains_errors,
                      if Nat.ltb (size contains_errors) 1 then lret false
                      else
                        lbind
                          (if py_any (map_to_list contains_errors).*2
                           then
                             lbind
                               (emit ERROR
                                  "Error messages were found in some qsub logs"
                                  [])
                               (λ _,
                                  emit DEBUG
                                    "qsub log files containing errors: {0}"
                                    (List.filter
                                       (λ kv, Bool.eqb kv.2 true)
                                       (map_to_list contains_errors)).*1)
                           else lret tt)
                          (λ _,
                             lret
                               (py_any (map_to_list contains_errors).*2)))))
    as ->.
  { unfold check_qsub_log_errors_present.
    destruct (truthy_list arg); [injection Harg as <-|rewrite Harg];
      reflexivity. }
  destruct logs as [|f0 logs0]; [done|].
  cbv [lbind llift lret lraise emit truthy_list negb].
  cbn [fst snd]. rewrite Hce. cbn [fst snd].
  pose proof (contains_errors_decision ce Htrue) as Hdec.
  destruct (decide (ce = ∅)) as [He|He].
  - assert (Nat.ltb (size ce) 1 = true) as Hsz
      by (rewrite He, map_size_empty; done).
    rewrite Hsz. cbn [fst snd app].
    exists []. split; [|split].
    + do 2 f_equal. symmetry. apply negb_false_iff, bool_decide_eq_true_2.
      by apply Hempty.
    + done.
    + intros Hn. exfalso. by apply Hn, Hempty.
  - rewrite (bool_decide_eq_false_2 _ He) in Hdec.
    assert (Nat.ltb (size ce) 1 = false) as Hsz.
    { apply Nat.ltb_ge. apply map_size_non_empty_iff in He. lia. }
    rewrite Hsz in Hdec. rewrite Hsz, Hdec. cbn [negb fst snd app].
    eexists. split; [|split].
    + do 2 f_equal. symmetry. apply negb_true_iff, bool_decide_eq_false_2.
      by rewrite <- Hempty.
    + intros E. exfalso. by apply He, Hempty.
    + intros _. eexists. split; [reflexivity|].
      intros f. rewrite list_elem_of_fmap. split.
      * intros ([g b] & -> & Hin).
        apply list_elem_of_In, filter_In in Hin as [Hin _].
        apply list_elem_of_In, elem_of_map_to_list in Hin.
        rewrite Hlook in Hin. cbn [fst].
        case_bool_decide; [done|by rewrite lookup_empty in Hin].
      * intros Hf. exists (f, true). split; [done|].
        apply list_elem_of_In, filter_In. split; [|done].
        apply list_elem_of_In, elem_of_map_to_list.
        rewrite Hlook. by rewrite bool_decide_eq_true_2.
Qed.

(** ** [validate] as a function of the registries *)

(** The checks read the world and the registries of the object, not its
    [validations] nor its logger. *)
Lemma validate_same_view w s l v :
  (validate w (with_logger l (with_validations v s))).2 = (validate w s).2 ∧
  validations (validate w (with_logger l (with_validations v s))).1 =
    validations (validate w s).1.
Proof.
  rewrite !validate_spec.
  change (check_qsub_log_errors_present w
            (with_logger l (with_validations v s)) None ["ERROR:"])
    with (check_qsub_log_errors_present w s None ["ERROR:"]).
  change (summary_combined_contains_errors w
            (with_logger l (with_validations v s)) None "X")
    with (summary_combined_contains_errors w s None "X").
  destruct (check_qsub_log_errors_present w s None ["ERROR:"])
    as [l3 [q|e]]; [|split; reflexivity].
  destruct (summary_combined_contains_errors w s None "X")
    as [l4 [x|e]]; split; reflexivity.
Qed.

(** What [validate] leaves of the object: every attribute but
    [validations], and the logger extended. *)
Lemma validate_extends w s :
  ∃ l v, (validate w s).1 = with_logger (logger s ++ l) (with_validations v s).
Proof.
  rewrite validate_spec.
  destruct (check_qsub_log_errors_present w s None ["ERROR:"])
    as [l3 [q|e]]; [|by eexists _, _].
  destruct (summary_combined_contains_errors w s None "X")
    as [l4 [x|e]]; by eexists _, _.
Qed.

Lemma foldR_scan_unreadable w pats l1 f l2 (acc : gmap string bool) :
  (∀ g, g ∈ l1 → ∃ lines, fs w !! g = Some (File lines)) →
  (∀ lines, fs w !! f ≠ Some (File lines)) →
  foldR (λ acc f, result_map (scan_log pats f acc) (open_lines w f))
    (l1 ++ f :: l2) acc = Raise (IOError f).
Proof.
  revert acc. induction l1 as [|g l1 IH]; intros acc Hread Hf.
  - cbn [app foldR]. unfold open_lines at 1.
    destruct (fs w !! f) as [[|lines]|] eqn:E; try done.
    by destruct (Hf lines).
  - destruct (Hread g) as [lines Hg]; [left|].
    cbn [app foldR]. unfold open_lines at 1. rewrite Hg.
    cbn [result_map result_bind]. apply IH; [|done].
    intros h Hh. apply Hread. by right.
Qed.

(** ** The summary table: rows given by the caller, errors *)

Lemma scan_rows_keyerror pat l1 r l2 (acc : gmap string bool) :
  (∀ r', r' ∈ l1 → is_Some (r' !! "#SAMPLE")) →
  r !! "#SAMPLE" = None →
  foldR (scan_row pat) (l1 ++ r :: l2) acc = Raise (KeyError "#SAMPLE").
Proof.
  revert acc. induction l1 as [|r' l1 IH]; intros acc Hids Hr.
  - cbn [app foldR]. unfold scan_row at 1. by rewrite Hr.
  - destruct (Hids r') as [sid Hsid]; [left|].
    cbn [app foldR]. unfold scan_row at 1. rewrite Hsid.
    cbn [result_bind]. apply IH; [|done].
    intros r'' Hr''. apply Hids. by right.
Qed.

Lemma rows_without_id (rows : list (gmap string string)) :
  forallb has_id rows = false →
  ∃ l1 r l2, rows = (l1 ++ r :: l2)%list ∧
             (∀ r', r' ∈ l1 → is_Some (r' !! "#SAMPLE")) ∧
             r !! "#SAMPLE" = None.
Proof.
  induction rows as [|r rows IH]; [done|].
  cbn [forallb]. destruct (has_id r) eqn:E.
  - cbn [andb]. intros H. destruct (IH H) as (l1 & r0 & l2 & -> & Hl1 & Hr0).
    exists (r :: l1), r0, l2. split; [done|]. split; [|done].
    intros r' [Heq|Hr']%elem_of_cons; [|by apply Hl1].
    subst r'. unfold has_id in E.
    destruct (r !! "#SAMPLE"); [by eexists|done].
  - intros _. exists [], r, rows. split; [done|]. split.
    + by intros r' ?%elem_of_nil.
    + unfold has_id in E. by destruct (r !! "#SAMPLE").
Qed.

Lemma rows_with_id (rows : list (gmap string string)) :
  forallb has_id rows = true ∨ forallb has_id rows = false.
Proof. destruct (forallb has_id rows); auto. Qed.

Lemma offending_ids_nonempty_for pat rows :
  (∀ r, r ∈ rows → is_Some (r !! "#SAMPLE")) →
  offending_ids pat rows ≠ [] ↔ ∃ r, r ∈ rows ∧ offending pat r.
Proof.
  intros Hkeys. split.
  - destruct (offending_ids pat rows) as [|sid l] eqn:E; [done|]. intros _.
    assert (sid ∈ offending_ids pat rows) as Hin by (rewrite E; left).
    apply offending_ids_elem in Hin as (r & Hr & _ & Hoff). eauto.
  - intros (r & Hr & Hoff) E. destruct (Hkeys r Hr) as [sid Hsid].
    assert (sid ∈ offending_ids pat rows) as Hin.
    { apply offending_ids_elem. eauto. }
    rewrite E in Hin. by apply elem_of_nil in Hin.
Qed.

(** The check of the summary table written out over the rows it scans. *)
Lemma summary_unfold w s arg pat rows :
  (if truthy_list arg then Return (default [] arg)
   else get_summary_combined_contents w s None) = Return rows →
  summary_combined_contains_errors w s arg pat =
    lbind (llift (Return rows))
      (λ rows,
         lbind
           (if negb (truthy_list (Some rows))
            then emit ERROR
                   "Could not find the summary_combined_wes_file contents" []
            else lret tt)
           (λ _,
              lbind (llift (foldR (scan_row pat) rows
                              (∅ : gmap string bool)))
                (λ contains_errors,
                   if Nat.ltb (size contains_errors) 1 then lret false
                   else
                     lbind
                       (if py_any (map_to_list contains_errors).*2
                        then emit WARNING summary_errors_found
                               (List.filter (λ kv, Bool.eqb kv.2 true)
                                  (map_to_list contains_errors)).*1
                        else lret tt)
                       (λ _,
                          lret (py_any (map_to_list contains_errors).*2))))).
Proof.
  intros Harg. unfold summary_combined_contains_errors.
  destruct (truthy_list arg); [injection Harg as <-|rewrite Harg];
    reflexivity.
Qed.

Lemma summary_raises w s pat e :
  get_summary_combined_contents w s None = Raise e →
  summary_combined_contains_errors w s None pat = ([], Raise e).
Proof.
  intros H. unfold summary_combined_contains_errors.
  change (truthy_list (@None (list (gmap string string)))) with false.
  cbv beta iota. by rewrite H.
Qed.

Lemma summary_keyerror w s arg pat l1 r l2 :
  (if truthy_list arg then Return (default [] arg)
   else get_summary_combined_contents w s None) =
    Return (l1 ++ r :: l2)%list →
  (∀ r', r' ∈ l1 → is_Some (r' !! "#SAMPLE")) →
  r !! "#SAMPLE" = None →
  summary_combined_contains_errors w s arg pat =
    ([], Raise (KeyError "#SAMPLE")).
Proof.
  intros Harg Hids Hr. rewrite (summary_unfold w s arg pat _ Harg).
  assert (truthy_list (Some (l1 ++ r :: l2)%list) = true) as Ht
    by (by destruct l1).
  cbv [lbind llift lret emit]. cbn [fst snd]. rewrite Ht. cbn [negb fst snd].
  by rewrite (scan_rows_keyerror pat l1 r l2 ∅ Hids Hr).
Qed.

Lemma summary_scanned w s arg pat rows :
  (if truthy_list arg then Return (default [] arg)
   else get_summary_combined_contents w s None) = Return rows →
  (∀ r, r ∈ rows → is_Some (r !! "#SAMPLE")) →
  ∃ l,
    summary_combined_contains_errors w s arg pat =
      (l, Return (negb (bool_decide (offending_ids pat rows = [])))) ∧
    (offending_ids pat rows ≠ [] →
     ∃ rec, rec ∈ l ∧ levelname rec = WARNING ∧
            message rec = summary_errors_found ∧
            ∀ sid, sid ∈ payload rec ↔ sid ∈ offending_ids pat rows).
Proof.
  intros Harg Hkeys. rewrite (summary_unfold w s arg pat _ Harg).
  destruct (scan_rows_spec pat rows ∅ Hkeys) as (ce & Hce & Hlook).
  assert (∀ k b, ce !! k = Some b → b = true) as Htrue.
  { intros k b. rewrite Hlook.
    case_bool_decide; [congruence|by rewrite lookup_empty]. }
  assert (ce = ∅ ↔ offending_ids pat rows = []) as Hempty.
  { split.
    - intros ->. destruct (offending_ids pat rows) as [|sid l] eqn:E; [done|].
      specialize (Hlook sid). rewrite lookup_empty in Hlook.
      rewrite bool_decide_eq_true_2 in Hlook; [done|left].
    - intros E. apply map_eq. intros k. rewrite Hlook, E, lookup_empty.
      rewrite bool_decide_eq_false_2; [done|apply not_elem_of_nil]. }
  pose proof (contains_errors_decision ce Htrue) as Hdec.
  cbv [lbind llift lret emit]. cbn [fst snd].
  destruct (decide (ce = ∅)) as [He|He].
  - assert (Nat.ltb (size ce) 1 = true) as Hsz
      by (rewrite He, map_size_empty; done).
    destruct (negb (truthy_list (Some rows))); cbn [fst snd];
      rewrite Hce; cbn [fst snd]; rewrite Hsz; cbn [fst snd].
    all: eexists; split;
      [ do 2 f_equal; symmetry;
        apply negb_false_iff, bool_decide_eq_true_2; by apply Hempty
      | intros Hne; exfalso; by apply Hne, Hempty ].
  - rewrite (bool_decide_eq_false_2 _ He) in Hdec.
    assert (Nat.ltb (size ce) 1 = false) as Hsz.
    { apply Nat.ltb_ge. apply map_size_non_empty_iff in He. lia. }
    rewrite Hsz in Hdec.
    destruct (negb (truthy_list (Some rows))); cbn [fst snd];
      rewrite Hce; cbn [fst snd]; rewrite Hsz, Hdec; cbn [negb fst snd].
    all: eexists; split;
      [ do 2 f_equal; symmetry;
        apply negb_true_iff, bool_decide_eq_false_2; by rewrite <- Hempty | ].
    all: intros _;
      exists {| levelname := WARNING; message := summary_errors_found;
                payload := (List.filter (λ kv, Bool.eqb kv.2 true)
                              (map_to_list ce)).*1 |};
      split; [apply list_elem_of_In; simpl; auto|].
    all: split; [done|]; split; [done|]; intros sid; cbn [payload];
      rewrite list_elem_of_fmap; split;
      [ intros ([g b] & -> & Hin);
        apply list_elem_of_In, filter_In in Hin as [Hin _];
        apply list_elem_of_In, elem_of_map_to_list in Hin;
        rewrite Hlook in Hin; cbn [fst];
        case_bool_decide; [done|by rewrite lookup_empty in Hin]
      | intros Hsid; exists (sid, true); split; [done|];
        apply list_elem_of_In, filter_In; split; [|done];
        apply list_elem_of_In, elem_of_map_to_list;
        rewrite Hlook; by rewrite bool_decide_eq_true_2 ].
Qed.

Lemma get_summary_unreadable w s p :
  static_files s !! "summary_combined_wes" = Some p →
  truthy p = true →
  (∀ lines, fs w !! p ≠ Some (File lines)) →
  get_summary_combined_contents w s None = Raise (IOError p).
Proof.
  intros Hp Ht Hf. unfold get_summary_combined_contents, or_default.
  cbn [truthy_opt]. rewrite Hp, Ht. unfold open_lines.
  destruct (fs w !! p) as [[|lines]|] eqn:E; try done.
  by destruct (Hf lines).
Qed.

Lemma static_files_status_inv w s :
  status (expected_static_files_validation w s) = true →
  ∀ name p, expected_static_files s !! name = Some p →
            path_exists w p = true.
Proof.
  cbn [status expected_static_files_validation]. unfold py_all.
  rewrite forallb_forall. intros H name p Hp.
  apply (H (path_exists w p)). apply (proj1 (list_elem_of_In _ _)).
  apply (proj2 (list_elem_of_fmap _ _ _)).
  exists (name, p, path_exists w p). split; [reflexivity|].
  unfold expected_static_files_existences.
  apply (proj2 (list_elem_of_fmap _ _ _)).
  exists (name, p). split; [reflexivity|].
  apply (proj2 (elem_of_map_to_list _ _ _)). exact Hp.
Qed.

(** The outcome of [validate] from the outcomes of its two content
    checks. *)
Lemma validate_of_checks w s l3 q l4 x :
  check_qsub_log_errors_present w s None ["ERROR:"] = (l3, Return q) →
  summary_combined_contains_errors w s None "X" = (l4, Return x) →
  validate w s =
    (with_logger
       (logger s ++ l3 ++ l4 ++ closing_records (recorded4 w s q x))
       (with_validations (recorded4 w s q x) s),
     Return (status (dir_exists_validation w s) &&
             status (expected_static_files_validation w s) &&
             negb q && negb x)).
Proof.
  intros Hq Hx. rewrite validate_spec, Hq, Hx. by rewrite recorded4_all.
Qed.

Lemma validate_summary_raises w s l3 q l4 e :
  check_qsub_log_errors_present w s None ["ERROR:"] = (l3, Return q) →
  summary_combined_contains_errors w s None "X" = (l4, Raise e) →
  validate w s =
    (with_logger (logger s ++ l3 ++ l4)
       (with_validations (recorded3 w s q) s), Raise e).
Proof. intros Hq Hx. by rewrite validate_spec, Hq, Hx. Qed.

Lemma validate_qsub_raises w s l3 e :
  check_qsub_log_errors_present w s None ["ERROR:"] = (l3, Raise e) →
  validate w s =
    (with_logger (logger s ++ l3) (with_validations (recorded2 w s) s),
     Raise e).
Proof. intros Hq. by rewrite validate_spec, Hq. Qed.

(** ** The object that the constructor returns *)

Lemma select_config_cases w (cfg : option SnsConfig) :
  select_config w cfg =
    match cfg with
    | Some c => if index_truthy c then c else config_sns w
    | None => config_sns w
    end.
Proof.
  unfold select_config. destruct cfg as [c|].
  - destruct (cfg_truthy (Some c)) eqn:Ht.
    + done.
    + assert (index_truthy c = false) as ->.
      { unfold index_truthy. cbn [cfg_truthy] in Ht.
        apply orb_false_elim in Ht as [_ Ht].
        destruct (cfg_analysis_output_index c); [|done].
        apply bool_decide_eq_false in Ht. destruct Ht. by eexists. }
      by destruct (index_truthy (config_sns w)).
  - by destruct (index_truthy (config_sns w)).
Qed.

Lemma init_dirs_shape w s :
  _init_dirs w s = with_dirs (dirs (_init_dirs w s)) s.
Proof.
  unfold _init_dirs.
  pose proof (init_dirs_fold_frame w (map_to_list (analysis_output_index s))
                s) as H.
  set (x := foldl (init_dir w) s (map_to_list (analysis_output_index s)))
    in *.
  transitivity (with_dirs (dirs x) (with_dirs (dirs s) x)).
  - rewrite with_dirs_twice. symmetry. apply with_dirs_same.
  - by rewrite H.
Qed.

Lemma init_dirs_entries w s name :
  dirs s = ∅ →
  dirs (_init_dirs w s) !! name =
    if bool_decide (name ∈ dom (analysis_output_index s) ∧
                    name ≠ "_parent")
    then Some (dir_search w (dir s) name) else None.
Proof.
  intros Hd. unfold _init_dirs. rewrite init_dirs_fold_lookup.
  rewrite Hd, lookup_empty.
  apply (f_equal (λ b : bool, if b then _ else _)).
  apply bool_decide_ext.
  apply and_iff_compat_r. rewrite elem_of_dom. split.
  - intros ([k a] & -> & Hin)%list_elem_of_fmap.
    apply elem_of_map_to_list in Hin. by exists a.
  - intros [a Ha]. apply list_elem_of_fmap. exists (name, a).
    split; [done|]. by apply elem_of_map_to_list.
Qed.

(** The attributes of the object that the constructor returns. *)
Lemma init_object w d i cfg rid debug self :
  __init__ w d i cfg rid debug = Return self →
  ∃ email index,
    cfg_email_recipients (select_config w cfg) = Some email ∧
    cfg_analysis_output_index (select_config w cfg) = Some index ∧
    id self = i ∧ dir self = abspath w d ∧
    results_id self = py_str_opt rid ∧
    sns_config self = select_config w cfg ∧
    email_recipients self = email ∧
    analysis_output_index self = index ∧
    static_files self = expected_static_files self ∧
    files self =
      {[ "targets_bed" :=
           find w (abspath w d) ["*.bed"] ["*.pad10.bed"] SearchFile
             (Some 1) (Some 0) MatchAny ]} ∧
    (∀ name,
       dirs self !! name =
         if bool_decide (name ∈ dom index ∧ name ≠ "_parent")
         then Some (dir_search w (abspath w d) name) else None) ∧
    (debug = true → is_valid self = None) ∧
    (debug = false → ∃ b, is_valid self = Some b).
Proof.
  intros H.
  apply init_returns in H as (email & index & l & v & He & Hi & Hself).
  cbn zeta in Hself. exists email, index. split; [done|]. split; [done|].
  set (s0 := init_attrs w d i cfg rid email index) in *.
  assert (∀ name,
            dirs (_init_dirs w s0) !! name =
              if bool_decide (name ∈ dom index ∧ name ≠ "_parent")
              then Some (dir_search w (abspath w d) name) else None)
    as Hdirs.
  { intros name. by rewrite (init_dirs_entries w s0 name eq_refl). }
  rewrite (init_dirs_shape w s0) in Hself.
  destruct Hself as [[-> ->]|[-> [b ->]]].
  - do 8 (split; [reflexivity|]). split; [exact Hdirs|].
    split; [reflexivity|discriminate].
  - do 8 (split; [reflexivity|]). split; [exact Hdirs|].
    split; [discriminate|]. intros _. by exists b.
Qed.

(** What a search returns: bounded by the limit of results, below the
    search directory within the limit of levels, of the requested kind,
    and with a name that no exclusion pattern matches. *)
Lemma limit_length {A} n (l : list A) :
  (length (limit (Some n) l) ≤ n)%nat.
Proof. cbn [limit]. rewrite length_take. lia. Qed.

Lemma find_limited w d inc exc t n l m :
  (length (find w d inc exc t (Some n) l m) ≤ n)%nat.
Proof.
  unfold find. destruct (path_isdir w d); [apply limit_length|].
  cbn [length]. lia.
Qed.

Lemma find_entry w d inc exc t n l m p :
  p ∈ find w d inc exc t n l m →
  ∃ nd rel,
    fs w !! p = Some nd ∧ relative_to d p = Some rel ∧
    within_level l rel = true ∧ kind_matches t nd = true ∧
    name_matches inc exc m (basename rel) = true.
Proof.
  intros (nd & Hnd & Hm)%find_matches.
  unfold entry_matches in Hm. cbn [fst snd] in Hm.
  destruct (relative_to d p) as [rel|]; [|done].
  apply andb_prop in Hm as [Hm H3]. apply andb_prop in Hm as [H1 H2].
  by exists nd, rel.
Qed.

(** ** The registries of a sample *)

Lemma same_scalars_refl s : same_scalars s s.
Proof. by repeat split. Qed.

Lemma same_scalars_trans s1 s2 s3 :
  same_scalars s1 s2 → same_scalars s2 s3 → same_scalars s1 s3.
Proof.
  unfold same_scalars.
  intros (?&?&?&?&?&?&?&?&?) (?&?&?&?&?&?&?&?&?).
  repeat split; congruence.
Qed.

Lemma sample_dir_fold_frame l s :
  same_scalars s (foldl sample_dir_step s l) ∧
  SnsAnalysisSample.files (foldl sample_dir_step s l) =
    SnsAnalysisSample.files s.
Proof.
  revert s. induction l as [|[k v] l IH]; intros s.
  - split; [apply same_scalars_refl|done].
  - cbn [foldl]. destruct (IH (sample_dir_step s (k, v))) as [H1 H2].
    assert (same_scalars s (sample_dir_step s (k, v)) ∧
            SnsAnalysisSample.files (sample_dir_step s (k, v)) =
              SnsAnalysisSample.files s) as [H3 H4].
    { cbn [sample_dir_step]. destruct (bool_decide (k ∉ ["_parent"])).
      - split; [by repeat split|done].
      - split; [apply same_scalars_refl|done]. }
    split; [by eapply same_scalars_trans|congruence].
Qed.

Lemma sample_file_fold_frame l s :
  same_scalars s (foldl sample_file_step s l) ∧
  SnsAnalysisSample.dirs (foldl sample_file_step s l) =
    SnsAnalysisSample.dirs s.
Proof.
  revert s. induction l as [|[k v] l IH]; intros s.
  - split; [apply same_scalars_refl|done].
  - cbn [foldl]. destruct (IH (sample_file_step s (k, v))) as [H1 H2].
    split.
    + eapply same_scalars_trans; [|exact H1]. by repeat split.
    + by rewrite H2.
Qed.

Lemma sample_dir_fold_parent l s :
  SnsAnalysisSample.dirs (foldl sample_dir_step s l) !! "_parent" =
    SnsAnalysisSample.dirs s !! "_parent".
Proof.
  revert s. induction l as [|[k v] l IH]; intros s; [done|].
  cbn [foldl]. rewrite IH. cbn [sample_dir_step].
  case_bool_decide as Hk; [|done].
  cbn [SnsAnalysisSample.set_dir SnsAnalysisSample.dirs].
  unfold AnalysisItem.set. rewrite lookup_insert_ne; [done|].
  intros ->. apply Hk. left.
Qed.

Lemma sample_dir_fold_absent l s name :
  name ∉ l.*1 →
  SnsAnalysisSample.dirs (foldl sample_dir_step s l) !! name =
    SnsAnalysisSample.dirs s !! name.
Proof.
  revert s. induction l as [|[k v] l IH]; intros s Hn; [done|].
  cbn [fmap list_fmap fst] in Hn. apply not_elem_of_cons in Hn as [Hk Hn].
  cbn [foldl]. rewrite IH by done. cbn [sample_dir_step].
  destruct (bool_decide (k ∉ ["_parent"])); [|done].
  cbn [SnsAnalysisSample.set_dir SnsAnalysisSample.dirs].
  unfold AnalysisItem.set. by rewrite lookup_insert_ne.
Qed.

Lemma sample_dir_fold_present l s name paths :
  NoDup l.*1 → (name, paths) ∈ l → name ≠ "_parent" →
  SnsAnalysisSample.dirs (foldl sample_dir_step s l) !! name = Some paths.
Proof.
  revert s. induction l as [|[k v] l IH]; intros s Hnd Hin Hne.
  - by apply elem_of_nil in Hin.
  - cbn [fmap list_fmap fst] in Hnd. apply NoDup_cons in Hnd as [Hk Hnd].
    apply elem_of_cons in Hin as [Heq|Hin].
    + injection Heq as -> ->. cbn [foldl].
      rewrite sample_dir_fold_absent by done.
      cbn [sample_dir_step]. rewrite bool_decide_eq_true_2.
      * cbn [SnsAnalysisSample.set_dir SnsAnalysisSample.dirs].
        apply lookup_insert_eq.
      * by intros ->%list_elem_of_singleton.
    + cbn [foldl]. by apply IH.
Qed.

Lemma sample_file_fold_absent l s name :
  name ∉ l.*1 →
  SnsAnalysisSample.files (foldl sample_file_step s l) !! name =
    SnsAnalysisSample.files s !! name.
Proof.
  revert s. induction l as [|[k v] l IH]; intros s Hn; [done|].
  cbn [fmap list_fmap fst] in Hn. apply not_elem_of_cons in Hn as [Hk Hn].
  cbn [foldl]. rewrite IH by done.
  cbn [sample_file_step SnsAnalysisSample.set_file SnsAnalysisSample.files].
  unfold AnalysisItem.set. by rewrite lookup_insert_ne.
Qed.

Lemma sample_file_fold_present l s name paths :
  NoDup l.*1 → (name, paths) ∈ l →
  SnsAnalysisSample.files (foldl sample_file_step s l) !! name = Some paths.
Proof.
  revert s. induction l as [|[k v] l IH]; intros s Hnd Hin.
  - by apply elem_of_nil in Hin.
  - cbn [fmap list_fmap fst] in Hnd. apply NoDup_cons in Hnd as [Hk Hnd].
    apply elem_of_cons in Hin as [Heq|Hin].
    + injection Heq as -> ->. cbn [foldl].
      rewrite sample_file_fold_absent by done.
      cbn [sample_file_step SnsAnalysisSample.set_file
           SnsAnalysisSample.files].
      apply lookup_insert_eq.
    + cbn [foldl]. by apply IH.
Qed.

Lemma sample_init_unfold i cfg sns :
  SnsAnalysisSample.__init__ i cfg sns =
    foldl sample_file_step
      (foldl sample_dir_step
         {| SnsAnalysisSample.id := i;
            SnsAnalysisSample.analysis_config := cfg;
            SnsAnalysisSample.sns_config := sns;
            SnsAnalysisSample.search_pattern := i ++ "*";
            SnsAnalysisSample.analysis_id :=
              AnalysisConfig.analysis_id cfg;
            SnsAnalysisSample.analysis_dir :=
              AnalysisConfig.analysis_dir cfg;
            SnsAnalysisSample.results_id := AnalysisConfig.results_id cfg;
            SnsAnalysisSample.static_files :=
              AnalysisConfig.static_files cfg;
            SnsAnalysisSample.analysis_is_valid :=
              AnalysisConfig.analysis_is_valid cfg;
            SnsAnalysisSample.dirs := ∅;
            SnsAnalysisSample.files := ∅ |}
         (map_to_list (AnalysisConfig.dirs cfg)))
      (map_to_list (AnalysisConfig.files cfg)).
Proof.
  unfold SnsAnalysisSample.__init__, SnsAnalysisSample._init_files,
    SnsAnalysisSample._init_dirs.
  set (s0 := {| SnsAnalysisSample.id := i |}).
  destruct (sample_init_dirs_fold (map_to_list (AnalysisConfig.dirs cfg)) s0)
    as [Hc _].
  change (SnsAnalysisSample.analysis_config s0) with cfg in Hc |- *.
  rewrite Hc. reflexivity.
Qed.

Lemma sample_init_registries i cfg sns :
  SnsAnalysisSample.dirs (SnsAnalysisSample.__init__ i cfg sns) =
    delete "_parent" (AnalysisConfig.dirs cfg) ∧
  SnsAnalysisSample.files (SnsAnalysisSample.__init__ i cfg sns) =
    AnalysisConfig.files cfg ∧
  SnsAnalysisSample.id (SnsAnalysisSample.__init__ i cfg sns) = i ∧
  SnsAnalysisSample.search_pattern (SnsAnalysisSample.__init__ i cfg sns) =
    i ++ "*" ∧
  SnsAnalysisSample.analysis_config (SnsAnalysisSample.__init__ i cfg sns) =
    cfg ∧
  SnsAnalysisSample.sns_config (SnsAnalysisSample.__init__ i cfg sns) =
    sns ∧
  SnsAnalysisSample.analysis_id (SnsAnalysisSample.__init__ i cfg sns) =
    AnalysisConfig.analysis_id cfg ∧
  SnsAnalysisSample.analysis_dir (SnsAnalysisSample.__init__ i cfg sns) =
    AnalysisConfig.analysis_dir cfg ∧
  SnsAnalysisSample.results_id (SnsAnalysisSample.__init__ i cfg sns) =
    AnalysisConfig.results_id cfg ∧
  SnsAnalysisSample.static_files (SnsAnalysisSample.__init__ i cfg sns) =
    AnalysisConfig.static_files cfg ∧
  SnsAnalysisSample.analysis_is_valid
    (SnsAnalysisSample.__init__ i cfg sns) =
    AnalysisConfig.analysis_is_valid cfg.
Proof.
  rewrite sample_init_unfold.
  set (s0 := {| SnsAnalysisSample.id := i |}).
  set (ld := map_to_list (AnalysisConfig.dirs cfg)).
  set (lf := map_to_list (AnalysisConfig.files cfg)).
  destruct (sample_dir_fold_frame ld s0) as [Hs1 Hf1].
  destruct (sample_file_fold_frame lf (foldl sample_dir_step s0 ld))
    as [Hs2 Hd2].
  pose proof (same_scalars_trans _ _ _ Hs1 Hs2)
    as (H1 & H2 & H3 & H4 & H5 & H6 & H7 & H8 & H9).
  split; [|split].
  - rewrite Hd2. apply map_eq. intros name.
    destruct (decide (name = "_parent")) as [->|Hne].
    + rewrite sample_dir_fold_parent, lookup_delete_eq. apply lookup_empty.
    + rewrite lookup_delete_ne by done.
      destruct (AnalysisConfig.dirs cfg !! name) as [paths|] eqn:E.
      * apply sample_dir_fold_present; [|by apply elem_of_map_to_list|done].
        apply NoDup_fst_map_to_list.
      * rewrite sample_dir_fold_absent; [apply lookup_empty|].
        intros ([k v] & -> & Hin)%list_elem_of_fmap.
        apply elem_of_map_to_list in Hin. cbn [fst] in E. congruence.
  - apply map_eq. intros name.
    destruct (AnalysisConfig.files cfg !! name) as [paths|] eqn:E.
    + apply sample_file_fold_present; [|by apply elem_of_map_to_list].
      apply NoDup_fst_map_to_list.
    + rewrite sample_file_fold_absent.
      * rewrite Hf1. apply lookup_empty.
      * intros ([k v] & -> & Hin)%list_elem_of_fmap.
        apply elem_of_map_to_list in Hin. cbn [fst] in E. congruence.
  - rewrite H1, H2, H3, H4, H5, H6, H7, H8, H9. by repeat split.
Qed.

Lemma mapR_total {A B} (g : A → result B) (f : A → B) (l : list A) :
  (∀ x, g x = Return (f x)) → mapR g l = Return (f <$> l).
Proof.
  intros Hg. induction l as [|x l IH]; [done|].
  cbn [mapR]. rewrite Hg. cbn [result_bind]. rewrite IH. reflexivity.
Qed.

(** Samples are built one by one, in the order of the identifiers. *)
Lemma build_samples_set s b c (ids : list string) :
  is_valid s = Some b →
  get_analysis_config s = Return c →
  mapR (λ samplesID,
          result_bind (get_analysis_config s)
            (λ analysis_config,
               Return (SnsAnalysisSample.__init__ samplesID analysis_config
                         (sns_config s))))
    ids =
  Return ((λ i, SnsAnalysisSample.__init__ i c (sns_config s)) <$> ids).
Proof.
  intros Hv Hc. apply mapR_total. intros i. by rewrite Hc.
Qed.

Lemma mapR_first_column_blank before after :
  (∀ r, r ∈ before → r ≠ []) →
  mapR first_column (before ++ [] :: after) = Raise IndexError.
Proof.
  induction before as [|r before IH]; intros Hne; [done|].
  destruct r as [|x r]; [by destruct (Hne []); [left|]|].
  cbn [app mapR first_column result_bind]. rewrite IH; [done|].
  intros r' Hr'. apply Hne. by right.
Qed.
(** ** The properties of the specification *)

(** C1 (amended).  For an analysis whose root directory exists, whose four
    static files exist, whose queue-log directory is resolved and holds at
    least one log file, none of them with an error-marker line, and whose
    summary table is read as rows that all have the identifier column and
    have no [X] cell outside it, [validate] returns true and records four
    true statuses.  Whenever [validate] returns, the value returned is the
    conjunction of the statuses of the four recorded checks. *)
Theorem C1_validate_true_for_clean_output (w : World) (self : t) :
  (∀ logs rows,
     valid_output w self →
     get_qsub_logfiles w self None = Return logs → logs ≠ [] →
     get_summary_combined_contents w self None = Return rows →
     (∀ r, r ∈ rows → is_Some (r !! "#SAMPLE")) →
     ∃ self', validate w self = (self', Return true) ∧
              validations self' = recorded4 w self false false ∧
              map_Forall (λ _ v, status v = true) (validations self')) ∧
  (∀ self' is_valid,
     validate w self = (self', Return is_valid) →
     ∃ qsub_errors summary_errors,
       validations self' = recorded4 w self qsub_errors summary_errors ∧
       is_valid =
         status (dir_exists_validation w self) &&
         status (expected_static_files_validation w self) &&
         status (qsub_validation qsub_errors) &&
         status (summary_validation summary_errors)).
Proof.
  split.
  - intros logs rows. apply validate_passes.
  - intros self' b. apply validate_conjunction.
Qed.

Lemma C1_witness_valid_world :
  (∃ self', validate valid_world (demo_analysis valid_world) =
              (self', Return true) ∧
            validations self' =
              recorded4 valid_world (demo_analysis valid_world) false false ∧
            map_Forall (λ _ v, status v = true) (validations self')) ∧
  (∃ qsub_errors summary_errors,
     validations (validate valid_world (demo_analysis valid_world)).1 =
       recorded4 valid_world (demo_analysis valid_world)
         qsub_errors summary_errors ∧
     true =
       status (dir_exists_validation valid_world (demo_analysis valid_world)) &&
       status (expected_static_files_validation valid_world
                 (demo_analysis valid_world)) &&
       status (qsub_validation qsub_errors) &&
       status (summary_validation summary_errors)).
Proof.
  split.
  - apply (proj1 (C1_validate_true_for_clean_output valid_world
                    (demo_analysis valid_world))
             ["/run/logs-qsub/align.o1"]
             (plain_DictReader
                ["#SAMPLE,READS,DEPTH"; "S1,1000,80"; "S2,900,75"])).
    + apply valid_outputb_sound. vm_compute. reflexivity.
    + vm_compute. reflexivity.
    + discriminate.
    + vm_compute. reflexivity.
    + apply has_id_sound. vm_compute. reflexivity.
  - apply (proj2 (C1_validate_true_for_clean_output valid_world
                    (demo_analysis valid_world))).
    vm_compute. reflexivity.
Defined.

(** C1 (as stated) fails: an analysis whose root directory and four static
    files exist, whose directory of queue logs holds no file (so that no
    queue log has an error-marker line) and whose summary table has no [X]
    cell is built by the constructor in debug mode, and [validate] raises
    [AnalysisItemMissing] on it instead of returning true. *)
Lemma C1_counterexample_no_queue_log :
  __init__ empty_logs_world "/run" "run1" None None true =
    Return (demo_analysis empty_logs_world) ∧
  valid_output empty_logs_world (demo_analysis empty_logs_world) ∧
  (validate empty_logs_world (demo_analysis empty_logs_world)).2 =
    Raise (AnalysisItemMissing qsub_logfiles_missing).
Proof.
  split; [vm_compute; reflexivity|]. split.
  - apply valid_outputb_sound. vm_compute. reflexivity.
  - vm_compute. reflexivity.
Qed.

(** C2.  For every analysis in which the directory of the queue logs
    ([logs-qsub]) is not resolved in the registry of directories,
    [validate] raises [AnalysisItemMissing]; the exception reaches the
    caller, and the object holds the entries of the first two checks
    only: the two remaining checks are never recorded. *)
Theorem C2_validate_raises_without_queue_log_dir (w : World) (self : t) :
  get_dirs self "logs-qsub" = [] →
  ∃ self',
    validate w self =
      (self', Raise (AnalysisItemMissing qsub_logdir_missing)) ∧
    validations self' = recorded2 w self ∧
    dom (validations self') =
      {["dir_exists"; "expected_static_files_exist"]} ∧
    validations self' !! "no_qsub_log_errors_present" = None ∧
    validations self' !! "no_summary_combined_errors" = None.
Proof.
  intros Hdir. eexists. split; [by apply validate_without_logdir|].
  cbn [validations with_logger with_validations].
  split; [done|]. split.
  - unfold recorded2. rewrite !dom_insert_L, dom_empty_L. set_solver.
  - split; [apply recorded2_lookup_qsub|apply recorded2_lookup_summary].
Qed.

Lemma C2_witness_no_logdir :
  get_dirs (demo_analysis no_logdir_world) "logs-qsub" = [] ∧
  ∃ self',
    validate no_logdir_world (demo_analysis no_logdir_world) =
      (self', Raise (AnalysisItemMissing qsub_logdir_missing)) ∧
    validations self' =
      recorded2 no_logdir_world (demo_analysis no_logdir_world) ∧
    dom (validations self') =
      {["dir_exists"; "expected_static_files_exist"]} ∧
    validations self' !! "no_qsub_log_errors_present" = None ∧
    validations self' !! "no_summary_combined_errors" = None.
Proof.
  split; [vm_compute; reflexivity|].
  apply (C2_validate_raises_without_queue_log_dir no_logdir_world
           (demo_analysis no_logdir_world)).
  vm_compute. reflexivity.
Defined.

(** C6 (the code departs from the claim).  The status that [validate]
    records for [dir_exists] is the result of [os.path.exists] on the root
    path, in every outcome of the call.  When the root path is a regular
    file and not a directory, the constructor in debug mode still builds
    the object, and [validate] records the check with status true, under
    the note that speaks of the analysis directory. *)
Theorem C6_dir_exists_true_for_regular_file :
  (∀ w self,
     validations (validate w self).1 !! "dir_exists" =
       Some {| status := path_exists w (dir self);
               note := "Whether or not the analysis directory (" ++
                       dir self ++ ") exists" |}) ∧
  path_isdir file_root_world "/run" = false ∧
  __init__ file_root_world "/run" "run1" None None true =
    Return (demo_analysis file_root_world) ∧
  validations (validate file_root_world (demo_analysis file_root_world)).1
    !! "dir_exists" =
    Some {| status := true;
            note := "Whether or not the analysis directory (/run) exists" |}.
Proof.
  split; [apply validate_records_dir_exists|].
  split; [reflexivity|]. split; vm_compute; reflexivity.
Qed.

(** C5 (amended).  When [validate] reaches the check
    [no_summary_combined_errors] (queue logs are found) and the summary
    table is read as rows that all have the identifier column, the check
    has status false exactly when some row has a cell equal to [X] in a
    column other than the identifier column; the note recorded in
    [validations] is the same fixed sentence in both cases, and the
    identifiers of all offending rows are listed in a warning emitted on
    the logger. *)
Theorem C5_summary_check_status_and_warning (w : World) (self : t)
    (logs : list string) (rows : list (gmap string string)) :
  get_qsub_logfiles w self None = Return logs → logs ≠ [] →
  get_summary_combined_contents w self None = Return rows →
  (∀ r, r ∈ rows → is_Some (r !! "#SAMPLE")) →
  ∃ self' is_valid v,
    validate w self = (self', Return is_valid) ∧
    validations self' !! "no_summary_combined_errors" = Some v ∧
    note v = summary_note ∧
    (status v = false ↔ ∃ r, r ∈ rows ∧ offending "X" r) ∧
    ((∃ r, r ∈ rows ∧ offending "X" r) →
     ∃ rec, rec ∈ logger self' ∧ levelname rec = WARNING ∧
            message rec = summary_errors_found ∧
            ∀ r sid, r ∈ rows → offending "X" r →
                     r !! "#SAMPLE" = Some sid → sid ∈ payload rec).
Proof.
  intros Hlogs Hne Hrows Hkeys.
  destruct (validate_returns w self logs rows Hlogs Hne Hrows Hkeys)
    as (l3 & l4 & q & _ & _ & Hwarn & Hv).
  cbn zeta in Hv. pose proof (offending_ids_nonempty rows Hkeys) as Hiff.
  eexists _, _, _. split; [exact Hv|].
  cbn [validations with_logger with_validations logger].
  split; [apply recorded4_lookup_summary|]. split; [done|]. split.
  - cbn [status summary_validation]. rewrite <- Hiff.
    rewrite negb_false_iff, negb_true_iff, bool_decide_eq_false. done.
  - intros Hex. apply Hiff in Hex.
    destruct (Hwarn Hex) as (rec & Hin & Hlv & Hmsg & Hids).
    exists rec. split; [set_solver|]. split; [done|]. split; [done|].
    intros r sid Hr Hoff Hsid. apply Hids, offending_ids_elem. eauto.
Qed.

Lemma C5_witness_summary_with_X :
  ∃ self' is_valid v,
    validate summaryX_world (demo_analysis summaryX_world) =
      (self', Return is_valid) ∧
    validations self' !! "no_summary_combined_errors" = Some v ∧
    note v = summary_note ∧
    (status v = false ↔
     ∃ r, r ∈ plain_DictReader
                ["#SAMPLE,READS,DEPTH"; "S1,1000,X"; "S2,900,75"] ∧
          offending "X" r) ∧
    ((∃ r, r ∈ plain_DictReader
                 ["#SAMPLE,READS,DEPTH"; "S1,1000,X"; "S2,900,75"] ∧
           offending "X" r) →
     ∃ rec, rec ∈ logger self' ∧ levelname rec = WARNING ∧
            message rec = summary_errors_found ∧
            ∀ r sid,
              r ∈ plain_DictReader
                    ["#SAMPLE,READS,DEPTH"; "S1,1000,X"; "S2,900,75"] →
              offending "X" r →
              r !! "#SAMPLE" = Some sid → sid ∈ payload rec).
Proof.
  apply (C5_summary_check_status_and_warning summaryX_world
           (demo_analysis summaryX_world) ["/run/logs-qsub/align.o1"]).
  - vm_compute. reflexivity.
  - discriminate.
  - vm_compute. reflexivity.
  - apply has_id_sound. vm_compute. reflexivity.
Defined.

(** C5 (as stated) fails: in an analysis whose summary table has [X] in a
    cell of the row of sample [S1], the check is recorded with status
    false, and its note does not hold the identifier [S1]. *)
Lemma C5_counterexample_note_lists_no_identifier :
  offending_ids "X"
    (summary_rows summaryX_world (demo_analysis summaryX_world)) = ["S1"] ∧
  ∃ v,
    validations
      (validate summaryX_world (demo_analysis summaryX_world)).1
      !! "no_summary_combined_errors" = Some v ∧
    status v = false ∧
    note v = summary_note ∧
    str_in "S1" (note v) = false.
Proof.
  split; [vm_compute; reflexivity|].
  eexists. split; [vm_compute; reflexivity|].
  split; [reflexivity|]. split; vm_compute; reflexivity.
Qed.

(** C7.  For every schema and every key of it other than the reserved key
    [_parent], the registry of directories of the object that the
    constructor returns has an entry for the key (an empty list when
    nothing was found): the result of the search for a directory named by
    the key among the immediate children of the root (depth limit 0), cut
    to one result.  In debug mode the constructor returns an object as
    soon as the configuration has its two keys. *)
Theorem C7_every_schema_key_has_directory_entry (w : World) (d i : string)
    (cfg : option SnsConfig) (rid : option string) :
  (∀ debug self,
     __init__ w d i cfg rid debug = Return self →
     ∀ name, name ∈ dom (analysis_output_index self) → name ≠ "_parent" →
       dirs self !! name =
         Some (find w (dir self) [name] [] SearchDir (Some 1) (Some 0)
                 MatchAny)) ∧
  (∀ email index,
     cfg_email_recipients (select_config w cfg) = Some email →
     cfg_analysis_output_index (select_config w cfg) = Some index →
     ∃ self, __init__ w d i cfg rid true = Return self ∧
             analysis_output_index self = index).
Proof.
  split.
  - intros debug self Hinit name Hdom Hne.
    apply init_returns in Hinit
      as (email & index & l & v & _ & _ & [[_ ->]|[_ [b ->]]]).
    + change (dirs (_init_dirs w (init_attrs w d i cfg rid email index))
                !! name =
              Some (dir_search w
                      (dir (_init_dirs w
                              (init_attrs w d i cfg rid email index)))
                      name)).
      destruct (init_dirs_fields w (init_attrs w d i cfg rid email index))
        as (Hd & Hi & _).
      rewrite Hd. apply init_dirs_lookup; [|done].
      change (name ∈ dom (analysis_output_index
                            (_init_dirs w
                               (init_attrs w d i cfg rid email index))))
        in Hdom.
      by rewrite Hi in Hdom.
    + change (dirs (_init_dirs w (init_attrs w d i cfg rid email index))
                !! name =
              Some (dir_search w
                      (dir (_init_dirs w
                              (init_attrs w d i cfg rid email index)))
                      name)).
      destruct (init_dirs_fields w (init_attrs w d i cfg rid email index))
        as (Hd & Hi & _).
      rewrite Hd. apply init_dirs_lookup; [|done].
      change (name ∈ dom (analysis_output_index
                            (_init_dirs w
                               (init_attrs w d i cfg rid email index))))
        in Hdom.
      by rewrite Hi in Hdom.
  - intros email index He Hi. eexists. split.
    + by apply init_debug_returns.
    + change (analysis_output_index
                (_init_dirs w (init_attrs w d i cfg rid email index)) = index).
      by destruct (init_dirs_fields w (init_attrs w d i cfg rid email index))
        as (_ & -> & _).
Qed.

Lemma C7_witness_valid_world :
  dirs (with_is_valid (Some true)
          (validate valid_world (demo_analysis valid_world)).1) !! "BAM-DD" =
    Some (find valid_world "/run" ["BAM-DD"] [] SearchDir (Some 1) (Some 0)
            MatchAny) ∧
  ∃ self, __init__ valid_world "/run" "run1" None None true = Return self ∧
          analysis_output_index self =
            <["_parent" := []]>
              (<["BAM-DD" := [".dd.bam"]]> (<["logs-qsub" := []]> ∅)).
Proof.
  split.
  - apply (proj1 (C7_every_schema_key_has_directory_entry valid_world
                    "/run" "run1" None None) false).
    + vm_compute. reflexivity.
    + apply elem_of_dom. exists [".dd.bam"]. vm_compute. reflexivity.
    + discriminate.
  - apply (proj2 (C7_every_schema_key_has_directory_entry valid_world
                    "/run" "run1" None None) "lab@example.org").
    + reflexivity.
    + reflexivity.
Defined.

(** C3.  The constructor, when it is not in debug mode, raises on a root
    path that does not exist: [AnalysisItemMissing] from the check of the
    queue logs, or [KeyError] when the configuration lacks one of its two
    keys.  It never returns an object, so no object with [is_valid] set to
    true comes out of it. *)
Theorem C3_constructor_raises_on_missing_root (w : World) (d i : string)
    (cfg : option SnsConfig) (rid : option string) :
  path_exists w (abspath w d) = false →
  (∃ e, __init__ w d i cfg rid false = Raise e ∧
        (e = AnalysisItemMissing qsub_logdir_missing ∨
         e = KeyError "email_recipients" ∨
         e = KeyError "analysis_output_index")) ∧
  (is_Some (cfg_email_recipients (select_config w cfg)) →
   is_Some (cfg_analysis_output_index (select_config w cfg)) →
   __init__ w d i cfg rid false =
     Raise (AnalysisItemMissing qsub_logdir_missing)) ∧
  (∀ self, __init__ w d i cfg rid false = Return self →
           is_valid self ≠ Some true).
Proof.
  intros Hroot.
  assert (∀ email index,
            cfg_email_recipients (select_config w cfg) = Some email →
            cfg_analysis_output_index (select_config w cfg) = Some index →
            __init__ w d i cfg rid false =
              Raise (AnalysisItemMissing qsub_logdir_missing)) as Hraise.
  { intros email index He Hi. unfold __init__. rewrite He, Hi.
    cbn [getitem result_bind negb].
    by rewrite (validate_without_logdir w _
                  (init_missing_root w d i cfg rid email index "logs-qsub"
                     Hroot)). }
  assert (∃ e, __init__ w d i cfg rid false = Raise e ∧
        (e = AnalysisItemMissing qsub_logdir_missing ∨
         e = KeyError "email_recipients" ∨
         e = KeyError "analysis_output_index")) as Hex.
  { destruct (cfg_email_recipients (select_config w cfg)) as [email|] eqn:He.
    - destruct (cfg_analysis_output_index (select_config w cfg))
        as [index|] eqn:Hi.
      + eexists. split; [by eapply Hraise|]. by left.
      + eexists. split; [unfold __init__; by rewrite He, Hi|]. by right; right.
    - eexists. split; [unfold __init__; by rewrite He|]. by right; left. }
  split; [done|]. split.
  - intros [email He] [index Hi]. by eapply Hraise.
  - intros self Hself. destruct Hex as (e & He & _). congruence.
Qed.

Lemma C3_witness_missing_root :
  path_exists missing_root_world "/run" = false ∧
  __init__ missing_root_world "/run" "run1" None None false =
    Raise (AnalysisItemMissing qsub_logdir_missing).
Proof.
  split; [reflexivity|].
  apply (C3_constructor_raises_on_missing_root missing_root_world
           "/run" "run1" None None).
  - reflexivity.
  - by eexists.
  - by eexists.
Defined.

(** C4.  When the manifest is read (its path is set and names a regular
    file) and every row has a first column,
    [get_samplesIDs_from_samples_fastq_raw] returns the first-column
    values without duplicates; for rows that start with S1, S1, S2 it
    returns the two identifiers S1 and S2; and a manifest whose rows are a
    permutation of these rows (the same manifest read again, in
    particular) gives the same identifiers up to order. *)
Theorem C4_sample_ids_are_the_set_of_first_columns (w : World) (self : t)
    (arg : option string) (p : string) (lines : list string) :
  or_default arg (static_files self !! "samples_fastq_raw") = Some p →
  truthy p = true →
  fs w !! p = Some (File lines) →
  (∀ r, r ∈ csv_reader w lines → r ≠ []) →
  ∃ ids,
    get_samplesIDs_from_samples_fastq_raw w self arg = Return ids ∧
    NoDup ids ∧
    (∀ x, x ∈ ids ↔ x ∈ first_columns (csv_reader w lines)) ∧
    (∀ s1 s2 a b c,
       csv_reader w lines = [s1 :: a; s1 :: b; s2 :: c] → s1 ≠ s2 →
       length ids = 2 ∧ ids ≡ₚ [s1; s2]) ∧
    (∀ w' self' arg' p' lines',
       or_default arg' (static_files self' !! "samples_fastq_raw")
         = Some p' →
       truthy p' = true →
       fs w' !! p' = Some (File lines') →
       csv_reader w' lines' ≡ₚ csv_reader w lines →
       ∃ ids',
         get_samplesIDs_from_samples_fastq_raw w' self' arg' = Return ids' ∧
         ids' ≡ₚ ids).
Proof.
  intros Hp Ht Hf Hrows.
  exists (elements (list_to_set (first_columns (csv_reader w lines))
                      : gset string)).
  destruct (unique_entries (first_columns (csv_reader w lines)))
    as [Hnd Hel].
  split.
  { rewrite (get_samplesIDs_reads w self arg p lines Hp Ht Hf).
    by rewrite mapR_first_column. }
  split; [done|]. split; [done|]. split.
  - intros s1 s2 a b c Hcsv Hne.
    assert (elements (list_to_set (first_columns (csv_reader w lines))
                        : gset string) ≡ₚ [s1; s2]) as Hperm.
    { apply NoDup_Permutation; [done| |].
      - apply NoDup_cons. split; [|apply NoDup_singleton].
        by intros ->%list_elem_of_singleton.
      - intros x. rewrite Hel, Hcsv. cbn. set_solver. }
    split; [|done]. by rewrite Hperm.
  - intros w' self' arg' p' lines' Hp' Ht' Hf' Hperm.
    exists (elements (list_to_set (first_columns (csv_reader w' lines'))
                        : gset string)).
    split.
    + rewrite (get_samplesIDs_reads w' self' arg' p' lines' Hp' Ht' Hf').
      rewrite mapR_first_column; [done|].
      intros r Hr. apply Hrows. by rewrite <- Hperm.
    + rewrite (unique_entries_perm _ (first_columns (csv_reader w lines)));
        [done|].
      by apply first_columns_perm.
Qed.

Lemma C4_witness_valid_world :
  ∃ ids,
    get_samplesIDs_from_samples_fastq_raw valid_world
      (demo_analysis valid_world) None = Return ids ∧
    NoDup ids ∧
    (∀ x, x ∈ ids ↔
          x ∈ first_columns
                (csv_reader valid_world
                   ["S1,/fq/S1_R1.fastq.gz"; "S1,/fq/S1_R2.fastq.gz";
                    "S2,/fq/S2_R1.fastq.gz"])) ∧
    (∀ s1 s2 a b c,
       csv_reader valid_world
         ["S1,/fq/S1_R1.fastq.gz"; "S1,/fq/S1_R2.fastq.gz";
          "S2,/fq/S2_R1.fastq.gz"] = [s1 :: a; s1 :: b; s2 :: c] →
       s1 ≠ s2 → length ids = 2 ∧ ids ≡ₚ [s1; s2]) ∧
    (∀ w' self' arg' p' lines',
       or_default arg' (static_files self' !! "samples_fastq_raw")
         = Some p' →
       truthy p' = true →
       fs w' !! p' = Some (File lines') →
       csv_reader w' lines' ≡ₚ
         csv_reader valid_world
           ["S1,/fq/S1_R1.fastq.gz"; "S1,/fq/S1_R2.fastq.gz";
            "S2,/fq/S2_R1.fastq.gz"] →
       ∃ ids',
         get_samplesIDs_from_samples_fastq_raw w' self' arg' = Return ids' ∧
         ids' ≡ₚ ids).
Proof.
  apply (C4_sample_ids_are_the_set_of_first_columns valid_world
           (demo_analysis valid_world) None "/run/samples.fastq-raw.csv").
  - vm_compute. reflexivity.
  - reflexivity.
  - vm_compute. reflexivity.
  - apply has_first_column_sound. vm_compute. reflexivity.
Defined.

(** C8 (amended).  [get_samplesIDs_from_samples_fastq_raw] raises
    [AnalysisItemMissing] whenever the path of the manifest is unset
    (neither the argument nor the entry of [static_files] is a non-empty
    path).  When the path is set and does not name a readable regular
    file, the error of [open] ([IOError]) reaches the caller instead. *)
Theorem C8_missing_manifest_errors (w : World) (self : t)
    (arg : option string) :
  (truthy_opt (or_default arg (static_files self !! "samples_fastq_raw"))
     = false →
   get_samplesIDs_from_samples_fastq_raw w self arg =
     Raise (AnalysisItemMissing samples_fastq_raw_missing)) ∧
  (∀ p,
     or_default arg (static_files self !! "samples_fastq_raw") = Some p →
     truthy p = true →
     (∀ lines, fs w !! p ≠ Some (File lines)) →
     get_samplesIDs_from_samples_fastq_raw w self arg = Raise (IOError p)).
Proof.
  split.
  - apply get_samplesIDs_unset.
  - intros p. apply get_samplesIDs_unreadable.
Qed.

Lemma C8_witness_unset_and_unreadable :
  get_samplesIDs_from_samples_fastq_raw no_manifest_world
    (with_static_files ∅ (demo_analysis no_manifest_world)) None =
    Raise (AnalysisItemMissing samples_fastq_raw_missing) ∧
  get_samplesIDs_from_samples_fastq_raw no_manifest_world
    (demo_analysis no_manifest_world) None =
    Raise (IOError "/run/samples.fastq-raw.csv").
Proof.
  split.
  - apply (proj1 (C8_missing_manifest_errors no_manifest_world
                    (with_static_files ∅ (demo_analysis no_manifest_world))
                    None)).
    reflexivity.
  - apply (proj2 (C8_missing_manifest_errors no_manifest_world
                    (demo_analysis no_manifest_world) None)).
    + vm_compute. reflexivity.
    + reflexivity.
    + intros lines.
      assert (fs no_manifest_world !! "/run/samples.fastq-raw.csv" = None)
        as -> by (vm_compute; reflexivity).
      discriminate.
Defined.

(** C8 (as stated) fails: for the analysis that the constructor builds on
    a directory without the manifest, the path of the manifest is set, the
    file cannot be read, and the method raises [IOError], not
    [AnalysisItemMissing]. *)
Lemma C8_counterexample_unreadable_manifest :
  __init__ no_manifest_world "/run" "run1" None None true =
    Return (demo_analysis no_manifest_world) ∧
  static_files (demo_analysis no_manifest_world) !! "samples_fastq_raw" =
    Some "/run/samples.fastq-raw.csv" ∧
  open_lines no_manifest_world "/run/samples.fastq-raw.csv" =
    Raise (IOError "/run/samples.fastq-raw.csv") ∧
  get_samplesIDs_from_samples_fastq_raw no_manifest_world
    (demo_analysis no_manifest_world) None =
    Raise (IOError "/run/samples.fastq-raw.csv") ∧
  ∀ message,
    get_samplesIDs_from_samples_fastq_raw no_manifest_world
      (demo_analysis no_manifest_world) None ≠
    Raise (AnalysisItemMissing message).
Proof.
  assert (get_samplesIDs_from_samples_fastq_raw no_manifest_world
            (demo_analysis no_manifest_world) None =
          Raise (IOError "/run/samples.fastq-raw.csv")) as H
    by (vm_compute; reflexivity).
  split; [vm_compute; reflexivity|]. split; [vm_compute; reflexivity|].
  split; [vm_compute; reflexivity|]. split; [exact H|].
  intros message. rewrite H. discriminate.
Qed.

(** C9.  For a sample built with the identifier S1, [get_output_files]
    with a file-name pattern searches the resolved directory of the step
    for the files whose name matches both the pattern of the caller and
    the pattern [S1*] of the sample, so every path returned is a regular
    file below that directory whose name matches both.  Against a
    directory that holds the files S1.bam and S2.bam (both of which match
    the pattern of the caller alone), the pattern [*.bam] gives exactly the
    path of S1.bam.  When the directory of the step is not resolved, the
    method raises [AnalysisItemMissing]. *)
Theorem C9_sample_output_files_match_both_patterns (w : World)
    (cfg : AnalysisConfig.t) (sns : SnsConfig)
    (analysis_step pattern : string) :
  let sample := SnsAnalysisSample.__init__ "S1" cfg sns in
  (∀ d,
     AnalysisItem.get (AnalysisConfig.dirs cfg) analysis_step = [d] →
     truthy d = true →
     SnsAnalysisSample.get_output_files w sample analysis_step pattern =
       Return (find w d [pattern; "S1*"] [] SearchFile None None MatchAll) ∧
     ∀ p, p ∈ find w d [pattern; "S1*"] [] SearchFile None None MatchAll →
          ∃ rel lines,
            relative_to d p = Some rel ∧
            fs w !! p = Some (File lines) ∧
            fnmatch pattern (basename rel) = true ∧
            fnmatch "S1*" (basename rel) = true) ∧
  (AnalysisItem.get (AnalysisConfig.dirs cfg) analysis_step
     = ["/run/BAM-DD"] →
   SnsAnalysisSample.get_output_files valid_world sample analysis_step
     "*.bam" = Return ["/run/BAM-DD/S1.bam"] ∧
   find valid_world "/run/BAM-DD" ["*.bam"] [] SearchFile None None MatchAll
     ≡ₚ ["/run/BAM-DD/S1.bam"; "/run/BAM-DD/S2.bam"]) ∧
  (AnalysisItem.get (AnalysisConfig.dirs cfg) analysis_step = [] →
   SnsAnalysisSample.get_output_files w sample analysis_step pattern =
     Raise (AnalysisItemMissing
              ("search_dir not found for " ++ analysis_step ++
               ", dir: None"))).
Proof.
  intros sample.
  destruct (sample_init_fields "S1" cfg sns) as [Hcfg Hpat].
  fold sample in Hcfg, Hpat.
  split; [|split].
  - intros d Hd Ht. split.
    + rewrite (get_output_files_resolved w sample analysis_step pattern d).
      * by rewrite Hpat.
      * by rewrite Hcfg.
      * done.
    + intros p Hp.
      destruct (find_all_patterns w _ _ _ _ _ _ _ Hp) as (rel & Hrel & Hall).
      destruct (find_file w _ _ _ _ _ _ _ Hp) as [lines Hlines].
      exists rel, lines. split; [done|]. split; [done|].
      split; apply Hall; set_solver.
  - intros Hd. split.
    + rewrite (get_output_files_resolved valid_world sample analysis_step
                 "*.bam" "/run/BAM-DD").
      * rewrite Hpat. vm_compute. reflexivity.
      * by rewrite Hcfg.
      * reflexivity.
    + assert (find valid_world "/run/BAM-DD" ["*.bam"] [] SearchFile None
                None MatchAll =
              ["/run/BAM-DD/S1.bam"; "/run/BAM-DD/S2.bam"]) as ->
        by (vm_compute; reflexivity).
      done.
  - intros Hd.
    apply get_output_files_unresolved. by rewrite Hcfg.
Qed.

Lemma C9_witness_bam_files :
  SnsAnalysisSample.get_output_files valid_world
    (SnsAnalysisSample.__init__ "S1" demo_analysis_config demo_config)
    "BAM-DD" "*.bam" = Return ["/run/BAM-DD/S1.bam"] ∧
  SnsAnalysisSample.get_output_files valid_world
    (SnsAnalysisSample.__init__ "S1" demo_analysis_config demo_config)
    "BAM-GATK-RA-RC" "*.bam" =
    Raise (AnalysisItemMissing
             "search_dir not found for BAM-GATK-RA-RC, dir: None").
Proof.
  split.
  - apply (proj1 (proj2 (C9_sample_output_files_match_both_patterns
                           valid_world demo_analysis_config demo_config
                           "BAM-DD" "*.bam"))).
    vm_compute. reflexivity.
  - apply (proj2 (proj2 (C9_sample_output_files_match_both_patterns
                           valid_world demo_analysis_config demo_config
                           "BAM-GATK-RA-RC" "*.bam"))).
    vm_compute. reflexivity.
Defined.

(** C10 (amended).  For every analysis that the constructor returns in
    debug mode, [is_valid] is not assigned, so [get_analysis_config] fails
    with an attribute error, and [get_samples] fails with it whenever it
    has at least one sample identifier to build a sample for (given by the
    caller, or read from the manifest); with no identifier given and none
    in the manifest it returns the empty list, and an error of the reading
    of the manifest reaches the caller as it is.  Once the result of
    [validate] is stored in [is_valid], and after every construction
    outside debug mode that returns, [get_analysis_config] returns the
    configuration with that value. *)
Theorem C10_debug_object_has_no_is_valid (w : World) (d i : string)
    (cfg : option SnsConfig) (rid : option string) (self : t) :
  __init__ w d i cfg rid true = Return self →
  is_valid self = None ∧
  get_analysis_config self = Raise (AttributeError "is_valid") ∧
  (∀ ids, ids ≠ [] →
     get_samples w self (Some ids) = Raise (AttributeError "is_valid")) ∧
  (∀ ids,
     get_samplesIDs_from_samples_fastq_raw w self None = Return ids →
     get_samples w self None =
       match ids with
       | [] => Return []
       | _ :: _ => Raise (AttributeError "is_valid")
       end) ∧
  (∀ e,
     get_samplesIDs_from_samples_fastq_raw w self None = Raise e →
     get_samples w self None = Raise e) ∧
  (∀ self' b,
     validate w self = (self', Return b) →
     ∃ c, get_analysis_config (with_is_valid (Some b) self') = Return c ∧
          AnalysisConfig.analysis_is_valid c = b) ∧
  (∀ self2,
     __init__ w d i cfg rid false = Return self2 →
     ∃ b c, is_valid self2 = Some b ∧
            get_analysis_config self2 = Return c ∧
            AnalysisConfig.analysis_is_valid c = b).
Proof.
  intros Hinit. pose proof (init_debug_is_valid w d i cfg rid self Hinit) as Hv.
  split; [done|]. split; [by apply get_analysis_config_unset|].
  split; [intros ids; by apply get_samples_unset_given|].
  split; [intros ids; by apply get_samples_unset_derived|].
  split; [intros e; apply get_samples_derivation_fails|].
  split.
  - intros self' b _.
    destruct (get_analysis_config_set (with_is_valid (Some b) self') b)
      as (c & Hc & Hb & _); [reflexivity|].
    by exists c.
  - intros self2 H2.
    destruct (init_validated_is_valid w d i cfg rid self2 H2) as [b Hb].
    destruct (get_analysis_config_set self2 b Hb) as (c & Hc & Hcb & _).
    by exists b, c.
Qed.

Lemma C10_witness_valid_world :
  is_valid (demo_analysis valid_world) = None ∧
  get_analysis_config (demo_analysis valid_world) =
    Raise (AttributeError "is_valid") ∧
  get_samples valid_world (demo_analysis valid_world) (Some ["S1"]) =
    Raise (AttributeError "is_valid") ∧
  get_samples valid_world (demo_analysis valid_world) None =
    Raise (AttributeError "is_valid").
Proof.
  destruct (C10_debug_object_has_no_is_valid valid_world "/run" "run1"
              None None (demo_analysis valid_world))
    as (H1 & H2 & H3 & H4 & _).
  - vm_compute. reflexivity.
  - split; [exact H1|]. split; [exact H2|]. split.
    + apply H3. discriminate.
    + apply (H4 ["S1"; "S2"]). vm_compute. reflexivity.
Defined.

(** C10 (as stated) fails: on the analysis that the constructor builds in
    debug mode for a directory whose manifest has no row, [is_valid] is
    not assigned, and [get_samples] returns the empty list instead of
    failing with an attribute error. *)
Lemma C10_counterexample_empty_manifest :
  __init__ empty_manifest_world "/run" "run1" None None true =
    Return (demo_analysis empty_manifest_world) ∧
  is_valid (demo_analysis empty_manifest_world) = None ∧
  get_samples empty_manifest_world (demo_analysis empty_manifest_world) None
    = Return [].
Proof.
  split; [vm_compute; reflexivity|]. split; vm_compute; reflexivity.
Qed.

(** ** Further properties of the code *)

(** X1.  [validate] starts from an empty [validations] and reads only the
    file system and the registries: called again on the object that a
    first call leaves, it has the same outcome (the same value or the same
    exception) and leaves the same [validations]. *)
Theorem X1_validate_is_repeatable (w : World) (self : t) :
  (validate w (validate w self).1).2 = (validate w self).2 ∧
  validations (validate w (validate w self).1).1 =
    validations (validate w self).1.
Proof.
  destruct (validate_extends w self) as (l & v & H).
  destruct (validate_same_view w self (logger self ++ l) v) as [H1 H2].
  rewrite <- H in H1, H2. by split.
Qed.

(** X2.  [validate] assigns [validations] and writes to the logger, and
    nothing else: the registries, the static files, the root, the
    configuration and [is_valid] are as before the call (so the value it
    returns is not stored in [is_valid]), and the records that the logger
    had emitted are kept in front of the new ones.  This holds when it
    raises as well. *)
Theorem X2_validate_assigns_validations_only (w : World) (self : t) :
  let self' := (validate w self).1 in
  dirs self' = dirs self ∧ files self' = files self ∧
  static_files self' = static_files self ∧
  is_valid self' = is_valid self ∧
  dir self' = dir self ∧ id self' = id self ∧
  results_id self' = results_id self ∧
  sns_config self' = sns_config self ∧
  email_recipients self' = email_recipients self ∧
  analysis_output_index self' = analysis_output_index self ∧
  ∃ l, logger self' = (logger self ++ l)%list.
Proof.
  cbn zeta. destruct (validate_extends w self) as (l & v & ->).
  repeat (split; [reflexivity|]). by exists l.
Qed.

(** X3.  On a non-empty list of log files that are all readable,
    [check_qsub_log_errors_present] returns true exactly when some line of
    some file holds one of the error patterns.  In that case it emits an
    error record and a debug record that lists the files with such a line,
    and only them; otherwise it emits nothing. *)
Theorem X3_check_qsub_finds_error_lines (w : World) (self : t)
    (err_patterns log_files : list string) :
  log_files ≠ [] →
  (∀ f, f ∈ log_files → ∃ lines, fs w !! f = Some (File lines)) →
  ∃ l b,
    check_qsub_log_errors_present w self (Some log_files) err_patterns =
      (l, Return b) ∧
    (b = true ↔
     ∃ f lines line pat,
       f ∈ log_files ∧ fs w !! f = Some (File lines) ∧ line ∈ lines ∧
       pat ∈ err_patterns ∧ str_in pat line = true) ∧
    (b = false → l = []) ∧
    (b = true →
     ∃ paths,
       l = [{| levelname := ERROR;
               message := "Error messages were found in some qsub logs";
               payload := [] |};
            {| levelname := DEBUG;
               message := "qsub log files containing errors: {0}";
               payload := paths |}] ∧
       ∀ f, f ∈ paths ↔
            f ∈ log_files ∧ log_has_error w err_patterns f = true).
Proof.
  intros Hne Hread.
  destruct (check_qsub_scanned w self (Some log_files) err_patterns
              log_files) as (l & Hrun & Hnone & Hsome); [|done|done|].
  { by destruct log_files. }
  exists l, (negb (bool_decide (error_logs w err_patterns log_files = []))).
  split; [done|]. split; [|split].
  - rewrite negb_true_iff, bool_decide_eq_false. split.
    + intros Hn.
      destruct (error_logs w err_patterns log_files) as [|f fs'] eqn:E;
        [done|].
      assert (f ∈ error_logs w err_patterns log_files) as Hf
        by (rewrite E; left).
      apply error_logs_elem in Hf
        as (Hf & lines & line & pat & H1 & H2 & H3 & H4).
      by exists f, lines, line, pat.
    + intros (f & lines & line & pat & Hf & H1 & H2 & H3 & H4) E.
      assert (f ∈ error_logs w err_patterns log_files) as Hin.
      { apply error_logs_elem. split; [done|]. by exists lines, line, pat. }
      rewrite E in Hin. by apply elem_of_nil in Hin.
  - rewrite negb_false_iff, bool_decide_eq_true. apply Hnone.
  - rewrite negb_true_iff, bool_decide_eq_false. intros Hn.
    destruct (Hsome Hn) as (paths & -> & Hpaths).
    exists paths. split; [done|]. intros f. rewrite Hpaths.
    unfold error_logs. by rewrite list_elem_of_In, filter_In, list_elem_of_In.
Qed.

Lemma X3_witness_two_logs :
  ∃ l b,
    check_qsub_log_errors_present qsub_errors_world
      (demo_analysis qsub_errors_world)
      (Some ["/run/logs-qsub/align.o1"; "/run/logs-qsub/call.o2"])
      ["ERROR:"] = (l, Return b) ∧
    (b = true ↔
     ∃ f lines line pat,
       f ∈ ["/run/logs-qsub/align.o1"; "/run/logs-qsub/call.o2"] ∧
       fs qsub_errors_world !! f = Some (File lines) ∧ line ∈ lines ∧
       pat ∈ ["ERROR:"] ∧ str_in pat line = true) ∧
    (b = false → l = []) ∧
    (b = true →
     ∃ paths,
       l = [{| levelname := ERROR;
               message := "Error messages were found in some qsub logs";
               payload := [] |};
            {| levelname := DEBUG;
               message := "qsub log files containing errors: {0}";
               payload := paths |}] ∧
       ∀ f, f ∈ paths ↔
            f ∈ ["/run/logs-qsub/align.o1"; "/run/logs-qsub/call.o2"] ∧
            log_has_error qsub_errors_world ["ERROR:"] f = true).
Proof.
  apply (X3_check_qsub_finds_error_lines qsub_errors_world
           (demo_analysis qsub_errors_world) ["ERROR:"]
           ["/run/logs-qsub/align.o1"; "/run/logs-qsub/call.o2"]).
  - discriminate.
  - intros f Hf.
    apply elem_of_cons in Hf as [->|Hf];
      [eexists; vm_compute; reflexivity|].
    apply list_elem_of_singleton in Hf as ->.
    eexists; vm_compute; reflexivity.
Defined.

(** X4.  When a queue log of the analysis has a line with the marker
    [ERROR:] and the summary table is read as rows that all have their
    identifier, [validate] returns false, records the check
    [no_qsub_log_errors_present] with status false, and the logger has an
    error record. *)
Theorem X4_validate_false_on_queue_log_error (w : World) (self : t)
    (logs : list string) (rows : list (gmap string string))
    (f : string) (lines : list string) (line : string) :
  get_qsub_logfiles w self None = Return logs →
  f ∈ logs → fs w !! f = Some (File lines) → line ∈ lines →
  str_in "ERROR:" line = true →
  get_summary_combined_contents w self None = Return rows →
  (∀ r, r ∈ rows → is_Some (r !! "#SAMPLE")) →
  ∃ self',
    validate w self = (self', Return false) ∧
    validations self' !! "no_qsub_log_errors_present" =
      Some {| status := false;
              note := "Whether or not errors are present in the qsub logs"
           |} ∧
    ∃ rec, rec ∈ logger self' ∧ levelname rec = ERROR.
Proof.
  intros Hlogs Hf Hlines Hline Herr Hrows Hids.
  assert (logs ≠ []) as Hne by (intros ->; by apply elem_of_nil in Hf).
  destruct (check_qsub_scanned w self None ["ERROR:"] logs)
    as (l3 & Hq & _ & Hsome); [done|done| |].
  { intros g Hg. by eapply get_qsub_logfiles_files. }
  assert (error_logs w ["ERROR:"] logs ≠ []) as Herrs.
  { intros E.
    assert (f ∈ error_logs w ["ERROR:"] logs) as Hin.
    { apply error_logs_elem. split; [done|].
      exists lines, line, "ERROR:". repeat split; try done. left. }
    rewrite E in Hin. by apply elem_of_nil in Hin. }
  rewrite (bool_decide_eq_false_2 _ Herrs) in Hq. cbn [negb] in Hq.
  destruct (Hsome Herrs) as (paths & Hl3 & _). subst l3.
  destruct (summary_scanned w self None "X" rows Hrows Hids)
    as (l4 & Hx & _).
  eexists. split; [|split].
  - rewrite (validate_of_checks w self _ _ _ _ Hq Hx).
    cbn [negb]. by rewrite andb_false_r.
  - cbn [validations with_logger with_validations].
    unfold recorded4, recorded3.
    rewrite lookup_insert_ne by discriminate. apply lookup_insert_eq.
  - exists {| levelname := ERROR;
              message := "Error messages were found in some qsub logs";
              payload := [] |}.
    split; [|reflexivity].
    cbn [logger with_logger]. apply elem_of_app. right.
    apply elem_of_app. left. left.
Qed.

Lemma X4_witness_qsub_errors :
  ∃ self',
    validate qsub_errors_world (demo_analysis qsub_errors_world) =
      (self', Return false) ∧
    validations self' !! "no_qsub_log_errors_present" =
      Some {| status := false;
              note := "Whether or not errors are present in the qsub logs"
           |} ∧
    ∃ rec, rec ∈ logger self' ∧ levelname rec = ERROR.
Proof.
  apply (X4_validate_false_on_queue_log_error qsub_errors_world
           (demo_analysis qsub_errors_world)
           (find qsub_errors_world "/run/logs-qsub" ["*"] [] SearchFile
              None None MatchAny)
           (plain_DictReader
              ["#SAMPLE,READS,DEPTH"; "S1,1000,80"; "S2,900,75"])
           "/run/logs-qsub/call.o2" ["started"; "ERROR: out of memory"]
           "ERROR: out of memory").
  - vm_compute. reflexivity.
  - assert (find qsub_errors_world "/run/logs-qsub" ["*"] [] SearchFile
              None None MatchAny =
            ["/run/logs-qsub/call.o2"; "/run/logs-qsub/align.o1"]) as ->
      by (vm_compute; reflexivity).
    left.
  - vm_compute. reflexivity.
  - right. left.
  - vm_compute. reflexivity.
  - vm_compute. reflexivity.
  - apply has_id_sound. vm_compute. reflexivity.
Defined.

(** X5.  [check_qsub_log_errors_present] opens the log files it is given
    one after the other: at the first one that is not a readable regular
    file the error of [open] ([IOError]) reaches the caller, whatever the
    files before it hold, and nothing has been logged. *)
Theorem X5_check_qsub_unreadable_log (w : World) (self : t)
    (err_patterns before after : list string) (f : string) :
  (∀ g, g ∈ before → ∃ lines, fs w !! g = Some (File lines)) →
  (∀ lines, fs w !! f ≠ Some (File lines)) →
  check_qsub_log_errors_present w self (Some (before ++ f :: after)%list)
    err_patterns = ([], Raise (IOError f)).
Proof.
  intros Hread Hf. unfold check_qsub_log_errors_present.
  assert (truthy_list (Some (before ++ f :: after)%list) = true) as Ht
    by (by destruct before).
  rewrite Ht.
  change (default [] (Some (before ++ f :: after)%list))
    with (before ++ f :: after)%list.
  cbv [lbind llift lret lraise]. cbn [fst snd].
  rewrite Ht. cbn [negb fst snd].
  by rewrite (foldR_scan_unreadable w err_patterns before f after ∅ Hread Hf).
Qed.

Lemma X5_witness_missing_log :
  check_qsub_log_errors_present qsub_errors_world
    (demo_analysis qsub_errors_world)
    (Some ["/run/logs-qsub/call.o2"; "/run/logs-qsub/gone.o3";
           "/run/logs-qsub/align.o1"])
    ["ERROR:"] = ([], Raise (IOError "/run/logs-qsub/gone.o3")).
Proof.
  apply (X5_check_qsub_unreadable_log qsub_errors_world
           (demo_analysis qsub_errors_world) ["ERROR:"]
           ["/run/logs-qsub/call.o2"] ["/run/logs-qsub/align.o1"]
           "/run/logs-qsub/gone.o3").
  - intros g Hg. apply list_elem_of_singleton in Hg as ->.
    eexists. vm_compute. reflexivity.
  - intros lines.
    assert (fs qsub_errors_world !! "/run/logs-qsub/gone.o3" = None) as ->
      by (vm_compute; reflexivity).
    discriminate.
Defined.

(** X6.  On a non-empty list of rows given by the caller that all have the
    key [#SAMPLE], [summary_combined_contains_errors] returns true exactly
    when some row has a cell equal to the error pattern under a key other
    than [#SAMPLE]; a value under [#SAMPLE] itself is never compared.  The
    warning it then emits lists the identifiers of the offending rows, and
    only them. *)
Theorem X6_summary_scan_of_given_rows (w : World) (self : t)
    (rows : list (gmap string string)) (err_pattern : string) :
  rows ≠ [] →
  (∀ r, r ∈ rows → is_Some (r !! "#SAMPLE")) →
  ∃ l b,
    summary_combined_contains_errors w self (Some rows) err_pattern =
      (l, Return b) ∧
    (b = true ↔
     ∃ r key, r ∈ rows ∧ key ≠ "#SAMPLE" ∧ r !! key = Some err_pattern) ∧
    (b = false → l = []) ∧
    (b = true →
     ∃ ids,
       l = [{| levelname := WARNING; message := summary_errors_found;
               payload := ids |}] ∧
       ∀ sid, sid ∈ ids ↔
              ∃ r, r ∈ rows ∧ r !! "#SAMPLE" = Some sid ∧
                   offending err_pattern r).
Proof.
  intros Hne Hids.
  assert (truthy_list (Some rows) = true) as Ht by (by destruct rows).
  destruct (scan_rows_spec err_pattern rows ∅ Hids) as (ce & Hce & Hlook).
  destruct (summary_scanned w self (Some rows) err_pattern rows)
    as (l & Hrun & Hwarn); [by rewrite Ht|done|].
  pose proof (offending_ids_nonempty_for err_pattern rows Hids) as Hiff.
  exists l, (negb (bool_decide (offending_ids err_pattern rows = []))).
  split; [done|]. split; [|split].
  - rewrite negb_true_iff, bool_decide_eq_false, Hiff. split.
    + intros (r & Hr & key & Hk & Hv). by exists r, key.
    + intros (r & key & Hr & Hk & Hv). exists r. split; [done|].
      by exists key.
  - rewrite negb_false_iff, bool_decide_eq_true. intros E.
    rewrite (summary_unfold w self (Some rows) err_pattern rows) in Hrun
      by (by rewrite Ht).
    revert Hrun. cbv [lbind llift lret emit]. cbn [fst snd].
    rewrite Ht. cbn [negb fst snd]. rewrite Hce. cbn [fst snd].
    assert (ce = ∅) as ->.
    { apply map_eq. intros k. rewrite Hlook, E, lookup_empty.
      rewrite bool_decide_eq_false_2; [done|apply not_elem_of_nil]. }
    rewrite map_size_empty. cbn [Nat.ltb Nat.leb fst snd app].
    intros H. apply pair_equal_spec in H as [H _]. done.
  - rewrite negb_true_iff, bool_decide_eq_false. intros Hn.
    rewrite (summary_unfold w self (Some rows) err_pattern rows) in Hrun
      by (by rewrite Ht).
    revert Hrun. cbv [lbind llift lret emit]. cbn [fst snd].
    rewrite Ht. cbn [negb fst snd]. rewrite Hce. cbn [fst snd].
    assert (∀ k b, ce !! k = Some b → b = true) as Htrue.
    { intros k b. rewrite Hlook.
      case_bool_decide; [congruence|by rewrite lookup_empty]. }
    assert (ce ≠ ∅) as He.
    { intros ->. apply Hn.
      destruct (offending_ids err_pattern rows) as [|sid l'] eqn:E; [done|].
      specialize (Hlook sid). rewrite lookup_empty in Hlook.
      rewrite bool_decide_eq_true_2 in Hlook; [done|left]. }
    pose proof (contains_errors_decision ce Htrue) as Hdec.
    rewrite (bool_decide_eq_false_2 _ He) in Hdec.
    assert (Nat.ltb (size ce) 1 = false) as Hsz.
    { apply Nat.ltb_ge. apply map_size_non_empty_iff in He. lia. }
    rewrite Hsz in Hdec. rewrite Hsz, Hdec. cbn [negb fst snd app].
    intros H. apply pair_equal_spec in H as [H _].
    eexists. split; [symmetry; exact H|].
    intros sid. rewrite <- offending_ids_elem, list_elem_of_fmap. split.
    + intros ([g b] & -> & Hin).
      apply list_elem_of_In, filter_In in Hin as [Hin _].
      apply list_elem_of_In, elem_of_map_to_list in Hin.
      rewrite Hlook in Hin. cbn [fst].
      case_bool_decide; [done|by rewrite lookup_empty in Hin].
    + intros Hsid. exists (sid, true). split; [done|].
      apply list_elem_of_In, filter_In. split; [|done].
      apply list_elem_of_In, elem_of_map_to_list.
      rewrite Hlook. by rewrite bool_decide_eq_true_2.
Qed.

Lemma X6_witness_sample_named_X :
  ∃ l b,
    summary_combined_contains_errors valid_world
      (demo_analysis valid_world)
      (Some (plain_DictReader ["#SAMPLE,READS"; "X,1000"; "S2,FAIL"]))
      "FAIL" = (l, Return b) ∧
    (b = true ↔
     ∃ r key,
       r ∈ plain_DictReader ["#SAMPLE,READS"; "X,1000"; "S2,FAIL"] ∧
       key ≠ "#SAMPLE" ∧ r !! key = Some "FAIL") ∧
    (b = false → l = []) ∧
    (b = true →
     ∃ ids,
       l = [{| levelname := WARNING; message := summary_errors_found;
               payload := ids |}] ∧
       ∀ sid, sid ∈ ids ↔
              ∃ r,
                r ∈ plain_DictReader
                      ["#SAMPLE,READS"; "X,1000"; "S2,FAIL"] ∧
                r !! "#SAMPLE" = Some sid ∧ offending "FAIL" r).
Proof.
  apply (X6_summary_scan_of_given_rows valid_world
           (demo_analysis valid_world)
           (plain_DictReader ["#SAMPLE,READS"; "X,1000"; "S2,FAIL"])
           "FAIL").
  - intros E.
    assert (length (plain_DictReader
                      ["#SAMPLE,READS"; "X,1000"; "S2,FAIL"]) = 2) as Hlen
      by (vm_compute; reflexivity).
    rewrite E in Hlen. discriminate Hlen.
  - apply has_id_sound. vm_compute. reflexivity.
Defined.

(** X7.  [summary_combined_contains_errors] reads the key [#SAMPLE] of
    every row before it scans the row: at the first row without that key a
    [KeyError] reaches the caller, whether or not the rows before it hold
    the error pattern, and no warning has been emitted. *)
Theorem X7_summary_row_without_identifier (w : World) (self : t)
    (before after : list (gmap string string)) (r : gmap string string)
    (err_pattern : string) :
  (∀ r', r' ∈ before → is_Some (r' !! "#SAMPLE")) →
  r !! "#SAMPLE" = None →
  summary_combined_contains_errors w self
    (Some (before ++ r :: after)%list) err_pattern =
    ([], Raise (KeyError "#SAMPLE")).
Proof.
  intros Hids Hr.
  apply (summary_keyerror w self (Some (before ++ r :: after)%list)
           err_pattern before r after); [|done|done].
  by destruct before.
Qed.

Lemma X7_witness_other_header :
  summary_combined_contains_errors valid_world (demo_analysis valid_world)
    (Some [ {["#SAMPLE" := "S1"; "READS" := "X"]};
            {["SAMPLE" := "S2"; "READS" := "10"]} ])
    "X" = ([], Raise (KeyError "#SAMPLE")).
Proof.
  apply (X7_summary_row_without_identifier valid_world
           (demo_analysis valid_world)
           [ {["#SAMPLE" := "S1"; "READS" := "X"]} ] []
           {["SAMPLE" := "S2"; "READS" := "10"]} "X").
  - intros r' Hr'. apply list_elem_of_singleton in Hr' as ->.
    exists "S1". vm_compute. reflexivity.
  - vm_compute. reflexivity.
Defined.

(** X8.  When queue logs are found and the path of the summary table is
    set but does not name a readable regular file, [validate] raises the
    error of [open] ([IOError]): the first three checks are recorded, the
    fourth is not, and no value is returned, although the missing file has
    already been recorded by [expected_static_files_exist]. *)
Theorem X8_validate_unreadable_summary (w : World) (self : t)
    (logs : list string) (p : string) :
  get_qsub_logfiles w self None = Return logs → logs ≠ [] →
  static_files self !! "summary_combined_wes" = Some p →
  truthy p = true →
  (∀ lines, fs w !! p ≠ Some (File lines)) →
  ∃ self' qsub_errors,
    validate w self = (self', Raise (IOError p)) ∧
    validations self' = recorded3 w self qsub_errors ∧
    dom (validations self') =
      {["dir_exists"; "expected_static_files_exist";
        "no_qsub_log_errors_present"]} ∧
    validations self' !! "expected_static_files_exist" =
      Some (expected_static_files_validation w self).
Proof.
  intros Hlogs Hne Hp Ht Hf.
  destruct (check_qsub_returns w self ["ERROR:"] logs Hlogs Hne)
    as (l3 & q & Hq).
  pose proof (summary_raises w self "X" _
                (get_summary_unreadable w self p Hp Ht Hf)) as Hx.
  eexists _, q. split; [apply (validate_summary_raises w self _ _ _ _ Hq Hx)|].
  cbn [validations with_logger with_validations].
  split; [reflexivity|]. split.
  - unfold recorded3, recorded2. rewrite !dom_insert_L, dom_empty_L.
    set_solver.
  - unfold recorded3, recorded2.
    rewrite lookup_insert_ne by discriminate. apply lookup_insert_eq.
Qed.

Lemma X8_witness_no_summary :
  ∃ self' qsub_errors,
    validate no_summary_world (demo_analysis no_summary_world) =
      (self', Raise (IOError "/run/summary-combined.wes.csv")) ∧
    validations self' =
      recorded3 no_summary_world (demo_analysis no_summary_world)
        qsub_errors ∧
    dom (validations self') =
      {["dir_exists"; "expected_static_files_exist";
        "no_qsub_log_errors_present"]} ∧
    validations self' !! "expected_static_files_exist" =
      Some (expected_static_files_validation no_summary_world
              (demo_analysis no_summary_world)).
Proof.
  apply (X8_validate_unreadable_summary no_summary_world
           (demo_analysis no_summary_world) ["/run/logs-qsub/align.o1"]
           "/run/summary-combined.wes.csv").
  - vm_compute. reflexivity.
  - discriminate.
  - vm_compute. reflexivity.
  - reflexivity.
  - intros lines.
    assert (fs no_summary_world !! "/run/summary-combined.wes.csv" = None)
      as -> by (vm_compute; reflexivity).
    discriminate.
Defined.

(** X9.  [validate] returns true only for a clean analysis: when it does,
    the root path exists, the four static files exist, queue logs were
    found and none of them has a line with the marker [ERROR:], and the
    summary table was read as rows that all have their identifier and of
    which none is offending. *)
Theorem X9_validate_true_only_for_clean_output (w : World) (self self' : t) :
  validate w self = (self', Return true) →
  path_exists w (dir self) = true ∧
  (∀ name p, expected_static_files self !! name = Some p →
             path_exists w p = true) ∧
  (∃ logs,
     get_qsub_logfiles w self None = Return logs ∧ logs ≠ [] ∧
     ∀ f lines line, f ∈ logs → fs w !! f = Some (File lines) →
                     line ∈ lines → str_in "ERROR:" line = false) ∧
  (∃ rows,
     get_summary_combined_contents w self None = Return rows ∧
     (∀ r, r ∈ rows → is_Some (r !! "#SAMPLE")) ∧
     ∀ r, r ∈ rows → ¬ offending "X" r).
Proof.
  intros Hv.
  destruct (get_qsub_logfiles w self None) as [logs|e] eqn:Hlogs.
  2: { rewrite (validate_qsub_raises w self [] e) in Hv
         by (by apply check_qsub_raises).
       apply pair_equal_spec in Hv as [_ Hv]. discriminate Hv. }
  destruct logs as [|f0 logs0].
  { rewrite (validate_qsub_raises w self [] _
               (check_qsub_no_logs w self _ Hlogs)) in Hv.
    apply pair_equal_spec in Hv as [_ Hv]. discriminate Hv. }
  destruct (check_qsub_scanned w self None ["ERROR:"] (f0 :: logs0))
    as (l3 & Hq & _); [done|done| |].
  { intros g Hg. by eapply get_qsub_logfiles_files. }
  destruct (get_summary_combined_contents w self None) as [rows|e] eqn:Hrows.
  2: { rewrite (validate_summary_raises w self _ _ [] e Hq) in Hv
         by (by apply summary_raises).
       apply pair_equal_spec in Hv as [_ Hv]. discriminate Hv. }
  destruct (rows_with_id rows) as [Hids|Hno].
  2: { destruct (rows_without_id rows Hno) as (l1 & r & l2 & -> & Hl1 & Hr).
       rewrite (validate_summary_raises w self _ _ [] (KeyError "#SAMPLE") Hq)
         in Hv by (by apply (summary_keyerror w self None "X" l1 r l2)).
       apply pair_equal_spec in Hv as [_ Hv]. discriminate Hv. }
  pose proof (has_id_sound rows Hids) as Hkeys.
  destruct (summary_scanned w self None "X" rows Hrows Hkeys)
    as (l4 & Hx & _).
  rewrite (validate_of_checks w self _ _ _ _ Hq Hx) in Hv.
  apply pair_equal_spec in Hv as [_ Hv]. apply Return_inj in Hv.
  apply andb_prop in Hv as [Hv H4]. apply andb_prop in Hv as [Hv H3].
  apply andb_prop in Hv as [H1 H2].
  rewrite negb_involutive in H3, H4.
  apply bool_decide_eq_true in H3, H4.
  split; [exact H1|]. split; [by apply static_files_status_inv|]. split.
  - exists (f0 :: logs0). split; [reflexivity|]. split; [discriminate|].
    intros f lines line Hf Hl Hline.
    destruct (str_in "ERROR:" line) eqn:E; [|done].
    assert (f ∈ error_logs w ["ERROR:"] (f0 :: logs0)) as Hin.
    { apply error_logs_elem. split; [exact Hf|].
      exists lines, line, "ERROR:".
      split; [exact Hl|]. split; [exact Hline|]. split; [left|exact E]. }
    rewrite H3 in Hin. destruct (proj1 (elem_of_nil f) Hin).
  - exists rows. split; [reflexivity|]. split; [exact Hkeys|].
    intros r Hr Hoff.
    apply (proj2 (offending_ids_nonempty_for "X" rows Hkeys));
      [|exact H4].
    exists r. split; [exact Hr|exact Hoff].
Qed.

Lemma X9_witness_valid_world :
  path_exists valid_world (dir (demo_analysis valid_world)) = true ∧
  (∀ name p,
     expected_static_files (demo_analysis valid_world) !! name = Some p →
     path_exists valid_world p = true) ∧
  (∃ logs,
     get_qsub_logfiles valid_world (demo_analysis valid_world) None =
       Return logs ∧ logs ≠ [] ∧
     ∀ f lines line, f ∈ logs → fs valid_world !! f = Some (File lines) →
                     line ∈ lines → str_in "ERROR:" line = false) ∧
  (∃ rows,
     get_summary_combined_contents valid_world (demo_analysis valid_world)
       None = Return rows ∧
     (∀ r, r ∈ rows → is_Some (r !! "#SAMPLE")) ∧
     ∀ r, r ∈ rows → ¬ offending "X" r).
Proof.
  apply (X9_validate_true_only_for_clean_output valid_world
           (demo_analysis valid_world)
           (validate valid_world (demo_analysis valid_world)).1).
  vm_compute. reflexivity.
Defined.

(** X10.  The outcome of the constructor in debug mode depends on the
    configuration alone: it returns an object exactly when the
    configuration it keeps has the keys [email_recipients] and
    [analysis_output_index], whatever the file system holds.  In either
    mode a missing [email_recipients] is reported first, as a
    [KeyError], and a missing [analysis_output_index] next. *)
Theorem X10_constructor_and_configuration_keys (w : World) (d i : string)
    (cfg : option SnsConfig) (rid : option string) :
  (is_Some (cfg_email_recipients (select_config w cfg)) ∧
   is_Some (cfg_analysis_output_index (select_config w cfg)) ↔
   ∃ self, __init__ w d i cfg rid true = Return self) ∧
  (∀ debug,
     cfg_email_recipients (select_config w cfg) = None →
     __init__ w d i cfg rid debug = Raise (KeyError "email_recipients")) ∧
  (∀ debug,
     is_Some (cfg_email_recipients (select_config w cfg)) →
     cfg_analysis_output_index (select_config w cfg) = None →
     __init__ w d i cfg rid debug =
       Raise (KeyError "analysis_output_index")).
Proof.
  split; [|split].
  - split.
    + intros [[email He] [index Hi]]. eexists.
      by apply init_debug_returns.
    + intros [self Hself].
      apply init_object in Hself as (email & index & He & Hi & _).
      split; by eexists.
  - intros debug He. unfold __init__. by rewrite He.
  - intros debug [email He] Hi. unfold __init__. by rewrite He, Hi.
Qed.

Lemma X10_witness_valid_world :
  (∃ self, __init__ valid_world "/run" "run1" None None true = Return self) ∧
  __init__ valid_world "/run" "run1"
    (Some {| cfg_email_recipients := None;
             cfg_analysis_output_index := Some {["BAM-DD" := []]} |})
    None false = Raise (KeyError "email_recipients").
Proof.
  split.
  - apply (proj1 (proj1 (X10_constructor_and_configuration_keys valid_world
                           "/run" "run1" None None))).
    split; by eexists.
  - apply (proj1 (proj2 (X10_constructor_and_configuration_keys valid_world
                           "/run" "run1"
                           (Some {| cfg_email_recipients := None;
                                    cfg_analysis_output_index :=
                                      Some {["BAM-DD" := []]} |})
                           None)) false).
    vm_compute. reflexivity.
Defined.

(** X11.  The constructor keeps the configuration it is passed exactly
    when that configuration has a non-empty [analysis_output_index];
    otherwise [config.sns] replaces it as a whole, its [email_recipients]
    included.  The attributes [email_recipients] and
    [analysis_output_index] of the object are the two entries of the
    configuration kept. *)
Theorem X11_constructor_configuration_fallback (w : World) (d i : string)
    (cfg : option SnsConfig) (rid : option string) (debug : bool)
    (self : t) :
  __init__ w d i cfg rid debug = Return self →
  sns_config self =
    match cfg with
    | Some c => if index_truthy c then c else config_sns w
    | None => config_sns w
    end ∧
  cfg_email_recipients (sns_config self) = Some (email_recipients self) ∧
  cfg_analysis_output_index (sns_config self) =
    Some (analysis_output_index self).
Proof.
  intros H.
  apply init_object in H
    as (email & index & He & Hi & _ & _ & _ & Hc & Hem & Hin & _).
  rewrite Hc, Hem, Hin. split; [apply select_config_cases|]. by split.
Qed.

Lemma X11_witness_default_configuration :
  sns_config (demo_analysis valid_world) = config_sns valid_world ∧
  cfg_email_recipients (sns_config (demo_analysis valid_world)) =
    Some (email_recipients (demo_analysis valid_world)) ∧
  cfg_analysis_output_index (sns_config (demo_analysis valid_world)) =
    Some (analysis_output_index (demo_analysis valid_world)).
Proof.
  apply (X11_constructor_configuration_fallback valid_world "/run" "run1"
           None None true (demo_analysis valid_world)).
  vm_compute. reflexivity.
Defined.

(** X12.  The object that the constructor returns has the identifier it
    was given, the absolute path of the directory as its root, the string
    [None] as [results_id] when none was passed, and in [static_files]
    the four fixed file names joined to the root under their four names,
    whether or not these files exist. *)
Theorem X12_constructor_scalars_and_static_files (w : World) (d i : string)
    (cfg : option SnsConfig) (rid : option string) (debug : bool)
    (self : t) :
  __init__ w d i cfg rid debug = Return self →
  id self = i ∧ dir self = abspath w d ∧
  results_id self = match rid with Some r => r | None => "None" end ∧
  dom (static_files self) =
    {["paired_samples"; "samples_fastq_raw"; "settings";
      "summary_combined_wes"]} ∧
  static_files self !! "paired_samples" =
    Some (path_join (abspath w d) "samples.pairs.csv") ∧
  static_files self !! "samples_fastq_raw" =
    Some (path_join (abspath w d) "samples.fastq-raw.csv") ∧
  static_files self !! "settings" =
    Some (path_join (abspath w d) "settings.txt") ∧
  static_files self !! "summary_combined_wes" =
    Some (path_join (abspath w d) "summary-combined.wes.csv").
Proof.
  intros H.
  apply init_object in H
    as (email & index & _ & _ & Hid & Hdir & Hrid & _ & _ & _ & Hst & _).
  split; [exact Hid|]. split; [exact Hdir|]. split; [exact Hrid|].
  rewrite Hst. unfold expected_static_files. rewrite Hdir.
  split.
  { rewrite !dom_insert_L, dom_empty_L. set_solver. }
  split; [|split; [|split]].
  - do 3 (rewrite lookup_insert_ne by discriminate). apply lookup_insert_eq.
  - do 2 (rewrite lookup_insert_ne by discriminate). apply lookup_insert_eq.
  - rewrite lookup_insert_ne by discriminate. apply lookup_insert_eq.
  - apply lookup_insert_eq.
Qed.

Lemma X12_witness_missing_root :
  id (demo_analysis missing_root_world) = "run1" ∧
  dir (demo_analysis missing_root_world) = "/run" ∧
  results_id (demo_analysis missing_root_world) = "None" ∧
  dom (static_files (demo_analysis missing_root_world)) =
    {["paired_samples"; "samples_fastq_raw"; "settings";
      "summary_combined_wes"]} ∧
  static_files (demo_analysis missing_root_world) !! "paired_samples" =
    Some (path_join "/run" "samples.pairs.csv") ∧
  static_files (demo_analysis missing_root_world) !! "samples_fastq_raw" =
    Some (path_join "/run" "samples.fastq-raw.csv") ∧
  static_files (demo_analysis missing_root_world) !! "settings" =
    Some (path_join "/run" "settings.txt") ∧
  static_files (demo_analysis missing_root_world)
    !! "summary_combined_wes" =
    Some (path_join "/run" "summary-combined.wes.csv").
Proof.
  apply (X12_constructor_scalars_and_static_files missing_root_world
           "/run" "run1" None None true (demo_analysis missing_root_world)).
  vm_compute. reflexivity.
Defined.

(** X13.  In the object that the constructor returns, the registry of
    files has the single name [targets_bed]; its entry holds at most one
    path, and a path it holds is a regular file directly in the root
    directory whose name matches [*.bed] and does not match
    [*.pad10.bed]. *)
Theorem X13_constructor_targets_bed (w : World) (d i : string)
    (cfg : option SnsConfig) (rid : option string) (debug : bool)
    (self : t) :
  __init__ w d i cfg rid debug = Return self →
  ∃ l,
    files self = {[ "targets_bed" := l ]} ∧
    (length l ≤ 1)%nat ∧
    ∀ p, p ∈ l →
      ∃ lines rel,
        fs w !! p = Some (File lines) ∧
        relative_to (dir self) p = Some rel ∧ depth rel = 0 ∧
        fnmatch "*.bed" (basename rel) = true ∧
        fnmatch "*.pad10.bed" (basename rel) = false.
Proof.
  intros H.
  apply init_object in H
    as (email & index & _ & _ & _ & Hdir & _ & _ & _ & _ & _ & Hf & _).
  eexists. split; [exact Hf|]. split; [apply find_limited|].
  intros p Hp. rewrite Hdir.
  destruct (find_entry _ _ _ _ _ _ _ _ _ Hp)
    as (nd & rel & Hnd & Hrel & Hlev & Hkind & Hname).
  destruct nd as [|lines]; [discriminate Hkind|].
  exists lines, rel. split; [exact Hnd|]. split; [exact Hrel|].
  cbn [within_level] in Hlev. apply Nat.leb_le in Hlev.
  split; [lia|].
  unfold name_matches in Hname. cbn [existsb] in Hname.
  rewrite !orb_false_r in Hname.
  apply andb_prop in Hname as [H1 H2].
  split; [exact H1|]. by apply negb_true_iff.
Qed.

Lemma X13_witness_valid_world :
  ∃ l,
    files (demo_analysis valid_world) = {[ "targets_bed" := l ]} ∧
    (length l ≤ 1)%nat ∧
    ∀ p, p ∈ l →
      ∃ lines rel,
        fs valid_world !! p = Some (File lines) ∧
        relative_to (dir (demo_analysis valid_world)) p = Some rel ∧
        depth rel = 0 ∧
        fnmatch "*.bed" (basename rel) = true ∧
        fnmatch "*.pad10.bed" (basename rel) = false.
Proof.
  apply (X13_constructor_targets_bed valid_world "/run" "run1" None None
           true (demo_analysis valid_world)).
  vm_compute. reflexivity.
Defined.

(** X14.  In the object that the constructor returns, the registry of
    directories has an entry for the keys of the index other than
    [_parent] and for no other name.  Every entry holds at most one path,
    and a path it holds is a directory directly in the root directory
    whose name matches the key, read as a pattern. *)
Theorem X14_constructor_directories (w : World) (d i : string)
    (cfg : option SnsConfig) (rid : option string) (debug : bool)
    (self : t) :
  __init__ w d i cfg rid debug = Return self →
  (∀ name,
     name ∈ dom (dirs self) ↔
     name ∈ dom (analysis_output_index self) ∧ name ≠ "_parent") ∧
  ∀ name l,
    dirs self !! name = Some l →
    (length l ≤ 1)%nat ∧
    ∀ p, p ∈ l →
      fs w !! p = Some Dir ∧
      ∃ rel, relative_to (dir self) p = Some rel ∧ depth rel = 0 ∧
             fnmatch name (basename rel) = true.
Proof.
  intros H.
  apply init_object in H
    as (email & index & _ & _ & _ & Hdir & _ & _ & _ & Hin & _ & _ & Hd & _).
  rewrite Hin. split.
  - intros name. rewrite elem_of_dom, Hd.
    case_bool_decide as Hc; split.
    + intros _. exact Hc.
    + intros _. by eexists.
    + intros [x Hx]. discriminate Hx.
    + intros Hc'. destruct (Hc Hc').
  - intros name l. rewrite Hd. case_bool_decide; [|done].
    intros [= <-]. split; [apply find_limited|].
    intros p Hp. rewrite Hdir.
    destruct (find_entry _ _ _ _ _ _ _ _ _ Hp)
      as (nd & rel & Hnd & Hrel & Hlev & Hkind & Hname).
    destruct nd as [|lines]; [|discriminate Hkind].
    split; [exact Hnd|]. exists rel. split; [exact Hrel|].
    cbn [within_level] in Hlev. apply Nat.leb_le in Hlev.
    split; [lia|].
    unfold name_matches in Hname. cbn [existsb] in Hname.
    rewrite orb_false_r in Hname.
    by apply andb_prop in Hname as [H1 _].
Qed.

Lemma X14_witness_valid_world :
  (∀ name,
     name ∈ dom (dirs (demo_analysis valid_world)) ↔
     name ∈ dom (analysis_output_index (demo_analysis valid_world)) ∧
     name ≠ "_parent") ∧
  ∀ name l,
    dirs (demo_analysis valid_world) !! name = Some l →
    (length l ≤ 1)%nat ∧
    ∀ p, p ∈ l →
      fs valid_world !! p = Some Dir ∧
      ∃ rel, relative_to (dir (demo_analysis valid_world)) p = Some rel ∧
             depth rel = 0 ∧ fnmatch name (basename rel) = true.
Proof.
  apply (X14_constructor_directories valid_world "/run" "run1" None None
           true (demo_analysis valid_world)).
  vm_compute. reflexivity.
Defined.

(** X15.  A sample takes from the configuration it is built with: every
    entry of the registry of directories except the one named [_parent],
    which it never has, every entry of the registry of files, and the
    scalars; its search pattern is its identifier followed by [*]. *)
Theorem X15_sample_inherits_configuration (i : string)
    (cfg : AnalysisConfig.t) (sns : SnsConfig) :
  let sample := SnsAnalysisSample.__init__ i cfg sns in
  SnsAnalysisSample.dirs sample !! "_parent" = None ∧
  (∀ name, name ≠ "_parent" →
     SnsAnalysisSample.dirs sample !! name =
       AnalysisConfig.dirs cfg !! name) ∧
  SnsAnalysisSample.files sample = AnalysisConfig.files cfg ∧
  SnsAnalysisSample.id sample = i ∧
  SnsAnalysisSample.search_pattern sample = i ++ "*" ∧
  SnsAnalysisSample.analysis_config sample = cfg ∧
  SnsAnalysisSample.sns_config sample = sns ∧
  SnsAnalysisSample.analysis_id sample = AnalysisConfig.analysis_id cfg ∧
  SnsAnalysisSample.analysis_dir sample =
    AnalysisConfig.analysis_dir cfg ∧
  SnsAnalysisSample.results_id sample = AnalysisConfig.results_id cfg ∧
  SnsAnalysisSample.static_files sample =
    AnalysisConfig.static_files cfg ∧
  SnsAnalysisSample.analysis_is_valid sample =
    AnalysisConfig.analysis_is_valid cfg.
Proof.
  intros sample.
  destruct (sample_init_registries i cfg sns) as (Hd & Hrest).
  fold sample in Hd, Hrest.
  split; [rewrite Hd; apply lookup_delete_eq|].
  split; [|exact Hrest].
  intros name Hne. rewrite Hd. by apply lookup_delete_ne.
Qed.

Lemma X15_witness_bam_dd :
  SnsAnalysisSample.dirs
    (SnsAnalysisSample.__init__ "S1" demo_analysis_config demo_config)
    !! "BAM-DD" = Some ["/run/BAM-DD"].
Proof.
  destruct (X15_sample_inherits_configuration "S1" demo_analysis_config
              demo_config) as (_ & H & _).
  rewrite H by discriminate. vm_compute. reflexivity.
Defined.

(** X16.  On an analysis whose [is_valid] is assigned, [get_samples]
    returns one sample for each identifier it is given, in the order
    given and without removing repeated identifiers; with no identifier
    given it builds the samples of the identifiers read from the manifest.
    Every sample has the registries of the analysis (without [_parent]),
    its static files, its scalars and the value of [is_valid]. *)
Theorem X16_get_samples_one_sample_per_identifier (w : World) (self : t)
    (b : bool) :
  is_valid self = Some b →
  (∀ ids,
     ids ≠ [] →
     ∃ samples,
       get_samples w self (Some ids) = Return samples ∧
       SnsAnalysisSample.id <$> samples = ids ∧
       Forall (inherits self b) samples) ∧
  (∀ ids,
     get_samplesIDs_from_samples_fastq_raw w self None = Return ids →
     ∃ samples,
       get_samples w self None = Return samples ∧
       SnsAnalysisSample.id <$> samples = ids ∧
       Forall (inherits self b) samples).
Proof.
  intros Hv.
  destruct (get_analysis_config_set self b Hv)
    as (c & Hc & Hb & Hd & Hf).
  assert (∀ ids : list string,
            SnsAnalysisSample.id <$>
              ((λ i, SnsAnalysisSample.__init__ i c (sns_config self))
                 <$> ids) = ids ∧
            Forall (inherits self b)
              ((λ i, SnsAnalysisSample.__init__ i c (sns_config self))
                 <$> ids)) as Hbuilt.
  { intros ids. split.
    - rewrite <- list_fmap_compose. rewrite <- (list_fmap_id ids) at 2.
      apply list_fmap_ext. intros k i _. cbn.
      by destruct (sample_init_registries i c (sns_config self))
        as (_ & _ & -> & _).
    - apply Forall_fmap, Forall_forall. intros i _. cbn.
      destruct (sample_init_registries i c (sns_config self))
        as (H1 & H2 & H3 & H4 & _ & _ & H7 & H8 & H9 & H10 & H11).
      unfold inherits. rewrite H1, H2, H3, H4, H7, H8, H9, H10, H11.
      rewrite Hd, Hf, Hb.
      unfold get_analysis_config in Hc. rewrite Hv in Hc.
      apply Return_inj in Hc. subst c. by repeat split. }
  split.
  - intros ids Hne. eexists. split; [|apply Hbuilt].
    unfold get_samples. destruct ids as [|i ids]; [done|].
    cbn [truthy_list default result_bind].
    by apply build_samples_set with (b := b).
  - intros ids Hids. eexists. split; [|apply Hbuilt].
    unfold get_samples. cbn [truthy_list]. rewrite Hids.
    cbn [result_bind]. by apply build_samples_set with (b := b).
Qed.

Lemma X16_witness_validated_analysis :
  (∃ samples,
     get_samples valid_world
       (with_is_valid (Some true) (demo_analysis valid_world))
       (Some ["S2"; "S1"; "S2"]) = Return samples ∧
     SnsAnalysisSample.id <$> samples = ["S2"; "S1"; "S2"] ∧
     Forall (inherits
               (with_is_valid (Some true) (demo_analysis valid_world)) true)
       samples) ∧
  (∃ samples,
     get_samples valid_world
       (with_is_valid (Some true) (demo_analysis valid_world)) None =
       Return samples ∧
     SnsAnalysisSample.id <$> samples = ["S1"; "S2"] ∧
     Forall (inherits
               (with_is_valid (Some true) (demo_analysis valid_world)) true)
       samples).
Proof.
  destruct (X16_get_samples_one_sample_per_identifier valid_world
              (with_is_valid (Some true) (demo_analysis valid_world)) true)
    as [H1 H2]; [reflexivity|].
  split.
  - apply H1. discriminate.
  - apply H2. vm_compute. reflexivity.
Defined.

(** X17.  [get_samplesIDs_from_samples_fastq_raw] takes the first value
    of every row that the reader yields: at a row without any value (a
    blank line of the manifest) an [IndexError] reaches the caller and no
    identifier is returned. *)
Theorem X17_sample_ids_blank_row (w : World) (self : t)
    (arg : option string) (p : string) (lines : list string)
    (before after : list (list string)) :
  or_default arg (static_files self !! "samples_fastq_raw") = Some p →
  truthy p = true →
  fs w !! p = Some (File lines) →
  csv_reader w lines = (before ++ [] :: after)%list →
  (∀ r, r ∈ before → r ≠ []) →
  get_samplesIDs_from_samples_fastq_raw w self arg = Raise IndexError.
Proof.
  intros Hp Ht Hf Hcsv Hne.
  rewrite (get_samplesIDs_reads w self arg p lines Hp Ht Hf).
  rewrite Hcsv. by rewrite mapR_first_column_blank.
Qed.

Lemma X17_witness_blank_row :
  get_samplesIDs_from_samples_fastq_raw
    {| fs := {["/m.csv" := File ["S1,a.fastq"; "blank"; "S2,b.fastq"]]};
       abspath := λ p, p; config_sns := demo_config;
       csv_reader := λ lines, [["S1"; "a.fastq"]; []; ["S2"; "b.fastq"]];
       csv_DictReader := plain_DictReader |}
    (demo_analysis valid_world) (Some "/m.csv") = Raise IndexError.
Proof.
  apply (X17_sample_ids_blank_row _ _ (Some "/m.csv") "/m.csv"
           ["S1,a.fastq"; "blank"; "S2,b.fastq"]
           [["S1"; "a.fastq"]] [["S2"; "b.fastq"]]).
  - reflexivity.
  - reflexivity.
  - vm_compute. reflexivity.
  - reflexivity.
  - intros r Hr. apply list_elem_of_singleton in Hr as ->. discriminate.
Defined.
